(** * ish-server: the per-user transaction API of [src/index.ts]

    A shallow embedding of the four transaction handlers
    ([POST /ai], [GET /transactions], [PUT /transactions/:id],
    [DELETE /transactions/:id]) together with the pieces of the JavaScript
    run time they lean on: [String.prototype.trim], [toUpperCase],
    [Number(...)], [Number.prototype.toString], [Date.UTC], and the
    drizzle column mapping of [integer(..., { mode: "timestamp" })]. *)

From Stdlib Require Import ZArith List String Ascii Bool Lia.
From Stdlib Require Import Permutation Sorted DecimalString DecimalN.
Import ListNotations.

Open Scope list_scope.
Open Scope string_scope.
Open Scope Z_scope.

(** ** Outcomes of a JavaScript computation

    [Throw] is an exception that propagates to the caller.  [Unmodelled]
    marks the places where the result depends on host behaviour this
    development does not describe (a double that is not an exact decimal,
    a code unit above 255, a value D1 cannot bind); nothing is claimed
    about such runs. *)

Inductive outcome (A : Type) : Type :=
| Value (a : A)
| Throw
| Unmodelled.

Arguments Value {A} a.
Arguments Throw {A}.
Arguments Unmodelled {A}.

Definition bind {A B : Type} (m : outcome A) (k : A -> outcome B) : outcome B :=
  match m with
  | Value a => k a
  | Throw => Throw
  | Unmodelled => Unmodelled
  end.

Notation "x <- m ;; k" := (bind m (fun x => k))
  (at level 61, m at next level, right associativity).

(** ** Strings

    A string is a sequence of code units; the development covers the code
    units below 256. *)

Module Str.

Definition code (c : ascii) : Z := Z.of_N (N_of_ascii c).

Definition chr (n : Z) : ascii := ascii_of_N (Z.to_N n).

(** WhiteSpace and LineTerminator code units: TAB, LF, VT, FF, CR, SP, NBSP. *)
Definition isWhiteSpace (c : ascii) : bool :=
  let n := code c in
  ((9 <=? n) && (n <=? 13)) || (n =? 32) || (n =? 160).

Fixpoint trimStart (s : string) : string :=
  match s with
  | EmptyString => EmptyString
  | String c r => if isWhiteSpace c then trimStart r else s
  end.

Fixpoint trimEnd (s : string) : string :=
  match s with
  | EmptyString => EmptyString
  | String c r =>
      match trimEnd r with
      | EmptyString => if isWhiteSpace c then EmptyString else String c EmptyString
      | r' => String c r'
      end
  end.

(** [String.prototype.trim] *)
Definition trim (s : string) : string := trimEnd (trimStart s).

(** [String.prototype.toUpperCase].  The sharp s becomes "SS"; the micro
    sign and the y with diaeresis map above code unit 255. *)
Fixpoint toUpperCase (s : string) : outcome string :=
  match s with
  | EmptyString => Value EmptyString
  | String c r =>
      let n := code c in
      r' <- toUpperCase r ;;
      if ((97 <=? n) && (n <=? 122))
         || ((224 <=? n) && (n <=? 254) && negb (n =? 247))
      then Value (String (chr (n - 32)) r')
      else if n =? 223 then Value (String "S" (String "S" r'))
      else if (n =? 181) || (n =? 255) then Unmodelled
      else Value (String c r')
  end.

Definition isEmpty (s : string) : bool :=
  match s with EmptyString => true | _ => false end.

Definition isDigit (c : ascii) : bool :=
  let n := code c in (48 <=? n) && (n <=? 57).

(** The longest prefix of decimal digits, and what follows it. *)
Fixpoint spanDigits (s : string) : string * string :=
  match s with
  | EmptyString => (EmptyString, EmptyString)
  | String c r =>
      if isDigit c
      then let (d, rest) := spanDigits r in (String c d, rest)
      else (EmptyString, s)
  end.

Fixpoint allOf (p : ascii -> bool) (s : string) : bool :=
  match s with
  | EmptyString => true
  | String c r => p c && allOf p r
  end.

(** The mathematical value of a digit string read after [acc]. *)
Fixpoint digitsValue (acc : Z) (s : string) : Z :=
  match s with
  | EmptyString => acc
  | String c r => digitsValue (10 * acc + (code c - 48)) r
  end.

Definition len (s : string) : nat := String.length s.

(** [String.prototype.split] on a one-unit separator. *)
Fixpoint split (sep : ascii) (s : string) : list string :=
  match s with
  | EmptyString => [EmptyString]
  | String c r =>
      if Ascii.eqb c sep then EmptyString :: split sep r
      else match split sep r with
           | [] => [String c EmptyString]
           | p :: ps => String c p :: ps
           end
  end.

Fixpoint repeat0 (n : nat) : string :=
  match n with
  | O => EmptyString
  | S k => String "0" (repeat0 k)
  end.

End Str.

(** ** Numbers

    [Dec m e] is the double nearest to [m / 10^e].  The development only
    computes with decimals that a double carries exactly as far as
    [Number.prototype.toString] can tell: at most 15 significant digits
    and no more than 300 decimal places, or an integer of magnitude at
    most [2^53]. *)

Inductive number : Type :=
| NaN
| Dec (m : Z) (e : nat).

Module Num.

(** Drops the trailing zeros of the fraction. *)
Fixpoint strip (m : Z) (e : nat) : Z * nat :=
  match e with
  | O => (m, O)
  | S e' => if m mod 10 =? 0 then strip (m / 10) e' else (m, e)
  end.

Definition exact (m : Z) (e : nat) : bool :=
  let (m', e') := strip m e in
  ((Z.abs m' <? 10 ^ 15) && Nat.leb e' 300)
  || (Nat.eqb e' O && (Z.abs m' <=? 2 ^ 53)).

Definition isNaN (n : number) : bool :=
  match n with NaN => true | Dec _ _ => false end.

(** ToBoolean on a number: [NaN] and both zeros are falsy.  The double
    nearest to [m / 10^e] is a zero exactly when the magnitude is at most
    [2^-1075], half the smallest subnormal (the tie goes to the even
    neighbour, which is zero). *)
Definition truthy (n : number) : bool :=
  match n with
  | NaN => false
  | Dec m e => 10 ^ Z.of_nat e <? Z.abs m * 2 ^ 1075
  end.

(** The integer a number denotes, if it denotes one. *)
Definition toInteger (n : number) : option Z :=
  match n with
  | NaN => None
  | Dec m e => let (m', e') := strip m e in
               if Nat.eqb e' O then Some m' else None
  end.

Definition digits (n : Z) : string :=
  NilZero.string_of_uint (N.to_uint (Z.to_N n)).

(** [Number.prototype.toString] (radix 10).  Magnitudes below [1e-6] print
    in exponent notation and are left out. *)
Definition toString (n : number) : outcome string :=
  match n with
  | NaN => Value "NaN"
  | Dec m e =>
      if negb (exact m e) then Unmodelled else
      let (m', e') := strip m e in
      if m' =? 0 then Value "0" else
      let ds := digits (Z.abs m') in
      let k := Str.len ds in
      let sign := if m' <? 0 then "-" else "" in
      if Nat.eqb e' O then Value (sign ++ ds)
      else if Nat.ltb e' k
      then Value (sign ++ substring 0 (k - e') ds ++ "." ++ substring (k - e') e' ds)
      else if Nat.ltb e' (k + 6)
      then Value (sign ++ "0." ++ Str.repeat0 (e' - k) ++ ds)
      else Unmodelled
  end.

Definition isHexDigit (c : ascii) : bool :=
  let n := Str.code c in
  Str.isDigit c || ((65 <=? n) && (n <=? 70)) || ((97 <=? n) && (n <=? 102)).

Definition isOctalDigit (c : ascii) : bool :=
  let n := Str.code c in (48 <=? n) && (n <=? 55).

Definition isBinaryDigit (c : ascii) : bool :=
  let n := Str.code c in (48 <=? n) && (n <=? 49).

(** NonDecimalIntegerLiteral: [0x], [0o], [0b] followed by digits. *)
Definition nonDecimalLiteral (s : string) : bool :=
  match s with
  | String "0" (String p (String c r)) =>
      let ds := String c r in
      let n := Str.code p in
      if (n =? 120) || (n =? 88) then Str.allOf isHexDigit ds
      else if (n =? 111) || (n =? 79) then Str.allOf isOctalDigit ds
      else if (n =? 98) || (n =? 66) then Str.allOf isBinaryDigit ds
      else false
  | _ => false
  end.

(** ExponentPart without its indicator: an optional sign and digits. *)
Definition exponentDigits (s : string) : bool :=
  let ds := match s with
            | String "+" r => r
            | String "-" r => r
            | _ => s
            end in
  negb (Str.isEmpty ds) && Str.allOf Str.isDigit ds.

(** StringToNumber.  Decimal literals with at most 15 significant digits
    are read exactly; literals with an exponent, a radix prefix or
    [Infinity] are numeric but outside the decimals kept here. *)
Definition StringToNumber (s : string) : outcome number :=
  let t := Str.trim s in
  if Str.isEmpty t then Value (Dec 0 0) else
  if nonDecimalLiteral t then Unmodelled else
  let '(neg, u) := match t with
                   | String "+" r => (false, r)
                   | String "-" r => (true, r)
                   | _ => (false, t)
                   end in
  if String.eqb u "Infinity" then Unmodelled else
  let (ip, r1) := Str.spanDigits u in
  let (fp, r2) := match r1 with
                  | String "." r => Str.spanDigits r
                  | _ => (EmptyString, r1)
                  end in
  if Str.isEmpty ip && Str.isEmpty fp then Value NaN else
  match r2 with
  | EmptyString =>
      let v := Str.digitsValue (Str.digitsValue 0 ip) fp in
      let m := if neg then - v else v in
      if exact m (Str.len fp) then Value (Dec m (Str.len fp)) else Unmodelled
  | String c r3 =>
      if ((Str.code c =? 101) || (Str.code c =? 69)) && exponentDigits r3
      then Unmodelled
      else Value NaN
  end.

End Num.

(** ** JSON values

    What [c.req.json()] and the extraction service hand to the handlers.
    [JObj] lists the own properties of the parsed object. *)

Set Warnings "-register-all".

Inductive json : Type :=
| JNull
| JBool (b : bool)
| JNum (n : number)
| JStr (s : string)
| JArr (xs : list json)
| JObj (fields : list (string * json)).

Module Js.

Fixpoint ownProperty (fields : list (string * json)) (key : string) : option json :=
  match fields with
  | [] => None
  | (k, v) :: rest => if String.eqb k key then Some v else ownProperty rest key
  end.

(** [v?.key] for the keys the handlers read ([text], [currency], [title],
    [amount], [type], [category], [note], [occurredAt]): none of them is
    on a prototype, so only an object's own property answers; [None] is
    [undefined]. *)
Definition get (v : json) (key : string) : option json :=
  match v with
  | JObj fields => ownProperty fields key
  | _ => None
  end.

(** [a ?? b] *)
Definition nullish (a : option json) (b : json) : json :=
  match a with
  | None => b
  | Some JNull => b
  | Some v => v
  end.

(** ToBoolean *)
Definition truthy (v : json) : bool :=
  match v with
  | JNull => false
  | JBool b => b
  | JNum n => Num.truthy n
  | JStr s => negb (Str.isEmpty s)
  | JArr _ => true
  | JObj _ => true
  end.

(** ToString, which is also what [v.toString()] answers on a JSON value
    other than [null].  An array joins its elements with commas, [null]
    elements as the empty string; an object whose own [toString] property
    hides [Object.prototype.toString] has nothing callable there and the
    conversion throws a TypeError. *)
Fixpoint ToString (v : json) : outcome string :=
  match v with
  | JNull => Value "null"
  | JBool true => Value "true"
  | JBool false => Value "false"
  | JNum n => Num.toString n
  | JStr s => Value s
  | JArr xs =>
      (fix join (l : list json) : outcome string :=
         match l with
         | [] => Value ""
         | x :: rest =>
             s <- match x with JNull => Value "" | _ => ToString x end ;;
             match rest with
             | [] => Value s
             | _ => r <- join rest ;; Value (s ++ "," ++ r)
             end
         end) xs
  | JObj fields =>
      match ownProperty fields "toString" with
      | Some _ => Throw
      | None => Value "[object Object]"
      end
  end.

(** ToNumber, that is [Number(v)]. *)
Definition ToNumber (v : json) : outcome number :=
  match v with
  | JNull => Value (Dec 0 0)
  | JBool true => Value (Dec 1 0)
  | JBool false => Value (Dec 0 0)
  | JNum n => Value n
  | JStr s => Num.StringToNumber s
  | JArr _ | JObj _ => s <- ToString v ;; Num.StringToNumber s
  end.

(** [x?.toString()] on a property that may be [undefined] or [null]. *)
Definition optToString (x : option json) : outcome (option string) :=
  match x with
  | None => Value None
  | Some JNull => Value None
  | Some v => s <- ToString v ;; Value (Some s)
  end.

End Js.

(** ** Dates

    Time values are integers of milliseconds since the epoch; [None] is
    the time value of an Invalid Date. *)

Module JsDate.

Definition msPerDay : Z := 86400000.

Definition InLeapYear (y : Z) : bool :=
  (y mod 4 =? 0) && (negb (y mod 100 =? 0) || (y mod 400 =? 0)).

Definition DayFromYear (y : Z) : Z :=
  365 * (y - 1970) + (y - 1969) / 4 - (y - 1901) / 100 + (y - 1601) / 400.

(** Days of the year before month [mn] (0 is January). *)
Definition DayWithinYearOfMonth (leap : bool) (mn : Z) : Z :=
  let l := if leap then 1 else 0 in
  match mn with
  | 0 => 0
  | 1 => 31
  | 2 => 59 + l
  | 3 => 90 + l
  | 4 => 120 + l
  | 5 => 151 + l
  | 6 => 181 + l
  | 7 => 212 + l
  | 8 => 243 + l
  | 9 => 273 + l
  | 10 => 304 + l
  | _ => 334 + l
  end.

Definition MakeDay (year month date : Z) : Z :=
  let ym := year + month / 12 in
  let mn := month mod 12 in
  DayFromYear ym + DayWithinYearOfMonth (InLeapYear ym) mn + date - 1.

Definition TimeClip (t : Z) : option Z :=
  if Z.abs t <=? 8640000000000000 then Some t else None.

(** [Date.UTC(year, month, date, 0, 0, 0, 0)] on integers.  Years 0 to 99
    stand for 1900 to 1999.  Arguments beyond a million are left to the
    engine's own range checks. *)
Definition UTC (year month date : Z) : outcome (option Z) :=
  if (Z.abs year <=? 1000000) && (Z.abs month <=? 1000000)
     && (Z.abs date <=? 1000000)
  then
    let yr := if (0 <=? year) && (year <=? 99) then 1900 + year else year in
    Value (TimeClip (MakeDay yr month date * msPerDay))
  else Unmodelled.

(** [new Date(n)] for a number. *)
Definition ofNumber (n : number) : outcome (option Z) :=
  match n with
  | NaN => Value None
  | Dec m e =>
      if Num.exact m e then Value (TimeClip (Z.quot m (10 ^ Z.of_nat e)))
      else Unmodelled
  end.

End JsDate.

(** ** The calendar, as the specification words it

    "UTC midnight of (year, month, day)" read off the proleptic Gregorian
    calendar by counting days, independently of [Date.UTC]. *)

Module Calendar.

Definition leap (y : Z) : bool :=
  (y mod 4 =? 0) && (negb (y mod 100 =? 0) || (y mod 400 =? 0)).

Definition daysInYear (y : Z) : Z := if leap y then 366 else 365.

Definition daysInMonth (y m : Z) : Z :=
  match m with
  | 2 => if leap y then 29 else 28
  | 4 | 6 | 9 | 11 => 30
  | _ => 31
  end.

(** Days in the years 1 .. n. *)
Fixpoint daysOfYears (n : nat) : Z :=
  match n with
  | O => 0
  | S k => daysOfYears k + daysInYear (Z.of_nat (S k))
  end.

(** Days in the months 1 .. n of year y. *)
Fixpoint daysOfMonths (y : Z) (n : nat) : Z :=
  match n with
  | O => 0
  | S k => daysOfMonths y k + daysInMonth y (Z.of_nat (S k))
  end.

(** Days from 0001-01-01 to 1970-01-01. *)
Definition epochDay : Z := 719162.

Definition validDate (y m d : Z) : Prop :=
  1 <= y <= 9999 /\ 1 <= m <= 12 /\ 1 <= d <= daysInMonth y m.

(** Milliseconds from the epoch to 00:00:00.000 UTC of y-m-d. *)
Definition utcMidnight (y m d : Z) : Z :=
  (daysOfYears (Z.to_nat (y - 1)) + daysOfMonths y (Z.to_nat (m - 1))
   + (d - 1) - epochDay) * 86400000.

(** The instant y-m-dThh:mm:ssZ. *)
Definition instant (y m d hh mm ss : Z) : Z :=
  utcMidnight y m d + hh * 3600000 + mm * 60000 + ss * 1000.

End Calendar.

(** ** The transaction table ([src/db/schema]) *)

Record transaction : Type := mkTransaction {
  id : string;                 (* text("id").primaryKey() *)
  userId : string;             (* text("user_id").notNull() *)
  title : string;
  amount : string;             (* text("amount") *)
  currency : string;
  type : string;               (* text("type") *)
  category : option string;    (* nullable text *)
  note : option string;        (* nullable text *)
  occurredAt : Z;              (* integer, seconds since the epoch *)
  createdAt : Z;
  updatedAt : Z
}.

Module Db.

(** [integer(..., { mode: "timestamp" })] keeps whole seconds:
    [Math.floor(date.getTime() / 1000)] going in, [new Date(value * 1000)]
    coming out. *)
Definition mapToDriverValue (ms : Z) : Z := ms / 1000.
Definition mapFromDriverValue (seconds : Z) : Z := seconds * 1000.

Definition table : Type := list transaction.

Definition hasId (i : string) (t : transaction) : bool := String.eqb (id t) i.
Definition ownedBy (u : string) (t : transaction) : bool := String.eqb (userId t) u.

(** [and(eq(transaction.id, id), eq(transaction.userId, user))] *)
Definition idAndOwner (i u : string) (t : transaction) : bool :=
  hasId i t && ownedBy u t.

(** [insert(...).values(row).returning()]; the primary key rejects a
    second row with the same id. *)
Definition insert (row : transaction) (tb : table) : outcome (list transaction * table) :=
  if existsb (hasId (id row)) tb then Throw
  else Value ([row], (tb ++ [row])%list).

(** [delete(...).where(p).returning()] *)
Definition delete (p : transaction -> bool) (tb : table) : list transaction * table :=
  (filter p tb, filter (fun t => negb (p t)) tb).

(** [update(...).set(f).where(p).returning()] *)
Definition update (f : transaction -> transaction) (p : transaction -> bool)
    (tb : table) : list transaction * table :=
  (map f (filter p tb), map (fun t => if p t then f t else t) tb).

(** [orderBy(desc(transaction.occurredAt))]: rows with equal keys keep
    their table order here; SQLite promises no order among them. *)
Fixpoint insertDesc (t : transaction) (l : list transaction) : list transaction :=
  match l with
  | [] => [t]
  | x :: r => if occurredAt x <=? occurredAt t then t :: l else x :: insertDesc t r
  end.

Definition orderByDesc (l : list transaction) : list transaction :=
  fold_right insertDesc [] l.

(** [select().from(transaction).where(p).orderBy(desc(occurredAt)).limit(n)] *)
Definition select (p : transaction -> bool) (n : nat) (tb : table) : list transaction :=
  firstn n (orderByDesc (filter p tb)).

(** Most recent first. *)
Definition descending (l : list transaction) : Prop :=
  Sorted (fun a b => occurredAt b <= occurredAt a) l.

End Db.

(** ** The extraction schema ([z.object] in [POST /ai]) *)

Inductive txType : Type := income | expense.

Definition txTypeText (t : txType) : string :=
  match t with income => "income" | expense => "expense" end.

Record extraction : Type := mkExtraction {
  x_title : string;
  x_amount : number;
  x_currency : string;
  x_type : txType;
  x_category : string;
  x_note : option string;
  x_occurredAt : option string
}.

Module Schema.

(** [z.string()] with a length window *)
Definition zString (min max : option nat) (v : option json) : option string :=
  match v with
  | Some (JStr s) =>
      let n := Str.len s in
      if match min with Some k => Nat.leb k n | None => true end
         && match max with Some k => Nat.leb n k | None => true end
      then Some s else None
  | _ => None
  end.

(** [z.string().optional()]: [undefined] passes, [null] does not. *)
Definition zOptionalString (v : option json) : option (option string) :=
  match v with
  | None => Some None
  | Some (JStr s) => Some (Some s)
  | _ => None
  end.

(** [z.number()]: a number that is not NaN. *)
Definition zNumber (v : option json) : option number :=
  match v with
  | Some (JNum (Dec m e)) => Some (Dec m e)
  | _ => None
  end.

(** [z.enum(["income", "expense"])] *)
Definition zType (v : option json) : option txType :=
  match v with
  | Some (JStr s) =>
      if String.eqb s "income" then Some income
      else if String.eqb s "expense" then Some expense
      else None
  | _ => None
  end.

(** The whole object schema; [None] is a validation failure. *)
Definition parse (v : json) : option extraction :=
  match v with
  | JObj _ =>
      match zString (Some 1%nat) None (Js.get v "title"),
            zNumber (Js.get v "amount"),
            match Js.get v "currency" with
            | None => Some "USD"
            | c => zString (Some 3%nat) (Some 3%nat) c
            end,
            zType (Js.get v "type"),
            zString None None (Js.get v "category"),
            zOptionalString (Js.get v "note"),
            zOptionalString (Js.get v "occurredAt")
      with
      | Some t, Some a, Some c, Some ty, Some cat, Some n, Some o =>
          Some (mkExtraction t a c ty cat n o)
      | _, _, _, _, _, _, _ => None
      end
  | _ => None
  end.

End Schema.

(** ** What a request sees of the outside world *)

(** The instruction sent to the extraction service is built from these
    three values ([prompt: [...].join("\n")]). *)
Record prompt : Type := mkPrompt {
  preferredCurrency : string;
  todayISO : Z;
  text : string
}.

Record host : Type := mkHost {
  dateParse : string -> option Z;     (* Date.parse; None is NaN *)
  generate : prompt -> option json;   (* the service's JSON answer, if any *)
  randomUUID : string;                (* crypto.randomUUID() *)
  nowToday : Z;                       (* new Date() for todayISO *)
  nowOccurred : Z;                    (* new Date() for a missing occurredAt *)
  nowCreated : Z;                     (* $defaultFn of created_at *)
  nowUpdated : Z                      (* $defaultFn of updated_at *)
}.

(** The table and the log of calls made to the extraction service. *)
Record state : Type := mkState {
  rows : Db.table;
  calls : list prompt
}.

Inductive response : Type :=
| json_error (status : Z) (error : string)
| json_created (parsed : extraction) (created : option transaction)
| json_transactions (items : list transaction)
| json_transaction (updated : transaction)
| json_success
| internal_server_error.   (* an exception reached the framework: 500 *)

Definition caught (st : state) (m : outcome (response * state))
  : outcome (response * state) :=
  match m with
  | Throw => Value (internal_server_error, st)
  | _ => m
  end.

(** [generateObject({ model, schema, prompt })]: the answer validated
    against the schema, or an exception. *)
Definition generateObject (h : host) (p : prompt) : outcome extraction :=
  match generate h p with
  | Some v => match Schema.parse v with
              | Some o => Value o
              | None => Throw
              end
  | None => Throw
  end.

(** [new Date(v)] on a JSON value *)
Definition newDate (h : host) (v : json) : outcome (option Z) :=
  match v with
  | JNull => Value (Some 0)
  | JBool b => Value (Some (if b then 1 else 0))
  | JNum n => JsDate.ofNumber n
  | JStr s => Value (dateParse h s)
  | JArr _ | JObj _ => s <- Js.ToString v ;; Value (dateParse h s)
  end.

(** A Date bound to a timestamp column; what D1 does with the NaN of an
    Invalid Date is not described. *)
Definition bindDate (d : option Z) : outcome Z :=
  match d with
  | Some ms => Value (Db.mapToDriverValue ms)
  | None => Unmodelled
  end.

(** ** POST /ai *)

Definition postAi (h : host) (sessionUser : option string) (body : option json)
    (st : state) : outcome (response * state) :=
  match sessionUser with
  | None => Value (json_error 401 "Unauthorized", st)
  | Some user =>
      caught st (
        b <- match body with Some b => Value b | None => Throw end ;;
        rawText <- Js.ToString (Js.nullish (Js.get b "text") (JStr "")) ;;
        let text := Str.trim rawText in
        rawCurrency <- Js.ToString (Js.nullish (Js.get b "currency") (JStr "USD")) ;;
        preferredCurrency <- Str.toUpperCase (Str.trim rawCurrency) ;;
        if Str.isEmpty text then Value (json_error 400 "Missing text", st) else
        let p := mkPrompt preferredCurrency (nowToday h) text in
        let st1 := mkState (rows st) (calls st ++ [p])%list in
        caught st1 (
          object <- generateObject h p ;;
          occurred <- match x_occurredAt object with
                      | Some s => if Str.isEmpty s then Value (Some (nowOccurred h))
                                  else Value (dateParse h s)
                      | None => Value (Some (nowOccurred h))
                      end ;;
          amountText <- Num.toString (x_amount object) ;;
          occurredSeconds <- bindDate occurred ;;
          let row := {| id := randomUUID h;
                        userId := user;
                        title := x_title object;
                        amount := amountText;
                        currency := x_currency object;
                        type := txTypeText (x_type object);
                        category := Some (x_category object);
                        note := x_note object;
                        occurredAt := occurredSeconds;
                        createdAt := Db.mapToDriverValue (nowCreated h);
                        updatedAt := Db.mapToDriverValue (nowUpdated h) |} in
          r <- Db.insert row (rows st1) ;;
          Value (json_created object (hd_error (fst r)), mkState (snd r) (calls st1))))
  end.

(** ** GET /transactions *)

Definition falsy (x : option number) : bool :=
  match x with
  | None => true
  | Some n => negb (Num.truthy n)
  end.

Definition isNaN (x : option number) : bool :=
  match x with
  | Some n => Num.isNaN n
  | None => false
  end.

(** [Number(part)] for the k-th piece of the split date; [None] is the
    [undefined] of a missing piece. *)
Definition numberAt (parts : list string) (k : nat) : outcome (option number) :=
  match nth_error parts k with
  | Some s => n <- Num.StringToNumber s ;; Value (Some n)
  | None => Value None
  end.

Definition integerOf (x : option number) : outcome Z :=
  match x with
  | Some n => match Num.toInteger n with
              | Some z => Value z
              | None => Unmodelled
              end
  | None => Unmodelled
  end.

(** The body of [if (dateParam) { ... }]: [None] is the 400 answer,
    otherwise the time values of [dayStart] and [dayEnd]. *)
Definition dayBounds (dateParam : string) (tzOffsetParam : option string)
  : outcome (option (Z * Z)) :=
  let parts := Str.split "-" dateParam in
  year <- numberAt parts 0 ;;
  month <- numberAt parts 1 ;;
  day <- numberAt parts 2 ;;
  tzOffset <- match tzOffsetParam with
              | Some s => n <- Num.StringToNumber s ;; Value (Some n)
              | None => Value (Some NaN)
              end ;;
  if falsy year || falsy month || falsy day
     || isNaN year || isNaN month || isNaN day || isNaN tzOffset
  then Value None
  else
    y <- integerOf year ;;
    m <- integerOf month ;;
    d <- integerOf day ;;
    tz <- integerOf tzOffset ;;
    utc <- JsDate.UTC y (m - 1) d ;;
    match utc with
    | None => Unmodelled
    | Some midnight =>
        if Z.abs (tz * 60000) <=? 2 ^ 53 then
          let utcStart := midnight + tz * 60000 in
          match JsDate.TimeClip utcStart,
                JsDate.TimeClip (utcStart + 24 * 60 * 60 * 1000) with
          | Some dayStart, Some dayEnd => Value (Some (dayStart, dayEnd))
          | _, _ => Unmodelled
          end
        else Unmodelled
    end.

(** [and(...filters)] *)
Definition listFilter (user : string) (range : option (Z * Z)) (t : transaction) : bool :=
  Db.ownedBy user t &&
  match range with
  | Some (dayStart, dayEnd) =>
      (Db.mapToDriverValue dayStart <=? occurredAt t)
      && (occurredAt t <? Db.mapToDriverValue dayEnd)
  | None => true
  end.

Definition getTransactions (sessionUser : option string)
    (dateParam tzOffsetParam : option string) (st : state)
  : outcome (response * state) :=
  match sessionUser with
  | None => Value (json_error 401 "Unauthorized", st)
  | Some user =>
      bounds <- match dateParam with
                | Some d => if Str.isEmpty d then Value (Some None)
                            else b <- dayBounds d tzOffsetParam ;;
                                 Value (option_map Some b)
                | None => Value (Some None)
                end ;;
      match bounds with
      | None => Value (json_error 400 "Invalid date or tzOffset", st)
      | Some range =>
          Value (json_transactions (Db.select (listFilter user range) 50 (rows st)), st)
      end
  end.

(** ** DELETE /transactions/:id *)

Definition deleteTransaction (sessionUser : option string) (idParam : string)
    (st : state) : outcome (response * state) :=
  match sessionUser with
  | None => Value (json_error 401 "Unauthorized", st)
  | Some user =>
      if Str.isEmpty idParam then Value (json_error 400 "Missing id", st) else
      let (returned, tb) := Db.delete (Db.idAndOwner idParam user) (rows st) in
      match returned with
      | [] => Value (json_error 404 "Not found", mkState tb (calls st))
      | deleted :: _ => Value (json_success, mkState tb (calls st))
      end
  end.

(** ** PUT /transactions/:id *)

Record payload : Type := mkPayload {
  p_title : option string;             (* None is undefined *)
  p_amount : option json;              (* None is undefined *)
  p_currency : option string;          (* None is undefined *)
  p_type : option json;                (* None is undefined *)
  p_category : option string;          (* None is null *)
  p_note : option string;              (* None is null *)
  p_occurredAt : option (option Z)     (* None is null, Some d a Date *)
}.

(** [s || null] on a string that may be undefined *)
Definition orNull (s : option string) : option string :=
  match s with
  | Some v => if Str.isEmpty v then None else Some v
  | None => None
  end.

Definition truthyString (s : option string) : bool :=
  match s with
  | Some v => negb (Str.isEmpty v)
  | None => false
  end.

Definition truthyValue (v : option json) : bool :=
  match v with
  | Some x => Js.truthy x
  | None => false
  end.

Definition buildPayload (h : host) (body : json) : outcome payload :=
  title <- Js.optToString (Js.get body "title") ;;
  currency <- Js.optToString (Js.get body "currency") ;;
  currency' <- match currency with
               | Some s => u <- Str.toUpperCase (Str.trim s) ;; Value (Some u)
               | None => Value None
               end ;;
  category <- Js.optToString (Js.get body "category") ;;
  note <- Js.optToString (Js.get body "note") ;;
  occurred <- match Js.get body "occurredAt" with
              | Some v => if Js.truthy v
                          then d <- newDate h v ;; Value (Some d)
                          else Value None
              | None => Value None
              end ;;
  Value {| p_title := option_map Str.trim title;
           p_amount := Js.get body "amount";
           p_currency := currency';
           p_type := Js.get body "type";
           p_category := orNull (option_map Str.trim category);
           p_note := orNull (option_map Str.trim note);
           p_occurredAt := occurred |}.

(** The check that answers "Invalid payload". *)
Definition invalidPayload (p : payload) : bool :=
  negb (truthyString (p_title p))
  || match p_amount p with None => true | Some _ => false end
  || negb (truthyString (p_currency p))
  || negb (truthyValue (p_type p)).

(** The columns of [.set({...})]. *)
Record setClause : Type := mkSet {
  s_title : string;
  s_amount : string;
  s_currency : string;
  s_type : string;
  s_category : option string;
  s_note : option string;
  s_occurredAt : option Z      (* None: the column is not in the SET list *)
}.

Definition applySet (s : setClause) (t : transaction) : transaction :=
  {| id := id t;
     userId := userId t;
     title := s_title s;
     amount := s_amount s;
     currency := s_currency s;
     type := s_type s;
     category := s_category s;
     note := s_note s;
     occurredAt := match s_occurredAt s with
                   | Some seconds => seconds
                   | None => occurredAt t
                   end;
     createdAt := createdAt t;
     updatedAt := updatedAt t |}.

(** The values handed to [.set], built after the payload check, which
    has made title and currency non-empty strings; a [type] that is not a
    string is bound by D1 in ways not described here. *)
Definition buildSet (p : payload) : outcome setClause :=
  amountText <- (n <- match p_amount p with
                      | Some v => Js.ToNumber v
                      | None => Value NaN
                      end ;;
                 Num.toString n) ;;
  typeText <- match p_type p with
              | Some (JStr s) => Value s
              | _ => Unmodelled
              end ;;
  occurred <- match p_occurredAt p with
              | Some d => s <- bindDate d ;; Value (Some s)
              | None => Value None
              end ;;
  Value {| s_title := match p_title p with Some s => s | None => "" end;
           s_amount := amountText;
           s_currency := match p_currency p with Some s => s | None => "" end;
           s_type := typeText;
           s_category := p_category p;
           s_note := p_note p;
           s_occurredAt := occurred |}.

Definition putTransaction (h : host) (sessionUser : option string)
    (idParam : string) (body : option json) (st : state)
  : outcome (response * state) :=
  match sessionUser with
  | None => Value (json_error 401 "Unauthorized", st)
  | Some user =>
      if Str.isEmpty idParam then Value (json_error 400 "Missing id", st) else
      caught st (
        b <- match body with Some b => Value b | None => Throw end ;;
        p <- buildPayload h b ;;
        if invalidPayload p then Value (json_error 400 "Invalid payload", st) else
        s <- buildSet p ;;
        let (returned, tb) := Db.update (applySet s) (Db.idAndOwner idParam user) (rows st) in
        match returned with
        | [] => Value (json_error 404 "Not found", mkState tb (calls st))
        | updated :: _ => Value (json_transaction updated, mkState tb (calls st))
        end)
  end.

(** ** Vocabulary of the claims *)

(** The query parameter [s] spells the integer [z]. *)
Definition readsAs (s : string) (z : Z) : Prop :=
  Num.StringToNumber s = Value (Dec z 0).

(** [occurredAt], as the API hands it out, lies in [[lo, hi)]
    (milliseconds since the epoch). *)
Definition inWindow (lo hi : Z) (t : transaction) : bool :=
  (lo <=? Db.mapFromDriverValue (occurredAt t))
  && (Db.mapFromDriverValue (occurredAt t) <? hi).

(** A date written YYYY-MM-DD and an offset written as a signed integer. *)
Definition pad (width : nat) (n : Z) : string :=
  let ds := Num.digits n in Str.repeat0 (width - Str.len ds) ++ ds.

Definition isoDate (y m d : Z) : string :=
  pad 4 y ++ "-" ++ pad 2 m ++ "-" ++ pad 2 d.

Definition showInt (z : Z) : string :=
  if z <? 0 then "-" ++ Num.digits (- z) else Num.digits z.

Definition readsAsb (s : string) (z : Z) : bool :=
  match Num.StringToNumber s with
  | Value (Dec m O) => m =? z
  | _ => false
  end.

Definition padReads (width : nat) (n : Z) : bool :=
  readsAsb (pad width n) n && Str.allOf Str.isDigit (pad width n).

Definition showIntReads (z : Z) : bool := readsAsb (showInt z) z.

Definition rangeZ (lo : Z) (n : nat) : list Z :=
  map (fun k => lo + Z.of_nat k) (seq 0 n).

(** A transaction of [u] inside the window. *)
Definition ownWindow (u : string) (lo hi : Z) (t : transaction) : bool :=
  Db.ownedBy u t && inWindow lo hi t.

(** The answer [r] to a list request of [u] is the window [[lo, hi)]:
    rows of [u] inside the window, most recent first, at most 50, and all
    of them when no more than 50 qualify; the state is as before.  When
    more than 50 qualify the answer has exactly 50 of them, and the
    qualifying rows split into the answer and a rest none of which is
    more recent than any row of the answer. *)
Definition answersWindow (u : string) (st : state) (lo hi : Z)
    (r : outcome (response * state)) : Prop :=
  exists items,
    r = Value (json_transactions items, st)
    /\ Db.descending items
    /\ (List.length items <= 50)%nat
    /\ (forall t, In t items ->
          In t (rows st) /\ userId t = u
          /\ lo <= Db.mapFromDriverValue (occurredAt t) < hi)
    /\ ((List.length (filter (ownWindow u lo hi) (rows st)) <= 50)%nat ->
        forall t, In t (rows st) -> userId t = u ->
          lo <= Db.mapFromDriverValue (occurredAt t) < hi -> In t items)
    /\ List.length items
       = Nat.min 50 (List.length (filter (ownWindow u lo hi) (rows st)))
    /\ (exists rest,
          Permutation (items ++ rest)%list (filter (ownWindow u lo hi) (rows st))
          /\ forall x y, In x items -> In y rest ->
               occurredAt y <= occurredAt x)
    /\ (forall t x, In t (rows st) -> userId t = u ->
          lo <= Db.mapFromDriverValue (occurredAt t) < hi ->
          ~ In t items -> In x items -> occurredAt t <= occurredAt x).

(** Any list answered to [u] in state [st] that shows the transaction
    with id [i] shows exactly the row [t]. *)
Definition readsBack (u : string) (st : state) (i : string) (t : transaction) : Prop :=
  forall dateParam tzOffsetParam items st' x,
    getTransactions (Some u) dateParam tzOffsetParam st
      = Value (json_transactions items, st') ->
    In x items -> id x = i -> x = t.

(** The extraction service gives no schema-conforming object for the
    prompt [p]: no answer at all, or one the schema rejects. *)
Definition failsToConform (h : host) (p : prompt) : Prop :=
  match generate h p with
  | Some answer => Schema.parse answer = None
  | None => True
  end.

Definition isError (r : response) : Prop :=
  match r with
  | json_error _ _ => True
  | internal_server_error => True
  | _ => False
  end.

(** The [text] of the body is absent, [null], or trims to nothing. *)
Definition emptyText (b : json) : Prop :=
  match Js.get b "text" with
  | None => True
  | Some JNull => True
  | Some v => exists s, Js.ToString v = Value s /\ Str.trim s = ""
  end.

(** The [currency] of the body, read the way POST /ai reads it. *)
Definition preferredCurrencyOf (b : json) : outcome string :=
  raw <- Js.ToString (Js.nullish (Js.get b "currency") (JStr "USD")) ;;
  Str.toUpperCase (Str.trim raw).


(** The calendar date after y-m-d. *)
Definition nextDate (y m d : Z) : Z * Z * Z :=
  if d <? Calendar.daysInMonth y m then (y, m, d + 1)
  else if m <? 12 then (y, m + 1, 1)
  else (y + 1, 1, 1).

(** A field of the body that is absent, null, or a value whose string
    trims to nothing. *)
Definition blankField (x : option json) : Prop :=
  match x with
  | None => True
  | Some JNull => True
  | Some v => exists s, Js.ToString v = Value s /\ Str.trim s = ""
  end.

(** A field of the body that is absent or falsy. *)
Definition falsyField (x : option json) : Prop :=
  match x with
  | None => True
  | Some v => Js.truthy v = false
  end.

Definition isLowerAscii (c : ascii) : bool :=
  (97 <=? Str.code c) && (Str.code c <=? 122).

(** The code units that count as white space: TAB, LF, VT, FF, CR, SP
    and NBSP. *)
Definition whiteSpaceUnits : list Z := [9; 10; 11; 12; 13; 32; 160].

Fixpoint allWhiteSpace (s : string) : Prop :=
  match s with
  | EmptyString => True
  | String c r => In (Str.code c) whiteSpaceUnits /\ allWhiteSpace r
  end.

(** [kept] is [raw] without the white space at its two ends: what is cut
    off is white space, and the first and the last code unit of what is
    kept are not. *)
Definition trimsTo (raw kept : string) : Prop :=
  exists pre post,
    raw = pre ++ kept ++ post
    /\ allWhiteSpace pre /\ allWhiteSpace post
    /\ (forall c, String.get 0 kept = Some c ->
          ~ In (Str.code c) whiteSpaceUnits)
    /\ (forall c, String.get (Nat.pred (String.length kept)) kept = Some c ->
          ~ In (Str.code c) whiteSpaceUnits).

(** What an update stores in a nullable text column for the field [x] of
    the body: null for an absent, null or blank value, and otherwise the
    value's string without the white space at its ends. *)
Definition storesField (x : option json) (stored : option string) : Prop :=
  (x = None \/ x = Some JNull -> stored = None)
  /\ (forall raw, x = Some (JStr raw) -> allWhiteSpace raw -> stored = None)
  /\ (forall raw kept, x = Some (JStr raw) -> trimsTo raw kept -> kept <> "" ->
        stored = Some kept)
  /\ (forall v, x = Some v -> v <> JNull ->
        exists s kept,
          Js.ToString v = Value s /\ trimsTo s kept
          /\ stored = match kept with
                      | EmptyString => None
                      | _ => Some kept
                      end).

(** ** Sample data *)

Module Sample.

(** A conforming answer of the extraction service. *)
Definition lunch : json :=
  JObj [("title", JStr "Chipotle"); ("amount", JNum (Dec 1250 2));
        ("currency", JStr "USD"); ("type", JStr "expense");
        ("category", JStr "food")].

(** An answer without the required [type]. *)
Definition untyped : json :=
  JObj [("title", JStr "Chipotle"); ("amount", JNum (Dec 1250 2));
        ("category", JStr "food")].

Definition hostAnswering (answer : option json) : host :=
  {| dateParse := fun _ => None;
     generate := fun _ => answer;
     randomUUID := "t-2";
     nowToday := 1710046800123;
     nowOccurred := 1710046800124;
     nowCreated := 1710046800125;
     nowUpdated := 1710046800126 |}.

Definition aHost : host := hostAnswering (Some lunch).

(** A transaction of alice. *)
Definition rowAt (i : string) (seconds : Z) : transaction :=
  {| id := i; userId := "alice"; title := "Rent"; amount := "900";
     currency := "USD"; type := "expense"; category := Some "home";
     note := Some "march"; occurredAt := seconds;
     createdAt := 1709000000; updatedAt := 1709000000 |}.

(** 2024-03-10T04:00:00Z *)
Definition row : transaction := rowAt "t-1" 1710043200.

Definition aState : state := mkState [row] [].

(** Fifty-one transactions of alice on 2024-03-10, one per second from
    midnight UTC. *)
Definition busyDay : state :=
  mkState (map (fun k => rowAt ("r" ++ Num.digits (Z.of_nat k))
                              (1710028800 + Z.of_nat k))
               (seq 0 51)) [].

Definition aBody : json :=
  JObj [("title", JStr " Rent "); ("amount", JStr "12.50");
        ("currency", JStr "USD"); ("type", JStr "expense")].

(** The same update with a type outside the enumeration. *)
Definition bananaBody : json :=
  JObj [("title", JStr "Rent"); ("amount", JNum (Dec 900 0));
        ("currency", JStr "usd"); ("type", JStr "banana")].



Definition blankTitleBody : json :=
  JObj [("title", JStr "   "); ("amount", JNum (Dec 5 0));
        ("currency", JStr "USD"); ("type", JStr "income")].

Definition textBody : json := JObj [("text", JStr "lunch at Chipotle 12.50")].

(** An update whose type is the number 1e-400, which a double holds as 0. *)
Definition tinyTypeBody : json :=
  JObj [("title", JStr "Rent"); ("amount", JNum (Dec 5 0));
        ("currency", JStr "USD"); ("type", JNum (Dec 1 400))].

(** An update with white space around its category and a blank note. *)
Definition foodBody : json :=
  JObj [("title", JStr "Rent"); ("amount", JNum (Dec 900 0));
        ("currency", JStr "usd"); ("type", JStr "expense");
        ("category", JStr "  Food  "); ("note", JStr "   ")].

(** A service that conforms on every text but one. *)
Definition pickyHost : host :=
  {| dateParse := fun _ => None;
     generate := fun p => if String.eqb (text p) "gibberish"
                          then Some untyped else Some lunch;
     randomUUID := "t-2";
     nowToday := 1710046800123;
     nowOccurred := 1710046800124;
     nowCreated := 1710046800125;
     nowUpdated := 1710046800126 |}.

Definition gibberishBody : json := JObj [("text", JStr " gibberish ")].

(** No text, and a currency whose own [toString] is not a function. *)
Definition oddCurrencyBody : json :=
  JObj [("text", JStr "");
        ("currency", JObj [("toString", JNum (Dec 1 0))])].

(** A later moment of the same host. *)
Definition laterHost : host :=
  {| dateParse := fun _ => None;
     generate := fun _ => Some lunch;
     randomUUID := "t-3";
     nowToday := 1710133200000;
     nowOccurred := 1710133200000;
     nowCreated := 1710133200000;
     nowUpdated := 1710133200000 |}.

End Sample.

(** * Properties *)

(** ** The table operations *)

Section TableFacts.

Variable p : transaction -> bool.

Lemma filter_nil_iff (l : list transaction) :
  filter p l = [] <-> forall t, In t l -> p t = false.
Proof.
  induction l as [|x l IH]; simpl.
  - split; [intros _ t []|reflexivity].
  - destruct (p x) eqn:Hx; split.
    + discriminate.
    + intros H. rewrite (H x (or_introl eq_refl)) in Hx. discriminate.
    + intros H t [<-|Ht]; [assumption|]. now apply IH.
    + intros H. apply IH. intros t Ht. apply H. now right.
Qed.

Lemma filter_negb_all (l : list transaction) :
  (forall t, In t l -> p t = false) -> filter (fun t => negb (p t)) l = l.
Proof.
  induction l as [|x l IH]; simpl; intros H; [reflexivity|].
  rewrite (H x (or_introl eq_refl)). simpl. f_equal. apply IH.
  intros t Ht. apply H. now right.
Qed.

Lemma map_if_none (f : transaction -> transaction) (l : list transaction) :
  (forall t, In t l -> p t = false) -> map (fun t => if p t then f t else t) l = l.
Proof.
  induction l as [|x l IH]; simpl; intros H; [reflexivity|].
  rewrite (H x (or_introl eq_refl)). f_equal. apply IH.
  intros t Ht. apply H. now right.
Qed.

Lemma delete_nothing (tb : Db.table) :
  (forall t, In t tb -> p t = false) -> Db.delete p tb = ([], tb).
Proof.
  intros H. unfold Db.delete.
  rewrite (proj2 (filter_nil_iff tb) H), (filter_negb_all tb H). reflexivity.
Qed.

Lemma update_nothing (f : transaction -> transaction) (tb : Db.table) :
  (forall t, In t tb -> p t = false) -> Db.update f p tb = ([], tb).
Proof.
  intros H. unfold Db.update.
  rewrite (proj2 (filter_nil_iff tb) H), (map_if_none f tb H). reflexivity.
Qed.

(** Rows outside the WHERE clause survive an update untouched. *)
Lemma update_frame (f : transaction -> transaction) (tb : Db.table) (t : transaction) :
  In t tb -> p t = false -> In t (snd (Db.update f p tb)).
Proof.
  intros Hin Hp. simpl. apply in_map_iff. exists t. now rewrite Hp.
Qed.

Lemma delete_frame (tb : Db.table) (t : transaction) :
  In t tb -> p t = false -> In t (snd (Db.delete p tb)).
Proof.
  intros Hin Hp. simpl. apply filter_In. now rewrite Hp.
Qed.

End TableFacts.

Lemma idAndOwner_true (i u : string) (t : transaction) :
  Db.idAndOwner i u t = true <-> id t = i /\ userId t = u.
Proof.
  unfold Db.idAndOwner, Db.hasId, Db.ownedBy.
  rewrite andb_true_iff, !String.eqb_eq. tauto.
Qed.

(** Under the primary key, a row of another owner shields its id. *)
Lemma foreign_id_matches_nothing (tb : Db.table) (T : transaction) (u : string) :
  NoDup (map id tb) -> In T tb -> u <> userId T ->
  forall t, In t tb -> Db.idAndOwner (id T) u t = false.
Proof.
  intros Hnd HT Hu t Ht.
  destruct (Db.idAndOwner (id T) u t) eqn:E; [|reflexivity].
  apply idAndOwner_true in E. destruct E as [Hid Hown].
  assert (t = T).
  { clear Hu Hown. induction tb as [|x tb IH]; [contradiction|].
    simpl in Hnd. inversion Hnd as [|? ? Hx Hnd']; subst.
    destruct Ht as [->|Ht], HT as [->|HT]; try reflexivity.
    - exfalso. apply Hx. rewrite Hid. now apply in_map.
    - exfalso. apply Hx. rewrite <- Hid. now apply in_map.
    - now apply IH. }
  subst t. now symmetry in Hown.
Qed.

(** ** Ordering and the row cap *)

Lemma insertDesc_perm (t : transaction) (l : list transaction) :
  Permutation (Db.insertDesc t l) (t :: l).
Proof.
  induction l as [|x l IH]; simpl; [reflexivity|].
  destruct (occurredAt x <=? occurredAt t); [reflexivity|].
  rewrite IH. apply perm_swap.
Qed.

Lemma orderByDesc_perm (l : list transaction) : Permutation (Db.orderByDesc l) l.
Proof.
  induction l as [|x l IH]; simpl; [reflexivity|].
  rewrite insertDesc_perm. now constructor.
Qed.

Lemma insertDesc_sorted (t : transaction) (l : list transaction) :
  Db.descending l -> Db.descending (Db.insertDesc t l).
Proof.
  unfold Db.descending. induction l as [|x l IH]; simpl; intros Hs.
  - repeat constructor.
  - destruct (occurredAt x <=? occurredAt t) eqn:E.
    + constructor; [assumption|]. constructor. now apply Z.leb_le.
    + apply Z.leb_gt in E. inversion Hs as [|? ? Hs' Hhd]; subst.
      constructor; [now apply IH|].
      destruct l as [|y l]; simpl.
      * constructor. lia.
      * destruct (occurredAt y <=? occurredAt t); constructor; try lia.
        now inversion Hhd.
Qed.

Lemma orderByDesc_sorted (l : list transaction) : Db.descending (Db.orderByDesc l).
Proof.
  induction l as [|x l IH]; simpl; [constructor|].
  now apply insertDesc_sorted.
Qed.

Lemma firstn_incl (A : Type) (n : nat) (l : list A) (x : A) :
  In x (firstn n l) -> In x l.
Proof.
  revert l. induction n as [|n IH]; intros [|y l]; simpl; try tauto.
  intros [->|H]; [now left|right; now apply IH].
Qed.

(** What a capped, ordered SELECT returns. *)
Lemma select_sound (p : transaction -> bool) (n : nat) (tb : Db.table) (t : transaction) :
  In t (Db.select p n tb) -> In t tb /\ p t = true.
Proof.
  unfold Db.select. intros H. apply firstn_incl in H.
  apply (Permutation_in _ (orderByDesc_perm _)) in H.
  now apply filter_In in H.
Qed.

Lemma select_complete (p : transaction -> bool) (n : nat) (tb : Db.table) (t : transaction) :
  (List.length (filter p tb) <= n)%nat -> In t tb -> p t = true -> In t (Db.select p n tb).
Proof.
  unfold Db.select. intros Hlen Hin Hp.
  rewrite firstn_all2.
  - apply (Permutation_in _ (Permutation_sym (orderByDesc_perm _))).
    now apply filter_In.
  - now rewrite (Permutation_length (orderByDesc_perm _)).
Qed.

Lemma select_length (p : transaction -> bool) (n : nat) (tb : Db.table) :
  (List.length (Db.select p n tb) <= n)%nat.
Proof. unfold Db.select. apply firstn_le_length. Qed.

(** The cap takes as many rows as there are, up to [n]. *)
Lemma select_count (p : transaction -> bool) (n : nat) (tb : Db.table) :
  List.length (Db.select p n tb) = Nat.min n (List.length (filter p tb)).
Proof.
  unfold Db.select.
  now rewrite length_firstn, (Permutation_length (orderByDesc_perm _)).
Qed.

(** In a list sorted most recent first, nothing behind a cut is more
    recent than anything before it. *)
Lemma descending_cut (n : nat) (l : list transaction) :
  Db.descending l ->
  forall x y, In x (firstn n l) -> In y (skipn n l) -> occurredAt y <= occurredAt x.
Proof.
  intros Hs.
  assert (Hss : StronglySorted (fun a b => occurredAt b <= occurredAt a) l).
  { apply Sorted_StronglySorted; [|exact Hs]. intros a b c Hab Hbc. lia. }
  clear Hs. revert n. induction Hss as [|a l Hss IH Hall]; intros n x y.
  - destruct n; intros [].
  - destruct n as [|n]; [intros []|]. cbn [firstn skipn].
    intros [<-|Hx] Hy.
    + rewrite Forall_forall in Hall. apply Hall.
      rewrite <- (firstn_skipn n l). apply in_or_app. now right.
    + now apply (IH n).
Qed.

(** The rows the cap leaves out are no more recent than those it keeps. *)
Lemma select_rest (p : transaction -> bool) (n : nat) (tb : Db.table) :
  exists rest,
    Permutation (Db.select p n tb ++ rest)%list (filter p tb)
    /\ forall x y, In x (Db.select p n tb) -> In y rest ->
         occurredAt y <= occurredAt x.
Proof.
  exists (skipn n (Db.orderByDesc (filter p tb))). unfold Db.select. split.
  - rewrite firstn_skipn. apply orderByDesc_perm.
  - apply descending_cut, orderByDesc_sorted.
Qed.

(** ** Handler facts shared by the claims *)

Lemma state_eta (st : state) : mkState (rows st) (calls st) = st.
Proof. now destruct st. Qed.

Lemma isEmpty_false (s : string) : s <> "" -> Str.isEmpty s = false.
Proof. destruct s; [congruence|reflexivity]. Qed.

Lemma isEmpty_true (s : string) : Str.isEmpty s = true <-> s = "".
Proof. destruct s; simpl; split; congruence. Qed.

Lemma idAndOwner_false (i u : string) (t : transaction) :
  ~ (id t = i /\ userId t = u) -> Db.idAndOwner i u t = false.
Proof.
  intros H. destruct (Db.idAndOwner i u t) eqn:E; [|reflexivity].
  now apply idAndOwner_true in E.
Qed.

(** DELETE changes the table only through its WHERE clause. *)
Lemma deleteTransaction_rows (u i : string) (st st' : state) (r : response) :
  deleteTransaction (Some u) i st = Value (r, st') ->
  rows st' = rows st \/ rows st' = snd (Db.delete (Db.idAndOwner i u) (rows st)).
Proof.
  unfold deleteTransaction. destruct (Str.isEmpty i).
  - intros [= _ <-]. now left.
  - destruct (Db.delete (Db.idAndOwner i u) (rows st)) as [ret tb] eqn:E.
    destruct ret; intros [= _ <-]; right; reflexivity.
Qed.

(** PUT changes the table only through its WHERE clause. *)
Lemma putTransaction_rows (h : host) (u i : string) (body : option json)
    (st st' : state) (r : response) :
  putTransaction h (Some u) i body st = Value (r, st') ->
  rows st' = rows st \/
  exists s, rows st' = snd (Db.update (applySet s) (Db.idAndOwner i u) (rows st)).
Proof.
  unfold putTransaction. destruct (Str.isEmpty i).
  - intros [= _ <-]. now left.
  - destruct body as [b|]; simpl; [|intros [= _ <-]; now left].
    destruct (buildPayload h b) as [p| |]; simpl; try discriminate;
      [|intros [= _ <-]; now left].
    destruct (invalidPayload p); [intros [= _ <-]; now left|].
    destruct (buildSet p) as [s| |]; simpl; try discriminate;
      [|intros [= _ <-]; now left].
    destruct (filter (Db.idAndOwner i u) (rows st)); simpl;
      intros [= _ <-]; right; exists s; reflexivity.
Qed.

(** A PUT that answers with a row has passed every check. *)
Lemma putTransaction_success (h : host) (su : option string) (i : string)
    (body : option json) (st st' : state) (t : transaction) :
  putTransaction h su i body st = Value (json_transaction t, st') ->
  exists u b p s old rest,
    su = Some u /\ body = Some b /\ Str.isEmpty i = false
    /\ buildPayload h b = Value p /\ invalidPayload p = false
    /\ buildSet p = Value s
    /\ filter (Db.idAndOwner i u) (rows st) = old :: rest
    /\ t = applySet s old
    /\ st' = mkState (snd (Db.update (applySet s) (Db.idAndOwner i u) (rows st)))
                     (calls st).
Proof.
  unfold putTransaction. destruct su as [u|]; [|discriminate].
  destruct (Str.isEmpty i) eqn:Ei; [discriminate|].
  destruct body as [b|]; simpl; [|discriminate].
  destruct (buildPayload h b) as [p| |] eqn:Ep; simpl; try discriminate.
  destruct (invalidPayload p) eqn:Ev; [discriminate|].
  destruct (buildSet p) as [s| |] eqn:Es; simpl; try discriminate.
  destruct (filter (Db.idAndOwner i u) (rows st)) as [|old rest] eqn:Ef; simpl;
    [discriminate|].
  intros [= <- <-]. exists u, b, p, s, old, rest. repeat split; auto.
Qed.

(** The converse: a request that passes every check and finds its row. *)
Lemma putTransaction_found (h : host) (u i : string) (b : json) (p : payload)
    (s : setClause) (st : state) (old : transaction) (rest : list transaction) :
  Str.isEmpty i = false -> buildPayload h b = Value p ->
  invalidPayload p = false -> buildSet p = Value s ->
  filter (Db.idAndOwner i u) (rows st) = old :: rest ->
  putTransaction h (Some u) i (Some b) st =
    Value (json_transaction (applySet s old),
           mkState (snd (Db.update (applySet s) (Db.idAndOwner i u) (rows st)))
                   (calls st)).
Proof.
  intros Ei Ep Ev Es Ef. unfold putTransaction. rewrite Ei. simpl.
  rewrite Ep. simpl. rewrite Ev, Es. simpl. rewrite Ef. reflexivity.
Qed.

Lemma getTransactions_items (u : string) (dateParam tzOffsetParam : option string)
    (st st' : state) (items : list transaction) :
  getTransactions (Some u) dateParam tzOffsetParam st
    = Value (json_transactions items, st') ->
  st' = st /\ exists range, items = Db.select (listFilter u range) 50 (rows st).
Proof.
  unfold getTransactions.
  destruct (match dateParam with
            | Some d => if Str.isEmpty d then Value (Some None)
                        else b <- dayBounds d tzOffsetParam ;; Value (option_map Some b)
            | None => Value (Some None)
            end) as [[range|]| |]; simpl; try discriminate.
  intros [= <- <-]. split; [reflexivity|]. now exists range.
Qed.

(** Whatever the filter, a listed row is a stored row of the caller. *)
Lemma getTransactions_owned (u : string) (dateParam tzOffsetParam : option string)
    (st st' : state) (items : list transaction) (t : transaction) :
  getTransactions (Some u) dateParam tzOffsetParam st
    = Value (json_transactions items, st') ->
  In t items -> In t (rows st) /\ userId t = u.
Proof.
  intros H Hin. apply getTransactions_items in H. destruct H as [_ [range ->]].
  apply select_sound in Hin. destruct Hin as [Hin Hp]. split; [assumption|].
  unfold listFilter in Hp. apply andb_true_iff in Hp. destruct Hp as [Hown _].
  now apply String.eqb_eq in Hown.
Qed.

(** ** C1: ownership isolation *)

(** C1.  A caller [U] who does not own the stored transaction [T] gets
    404 "Not found" from DELETE on [T]'s id, and from PUT on [T]'s id
    whenever the payload passes validation; no PUT on that id succeeds or
    changes the store; [T] is in no list answered to [U]; and PUT and
    DELETE leave every row alone that does not match both the id and the
    caller's userId. *)
Theorem ownership_isolation (h : host) (st : state) (T : transaction) (U : string) :
  NoDup (map id (rows st)) -> In T (rows st) -> U <> userId T -> id T <> "" ->
  deleteTransaction (Some U) (id T) st = Value (json_error 404 "Not found", st)
  /\ (forall b p s,
        buildPayload h b = Value p -> invalidPayload p = false ->
        buildSet p = Value s ->
        putTransaction h (Some U) (id T) (Some b) st
          = Value (json_error 404 "Not found", st))
  /\ (forall body r st',
        putTransaction h (Some U) (id T) body st = Value (r, st') ->
        st' = st /\ forall t, r <> json_transaction t)
  /\ (forall dateParam tzOffsetParam items st',
        getTransactions (Some U) dateParam tzOffsetParam st
          = Value (json_transactions items, st') -> ~ In T items)
  /\ (forall i u t, In t (rows st) -> ~ (id t = i /\ userId t = u) ->
        (forall r st', deleteTransaction (Some u) i st = Value (r, st') ->
                       In t (rows st'))
        /\ (forall body r st', putTransaction h (Some u) i body st = Value (r, st') ->
                               In t (rows st'))).
Proof.
  intros Hnd HT HU Hid.
  pose proof (foreign_id_matches_nothing _ _ _ Hnd HT HU) as Hnone.
  pose proof (isEmpty_false _ Hid) as He.
  repeat split.
  - unfold deleteTransaction. rewrite He, (delete_nothing _ _ Hnone).
    now rewrite state_eta.
  - intros b p s Hp Hv Hs. unfold putTransaction. rewrite He. simpl.
    rewrite Hp. simpl. rewrite Hv, Hs. simpl.
    rewrite (proj2 (filter_nil_iff _ _) Hnone). simpl.
    rewrite (map_if_none _ _ _ Hnone). now rewrite state_eta.
  - revert H. unfold putTransaction. rewrite He.
    destruct body as [b|]; simpl; [|now intros [= _ <-]].
    destruct (buildPayload h b) as [p| |]; simpl; try discriminate;
      [|now intros [= _ <-]].
    destruct (invalidPayload p); [now intros [= _ <-]|].
    destruct (buildSet p) as [s| |]; simpl; try discriminate;
      [|now intros [= _ <-]].
    rewrite (proj2 (filter_nil_iff _ _) Hnone). simpl.
    rewrite (map_if_none _ _ _ Hnone). intros [= _ <-]. apply state_eta.
  - intros t Hr. rewrite Hr in H. apply putTransaction_success in H.
    destruct H as (u & b & p & s & old & rest & [= <-] & _ & _ & _ & _ & _ & Hf & _).
    rewrite (proj2 (filter_nil_iff _ _) Hnone) in Hf. discriminate.
  - intros dateParam tzOffsetParam items st' H Hin.
    apply (getTransactions_owned _ _ _ _ _ _ T) in H; [|assumption].
    destruct H as [_ Hown]. now symmetry in Hown.
  - intros r st' Hd. apply deleteTransaction_rows in Hd.
    destruct Hd as [->| ->]; [assumption|].
    apply delete_frame; [assumption|now apply idAndOwner_false].
  - intros body r st' Hp. apply putTransaction_rows in Hp.
    destruct Hp as [->|[s ->]]; [assumption|].
    apply update_frame; [assumption|now apply idAndOwner_false].
Qed.

Lemma ownership_isolation_witness :
  deleteTransaction (Some "bob") "t-1" Sample.aState
    = Value (json_error 404 "Not found", Sample.aState)
  /\ putTransaction Sample.aHost (Some "bob") "t-1" (Some Sample.aBody) Sample.aState
    = Value (json_error 404 "Not found", Sample.aState).
Proof.
  destruct (ownership_isolation Sample.aHost Sample.aState Sample.row "bob")
    as (Hd & Hp & _).
  - simpl. constructor; [intros []|constructor].
  - simpl. now left.
  - discriminate.
  - discriminate.
  - split; [exact Hd|]. eapply Hp; reflexivity.
Defined.

(** ** [Date.UTC] against the calendar *)

Lemma DayFromYear_succ (y : Z) :
  JsDate.DayFromYear (y + 1) = JsDate.DayFromYear y + Calendar.daysInYear y.
Proof.
  unfold JsDate.DayFromYear, Calendar.daysInYear, Calendar.leap.
  destruct (y mod 4 =? 0) eqn:E4; destruct (y mod 100 =? 0) eqn:E100;
    destruct (y mod 400 =? 0) eqn:E400; cbn [andb orb negb];
    rewrite ?Z.eqb_eq, ?Z.eqb_neq in *;
    Z.div_mod_to_equations; lia.
Qed.

Lemma DayFromYear_daysOfYears (n : nat) :
  JsDate.DayFromYear (Z.of_nat n + 1) = Calendar.daysOfYears n - Calendar.epochDay.
Proof.
  induction n as [|n IH].
  - reflexivity.
  - rewrite Nat2Z.inj_succ. unfold Z.succ. rewrite DayFromYear_succ, IH.
    cbn [Calendar.daysOfYears]. rewrite Nat2Z.inj_succ. unfold Z.succ. lia.
Qed.

Lemma daysInYear_bounds (y : Z) : 365 <= Calendar.daysInYear y <= 366.
Proof. unfold Calendar.daysInYear. destruct (Calendar.leap y); lia. Qed.

Lemma daysOfYears_bounds (n : nat) :
  0 <= Calendar.daysOfYears n <= 366 * Z.of_nat n.
Proof.
  induction n as [|n IH]; [cbn; lia|].
  cbn [Calendar.daysOfYears].
  pose proof (daysInYear_bounds (Z.of_nat (S n))). lia.
Qed.

Lemma daysInMonth_bounds (y m : Z) : 28 <= Calendar.daysInMonth y m <= 31.
Proof.
  unfold Calendar.daysInMonth.
  repeat match goal with
         | |- context [match ?x with _ => _ end] => destruct x
         end; lia.
Qed.

Lemma DayWithinYear_daysOfMonths (y m : Z) :
  1 <= m <= 12 ->
  JsDate.DayWithinYearOfMonth (JsDate.InLeapYear y) (m - 1)
  = Calendar.daysOfMonths y (Z.to_nat (m - 1)).
Proof.
  intros Hm.
  assert (Hc : m = 1 \/ m = 2 \/ m = 3 \/ m = 4 \/ m = 5 \/ m = 6 \/ m = 7
               \/ m = 8 \/ m = 9 \/ m = 10 \/ m = 11 \/ m = 12) by lia.
  change (JsDate.InLeapYear y) with (Calendar.leap y).
  repeat (destruct Hc as [->|Hc]); [..|subst m];
    cbv -[Calendar.leap]; destruct (Calendar.leap y); reflexivity.
Qed.

Lemma daysOfMonths_bounds (y : Z) (n : nat) :
  0 <= Calendar.daysOfMonths y n <= 31 * Z.of_nat n.
Proof.
  induction n as [|n IH]; [cbn; lia|].
  cbn [Calendar.daysOfMonths].
  pose proof (daysInMonth_bounds y (Z.of_nat (S n))). lia.
Qed.

(** On a calendar date from year 100 on, [Date.UTC] is UTC midnight. *)
Lemma UTC_is_utcMidnight (y m d : Z) :
  Calendar.validDate y m d -> 100 <= y ->
  JsDate.UTC y (m - 1) d = Value (Some (Calendar.utcMidnight y m d)).
Proof.
  intros (Hy & Hm & Hd) Hy100.
  pose proof (daysInMonth_bounds y m) as Hdim.
  unfold JsDate.UTC.
  replace ((Z.abs y <=? 1000000) && (Z.abs (m - 1) <=? 1000000)
           && (Z.abs d <=? 1000000)) with true
    by (symmetry; rewrite !andb_true_iff, !Z.leb_le; lia).
  replace ((0 <=? y) && (y <=? 99)) with false
    by (symmetry; apply andb_false_iff; right; apply Z.leb_gt; lia).
  unfold JsDate.MakeDay.
  rewrite (Z.div_small (m - 1) 12), (Z.mod_small (m - 1) 12), Z.add_0_r by lia.
  rewrite DayWithinYear_daysOfMonths by lia.
  replace y with (Z.of_nat (Z.to_nat (y - 1)) + 1) at 1 by lia.
  rewrite DayFromYear_daysOfYears.
  unfold Calendar.utcMidnight, JsDate.msPerDay, JsDate.TimeClip.
  pose proof (daysOfYears_bounds (Z.to_nat (y - 1))) as B1.
  pose proof (daysOfMonths_bounds y (Z.to_nat (m - 1))) as B2.
  unfold Calendar.epochDay in *.
  match goal with
  | |- Value (if ?c then _ else _) = _ =>
      replace c with true by (symmetry; apply Z.leb_le; lia)
  end.
  do 2 f_equal. lia.
Qed.

Lemma utcMidnight_bounds (y m d : Z) :
  Calendar.validDate y m d ->
  -62135596800000 <= Calendar.utcMidnight y m d <= 254057212800000
  /\ Calendar.utcMidnight y m d mod 1000 = 0.
Proof.
  intros (Hy & Hm & Hd).
  pose proof (daysInMonth_bounds y m) as Hdim.
  pose proof (daysOfYears_bounds (Z.to_nat (y - 1))) as B1.
  pose proof (daysOfMonths_bounds y (Z.to_nat (m - 1))) as B2.
  unfold Calendar.utcMidnight, Calendar.epochDay in *. split; [lia|].
  match goal with
  | |- (?k * 86400000) mod 1000 = 0 =>
      replace (k * 86400000) with ((k * 86400) * 1000) by lia
  end.
  apply Z.mod_mul. lia.
Qed.

(** ** The day window of GET /transactions *)

Lemma toInteger_int (z : Z) : Num.toInteger (Dec z 0) = Some z.
Proof. reflexivity. Qed.

Lemma truthy_integer (z : Z) : Num.truthy (Dec z 0) = negb (z =? 0).
Proof.
  unfold Num.truthy. change (10 ^ Z.of_nat 0) with 1.
  assert (HK : 1 < 2 ^ 1075) by (apply Z.pow_gt_1; lia).
  generalize dependent (2 ^ 1075). intros K HK.
  destruct (z =? 0) eqn:E; cbn [negb].
  - apply Z.eqb_eq in E. subst z. apply Z.ltb_ge. change (Z.abs 0) with 0. lia.
  - apply Z.eqb_neq in E. apply Z.ltb_lt. nia.
Qed.

(** Whole seconds compare like milliseconds when the bound is a whole
    second. *)
Lemma seconds_window (lo hi : Z) (t : transaction) :
  lo mod 1000 = 0 -> hi mod 1000 = 0 ->
  (Db.mapToDriverValue lo <=? occurredAt t)
  && (occurredAt t <? Db.mapToDriverValue hi) = inWindow lo hi t.
Proof.
  intros Hlo Hhi. unfold inWindow, Db.mapToDriverValue, Db.mapFromDriverValue.
  f_equal.
  - apply eq_true_iff_eq. rewrite !Z.leb_le.
    split; intros H; Z.div_mod_to_equations; lia.
  - apply eq_true_iff_eq. rewrite !Z.ltb_lt.
    split; intros H; Z.div_mod_to_equations; lia.
Qed.

Lemma select_ext (p q : transaction -> bool) (n : nat) (tb : Db.table) :
  (forall t, p t = q t) -> Db.select p n tb = Db.select q n tb.
Proof.
  intros H. unfold Db.select. now rewrite (filter_ext _ _ H).
Qed.

Lemma getTransactions_window (u : string) (st : state) (dateParam : string)
    (tzOffsetParam : option string) (lo hi : Z) :
  dateParam <> "" ->
  dayBounds dateParam tzOffsetParam = Value (Some (lo, hi)) ->
  lo mod 1000 = 0 -> hi mod 1000 = 0 ->
  getTransactions (Some u) (Some dateParam) tzOffsetParam st
  = Value (json_transactions (Db.select (ownWindow u lo hi) 50 (rows st)), st).
Proof.
  intros Hne Hb Hlo Hhi. unfold getTransactions.
  rewrite (isEmpty_false _ Hne), Hb. cbn [bind option_map].
  do 3 f_equal. apply select_ext. intros t. unfold listFilter, ownWindow.
  f_equal. now apply seconds_window.
Qed.

(** The rows a window query answers: the caller's rows inside the
    window, most recent first, all of them when no more than 50 qualify
    and otherwise exactly 50, none of the rows left out being more recent
    than a row returned. *)
Lemma window_rows (u : string) (lo hi : Z) (tb : Db.table) :
  let items := Db.select (ownWindow u lo hi) 50 tb in
  Db.descending items
  /\ (List.length items <= 50)%nat
  /\ (forall t, In t items ->
        In t tb /\ userId t = u
        /\ lo <= Db.mapFromDriverValue (occurredAt t) < hi)
  /\ ((List.length (filter (ownWindow u lo hi) tb) <= 50)%nat ->
      forall t, In t tb -> userId t = u ->
        lo <= Db.mapFromDriverValue (occurredAt t) < hi -> In t items)
  /\ List.length items = Nat.min 50 (List.length (filter (ownWindow u lo hi) tb))
  /\ (exists rest,
        Permutation (items ++ rest)%list (filter (ownWindow u lo hi) tb)
        /\ forall x y, In x items -> In y rest -> occurredAt y <= occurredAt x)
  /\ (forall t x, In t tb -> userId t = u ->
        lo <= Db.mapFromDriverValue (occurredAt t) < hi ->
        ~ In t items -> In x items -> occurredAt t <= occurredAt x).
Proof.
  assert (Hw : forall t, ownWindow u lo hi t = true <->
             userId t = u /\ lo <= Db.mapFromDriverValue (occurredAt t) < hi).
  { intros t. unfold ownWindow, inWindow, Db.ownedBy.
    rewrite !andb_true_iff, String.eqb_eq, Z.leb_le, Z.ltb_lt. tauto. }
  cbv zeta. split; [|split; [|split; [|split; [|split; [|split]]]]];
    [| | | |apply select_count|apply select_rest|
     intros t x Hin Hu Hr Hout Hx;
     destruct (select_rest (ownWindow u lo hi) 50 tb) as (rest & Hperm & Hle);
     apply Hle; [exact Hx|];
     assert (Hq : In t (filter (ownWindow u lo hi) tb))
       by (apply filter_In; split; [exact Hin|apply Hw; tauto]);
     apply (Permutation_in _ (Permutation_sym Hperm)) in Hq;
     apply in_app_or in Hq; destruct Hq as [Hq|Hq]; [contradiction|exact Hq]].
  - unfold Db.select.
    generalize (orderByDesc_sorted (filter (ownWindow u lo hi) tb)).
    generalize (Db.orderByDesc (filter (ownWindow u lo hi) tb)).
    unfold Db.descending. intros l Hs. revert l Hs.
    generalize 50%nat as n.
    induction n as [|n IH]; intros [|x l] Hs; simpl; try constructor.
    + apply IH. now inversion Hs.
    + inversion Hs as [|? ? _ Hhd]; subst.
      destruct l as [|z l]; destruct n; simpl; constructor. now inversion Hhd.
  - apply select_length.
  - intros t H. apply select_sound in H. destruct H as [Hin Hp].
    apply Hw in Hp. tauto.
  - intros Hlen t Hin Hu Hr. apply select_complete; auto. apply Hw. tauto.
Qed.

Lemma dayBounds_valid (dateParam tzParam ys ms ds : string) (y m d tz : Z) :
  Str.split "-" dateParam = [ys; ms; ds] ->
  readsAs ys y -> readsAs ms m -> readsAs ds d -> readsAs tzParam tz ->
  Calendar.validDate y m d -> 100 <= y -> Z.abs tz <= 100000000000 ->
  dayBounds dateParam (Some tzParam)
  = Value (Some (Calendar.utcMidnight y m d + tz * 60000,
                 Calendar.utcMidnight y m d + tz * 60000 + 24 * 60 * 60 * 1000)).
Proof.
  intros Hs Hy Hm Hd Htz Hv Hy100 Hb.
  pose proof (utcMidnight_bounds _ _ _ Hv) as [Hmid _].
  pose proof (UTC_is_utcMidnight _ _ _ Hv Hy100) as Hutc.
  destruct Hv as (Hyr & Hmr & Hdr).
  unfold dayBounds, numberAt. rewrite Hs. cbn [nth_error].
  unfold readsAs in *. rewrite Hy, Hm, Hd, Htz. cbn [bind].
  unfold falsy, isNaN, Num.isNaN. rewrite !truthy_integer.
  rewrite (proj2 (Z.eqb_neq y 0)), (proj2 (Z.eqb_neq m 0)),
    (proj2 (Z.eqb_neq d 0)) by lia.
  cbn [negb orb]. unfold integerOf. rewrite !toInteger_int. cbn [bind].
  rewrite Hutc. cbn [bind].
  replace (Z.abs (tz * 60000) <=? 2 ^ 53) with true
    by (symmetry; apply Z.leb_le; change (2 ^ 53) with 9007199254740992; lia).
  unfold JsDate.TimeClip.
  replace (Z.abs (Calendar.utcMidnight y m d + tz * 60000) <=? 8640000000000000)
    with true by (symmetry; apply Z.leb_le; lia).
  replace (Z.abs (Calendar.utcMidnight y m d + tz * 60000 + 24 * 60 * 60 * 1000)
           <=? 8640000000000000)
    with true by (symmetry; apply Z.leb_le; lia).
  reflexivity.
Qed.

(** A year from 0 to 99 is read as a year of the twentieth century. *)
Lemma UTC_century (y m d : Z) :
  0 <= y <= 99 -> JsDate.UTC y m d = JsDate.UTC (1900 + y) m d.
Proof.
  intros Hy. unfold JsDate.UTC.
  replace (Z.abs y <=? 1000000) with true by (symmetry; apply Z.leb_le; lia).
  replace (Z.abs (1900 + y) <=? 1000000) with true
    by (symmetry; apply Z.leb_le; lia).
  replace ((0 <=? y) && (y <=? 99)) with true
    by (symmetry; rewrite andb_true_iff, !Z.leb_le; lia).
  replace ((0 <=? 1900 + y) && (1900 + y <=? 99)) with false
    by (symmetry; apply andb_false_iff; right; apply Z.leb_gt; lia).
  reflexivity.
Qed.

(** The months of year y and of year 1900 + y are equally long. *)
Lemma daysInMonth_century (y m : Z) :
  1 <= y <= 99 -> Calendar.daysInMonth (1900 + y) m = Calendar.daysInMonth y m.
Proof.
  intros Hy. unfold Calendar.daysInMonth.
  assert (Hl : Calendar.leap (1900 + y) = Calendar.leap y).
  { unfold Calendar.leap.
    replace ((1900 + y) mod 4) with (y mod 4) by (Z.div_mod_to_equations; lia).
    replace ((1900 + y) mod 100 =? 0) with false
      by (symmetry; apply Z.eqb_neq; Z.div_mod_to_equations; lia).
    replace (y mod 100 =? 0) with false
      by (symmetry; apply Z.eqb_neq; Z.div_mod_to_equations; lia).
    reflexivity. }
  now rewrite Hl.
Qed.

(** The year [Date.UTC] takes a written year for. *)
Lemma dayBounds_dated (dateParam tzParam ys ms ds : string) (y m d tz : Z) :
  Str.split "-" dateParam = [ys; ms; ds] ->
  readsAs ys y -> readsAs ms m -> readsAs ds d -> readsAs tzParam tz ->
  Calendar.validDate y m d -> Z.abs tz <= 100000000000 ->
  let Y := if y <? 100 then 1900 + y else y in
  Calendar.validDate Y m d
  /\ dayBounds dateParam (Some tzParam)
     = Value (Some (Calendar.utcMidnight Y m d + tz * 60000,
                    Calendar.utcMidnight Y m d + tz * 60000 + 24 * 60 * 60 * 1000)).
Proof.
  intros Hs Hy Hm Hd Htz Hv Hb Y. subst Y.
  destruct (y <? 100) eqn:E.
  - apply Z.ltb_lt in E. pose proof Hv as (Hyr & Hmr & Hdr).
    assert (Hv' : Calendar.validDate (1900 + y) m d).
    { unfold Calendar.validDate. rewrite daysInMonth_century by lia. lia. }
    split; [exact Hv'|].
    pose proof (utcMidnight_bounds _ _ _ Hv') as [Hmid _].
    assert (Hutc : JsDate.UTC y (m - 1) d
                   = Value (Some (Calendar.utcMidnight (1900 + y) m d))).
    { rewrite UTC_century by lia. apply UTC_is_utcMidnight; [exact Hv'|lia]. }
    unfold dayBounds, numberAt. rewrite Hs. cbn [nth_error].
    unfold readsAs in *. rewrite Hy, Hm, Hd, Htz. cbn [bind].
    unfold falsy, isNaN, Num.isNaN. rewrite !truthy_integer.
    rewrite (proj2 (Z.eqb_neq y 0)), (proj2 (Z.eqb_neq m 0)),
      (proj2 (Z.eqb_neq d 0)) by lia.
    cbn [negb orb]. unfold integerOf. rewrite !toInteger_int. cbn [bind].
    rewrite Hutc. cbn [bind].
    replace (Z.abs (tz * 60000) <=? 2 ^ 53) with true
      by (symmetry; apply Z.leb_le; change (2 ^ 53) with 9007199254740992; lia).
    unfold JsDate.TimeClip.
    replace (Z.abs (Calendar.utcMidnight (1900 + y) m d + tz * 60000)
             <=? 8640000000000000)
      with true by (symmetry; apply Z.leb_le; lia).
    replace (Z.abs (Calendar.utcMidnight (1900 + y) m d + tz * 60000
                    + 24 * 60 * 60 * 1000) <=? 8640000000000000)
      with true by (symmetry; apply Z.leb_le; lia).
    reflexivity.
  - apply Z.ltb_ge in E. split; [exact Hv|].
    now apply (dayBounds_valid _ _ ys ms ds).
Qed.

Lemma split_nonempty (dateParam : string) (a b : string) (l : list string) :
  Str.split "-" dateParam = a :: b :: l -> dateParam <> "".
Proof. intros H ->. discriminate. Qed.

Lemma not_in_by_id (t : transaction) (l : list transaction) :
  forallb (fun x => negb (String.eqb (id x) (id t))) l = true -> ~ In t l.
Proof.
  intros H Hin. rewrite forallb_forall in H. specialize (H t Hin).
  now rewrite String.eqb_refl in H.
Qed.

Lemma window_answer (u : string) (st : state) (dateParam : string)
    (tzOffsetParam : option string) (lo hi : Z) :
  dateParam <> "" ->
  dayBounds dateParam tzOffsetParam = Value (Some (lo, hi)) ->
  lo mod 1000 = 0 -> hi mod 1000 = 0 ->
  answersWindow u st lo hi
    (getTransactions (Some u) (Some dateParam) tzOffsetParam st).
Proof.
  intros Hne Hb Hlo Hhi.
  exists (Db.select (ownWindow u lo hi) 50 (rows st)).
  split; [now apply getTransactions_window|apply window_rows].
Qed.

(** ** C3: the day window *)

(** C3, as the code has it.  For a date that reads as the calendar date
    y-m-d (years 1 to 9999) and a tzOffset that reads as the integer tz,
    the lower bound is UTC midnight of Y-m-d plus tz minutes and the upper
    bound is 24 hours later, where Y is y from year 100 on and 1900 + y
    for the years 1 to 99, which [Date.UTC] reads as two-digit years.  The
    answer lists, most recent first, transactions of the caller whose
    occurredAt is at or after the lower bound and before the upper bound:
    all of them when no more than 50 qualify, and otherwise exactly 50,
    none of the rows left out being more recent than a row returned. *)
Theorem list_day_window (u : string) (st : state)
    (dateParam tzParam ys ms ds : string) (y m d tz : Z) :
  Str.split "-" dateParam = [ys; ms; ds] ->
  readsAs ys y -> readsAs ms m -> readsAs ds d -> readsAs tzParam tz ->
  Calendar.validDate y m d -> Z.abs tz <= 100000000000 ->
  let Y := if y <? 100 then 1900 + y else y in
  let lo := Calendar.utcMidnight Y m d + tz * 60000 in
  let hi := lo + 24 * 60 * 60 * 1000 in
  dayBounds dateParam (Some tzParam) = Value (Some (lo, hi))
  /\ answersWindow u st lo hi
       (getTransactions (Some u) (Some dateParam) (Some tzParam) st).
Proof.
  intros Hs Hy Hm Hd Htz Hv0 Hb Y lo hi.
  pose proof (dayBounds_dated _ _ _ _ _ _ _ _ _ Hs Hy Hm Hd Htz Hv0 Hb)
    as [Hv Hbounds].
  fold Y in Hv, Hbounds. fold lo in Hbounds. fold hi in Hbounds.
  split; [exact Hbounds|].
  pose proof (utcMidnight_bounds _ _ _ Hv) as [_ Hmod].
  apply window_answer.
  - exact (split_nonempty _ _ _ _ Hs).
  - exact Hbounds.
  - subst lo. Z.div_mod_to_equations. lia.
  - subst hi lo. Z.div_mod_to_equations. lia.
Qed.

Lemma list_day_window_witness :
  (exists items,
     getTransactions (Some "alice") (Some "2024-03-10") (Some "300") Sample.aState
       = Value (json_transactions items, Sample.aState)
     /\ Db.descending items)
  /\ (exists items,
       getTransactions (Some "alice") (Some "2024-03-10") (Some "0") Sample.busyDay
         = Value (json_transactions items, Sample.busyDay)
       /\ List.length items = 50%nat).
Proof.
  split.
  - destruct (list_day_window "alice" Sample.aState "2024-03-10" "300"
                "2024" "03" "10" 2024 3 10 300) as (_ & items & Hget & Hdesc & _).
    + reflexivity.
    + reflexivity.
    + reflexivity.
    + reflexivity.
    + reflexivity.
    + unfold Calendar.validDate. cbn. lia.
    + cbn. lia.
    + exists items. split; assumption.
  - destruct (list_day_window "alice" Sample.busyDay "2024-03-10" "0"
                "2024" "03" "10" 2024 3 10 0)
      as (_ & items & Hget & _ & _ & _ & _ & Hlen & _).
    + reflexivity.
    + reflexivity.
    + reflexivity.
    + reflexivity.
    + reflexivity.
    + unfold Calendar.validDate. cbn. lia.
    + cbn. lia.
    + exists items. split; [exact Hget|]. rewrite Hlen. vm_compute. reflexivity.
Defined.

(** C3 as stated fails on the row cap: 51 transactions of the caller lie
    inside the window of 2024-03-10 with tzOffset 0, and the one at
    midnight is not returned. *)
Lemma list_day_window_counterexample :
  let t := Sample.rowAt "r0" 1710028800 in
  In t (rows Sample.busyDay)
  /\ userId t = "alice"
  /\ Calendar.utcMidnight 2024 3 10 + 0 * 60000
       <= Db.mapFromDriverValue (occurredAt t)
       < Calendar.utcMidnight 2024 3 10 + 0 * 60000 + 24 * 60 * 60 * 1000
  /\ exists items,
       getTransactions (Some "alice") (Some "2024-03-10") (Some "0") Sample.busyDay
         = Value (json_transactions items, Sample.busyDay)
       /\ ~ In t items.
Proof.
  cbv zeta. split; [vm_compute; now left|]. split; [reflexivity|]. split.
  - vm_compute. split; [discriminate|reflexivity].
  - eexists. split; [vm_compute; reflexivity|].
    apply not_in_by_id. vm_compute. reflexivity.
Qed.

(** ** C2: date=2024-03-10, tzOffset=-300 *)

(** C2, as the code has it.  The offset is added to UTC midnight, so
    date=2024-03-10 with tzOffset=-300 answers the window
    [2024-03-09T19:00:00Z, 2024-03-10T19:00:00Z); the window
    [2024-03-10T05:00:00Z, 2024-03-11T05:00:00Z) is the one of
    tzOffset=300.  Either way the rows are the caller's inside the window,
    most recent first: all of them when no more than 50 qualify, and
    otherwise exactly 50, none of the rows left out being more recent than
    a row returned. *)
Theorem list_2024_03_10 (u : string) (st : state) :
  answersWindow u st
    (Calendar.instant 2024 3 9 19 0 0) (Calendar.instant 2024 3 10 19 0 0)
    (getTransactions (Some u) (Some "2024-03-10") (Some "-300") st)
  /\ answersWindow u st
    (Calendar.instant 2024 3 10 5 0 0) (Calendar.instant 2024 3 11 5 0 0)
    (getTransactions (Some u) (Some "2024-03-10") (Some "300") st).
Proof.
  split; apply window_answer; try discriminate; vm_compute; reflexivity.
Qed.

(** C2 as stated fails: alice's transaction of 2024-03-10T04:00:00Z is
    returned for date=2024-03-10, tzOffset=-300, and it lies before
    2024-03-10T05:00:00Z. *)
Lemma list_2024_03_10_counterexample :
  getTransactions (Some "alice") (Some "2024-03-10") (Some "-300") Sample.aState
    = Value (json_transactions [Sample.row], Sample.aState)
  /\ ~ (Calendar.instant 2024 3 10 5 0 0
        <= Db.mapFromDriverValue (occurredAt Sample.row)
        < Calendar.instant 2024 3 11 5 0 0).
Proof.
  split; [vm_compute; reflexivity|].
  vm_compute. intros [H _]. now apply H.
Qed.

(** ** What a successful POST /ai has done *)

Lemma postAi_created (h : host) (su : option string) (body : option json)
    (st st' : state) (o : extraction) (t : option transaction) :
  postAi h su body st = Value (json_created o t, st') ->
  exists u p row,
    su = Some u
    /\ generateObject h p = Value o
    /\ t = Some row
    /\ st' = mkState (rows st ++ [row])%list (calls st ++ [p])%list
    /\ existsb (Db.hasId (id row)) (rows st) = false
    /\ id row = randomUUID h
    /\ userId row = u
    /\ title row = x_title o
    /\ Num.toString (x_amount o) = Value (amount row)
    /\ currency row = x_currency o
    /\ type row = txTypeText (x_type o)
    /\ createdAt row = Db.mapToDriverValue (nowCreated h)
    /\ updatedAt row = Db.mapToDriverValue (nowUpdated h).
Proof.
  unfold postAi. destruct su as [u|]; [|discriminate].
  destruct body as [b|]; cbn [bind caught]; [|discriminate].
  destruct (Js.ToString (Js.nullish (Js.get b "text") (JStr "")))
    as [rawText| |]; cbn [bind caught]; try discriminate.
  destruct (Js.ToString (Js.nullish (Js.get b "currency") (JStr "USD")))
    as [rawCur| |]; cbn [bind caught]; try discriminate.
  destruct (Str.toUpperCase (Str.trim rawCur)) as [cur| |];
    cbn [bind caught]; try discriminate.
  destruct (Str.isEmpty (Str.trim rawText)); [discriminate|].
  set (p := mkPrompt cur (nowToday h) (Str.trim rawText)).
  destruct (generateObject h p) as [obj| |] eqn:Eg; cbn [bind caught];
    try discriminate.
  destruct (match x_occurredAt obj with
            | Some s => if Str.isEmpty s then Value (Some (nowOccurred h))
                        else Value (dateParse h s)
            | None => Value (Some (nowOccurred h))
            end) as [occ| |]; cbn [bind caught]; try discriminate.
  destruct (Num.toString (x_amount obj)) as [amt| |] eqn:Ea; cbn [bind caught];
    try discriminate.
  destruct (bindDate occ) as [secs| |]; cbn [bind caught]; try discriminate.
  unfold Db.insert. cbn [id rows].
  destruct (existsb (Db.hasId (randomUUID h)) (rows st)) eqn:Ex;
    cbn [bind caught fst snd hd_error rows calls]; [discriminate|].
  intros [= <- <- <-].
  eexists u, p, _. repeat split; try reflexivity; eassumption.
Qed.

(** ** What a successful PUT has written *)

Lemma buildPayload_fields (h : host) (b : json) (p : payload) :
  buildPayload h b = Value p ->
  exists ttl cur cat nt,
    Js.optToString (Js.get b "title") = Value ttl
    /\ p_title p = option_map Str.trim ttl
    /\ Js.optToString (Js.get b "currency") = Value cur
    /\ match cur with
       | Some raw => exists c, Str.toUpperCase (Str.trim raw) = Value c
                               /\ p_currency p = Some c
       | None => p_currency p = None
       end
    /\ Js.optToString (Js.get b "category") = Value cat
    /\ p_category p = orNull (option_map Str.trim cat)
    /\ Js.optToString (Js.get b "note") = Value nt
    /\ p_note p = orNull (option_map Str.trim nt)
    /\ p_amount p = Js.get b "amount"
    /\ p_type p = Js.get b "type".
Proof.
  unfold buildPayload.
  destruct (Js.optToString (Js.get b "title")) as [ttl| |]; cbn [bind];
    try discriminate.
  destruct (Js.optToString (Js.get b "currency")) as [cur| |]; cbn [bind];
    try discriminate.
  destruct (match cur with
            | Some s => u <- Str.toUpperCase (Str.trim s) ;; Value (Some u)
            | None => Value None
            end) as [cur'| |] eqn:Ec; cbn [bind]; try discriminate.
  destruct (Js.optToString (Js.get b "category")) as [cat| |]; cbn [bind];
    try discriminate.
  destruct (Js.optToString (Js.get b "note")) as [nt| |]; cbn [bind];
    try discriminate.
  destruct (match Js.get b "occurredAt" with
            | Some v => if Js.truthy v then d <- newDate h v ;; Value (Some d)
                        else Value None
            | None => Value None
            end) as [occ| |]; cbn [bind]; try discriminate.
  intros [= <-]. exists ttl, cur, cat, nt. cbn.
  repeat split; try reflexivity.
  destruct cur as [raw|].
  - destruct (Str.toUpperCase (Str.trim raw)) as [c| |]; cbn [bind] in Ec;
      try discriminate.
    injection Ec as <-. now exists c.
  - now injection Ec as <-.
Qed.

Lemma buildSet_fields (p : payload) (s : setClause) :
  invalidPayload p = false -> buildSet p = Value s ->
  exists a n,
    p_amount p = Some a
    /\ Js.ToNumber a = Value n
    /\ Num.toString n = Value (s_amount s)
    /\ p_title p = Some (s_title s)
    /\ p_currency p = Some (s_currency s)
    /\ p_type p = Some (JStr (s_type s))
    /\ s_category s = p_category p
    /\ s_note s = p_note p.
Proof.
  unfold invalidPayload, buildSet. intros Hv.
  apply orb_false_iff in Hv. destruct Hv as [Hv Hty].
  apply orb_false_iff in Hv. destruct Hv as [Hv Hcur].
  apply orb_false_iff in Hv. destruct Hv as [Httl Hamt].
  destruct (p_amount p) as [a|]; [|discriminate].
  destruct (p_title p) as [ttl|]; [|discriminate].
  destruct (p_currency p) as [cur|]; [|discriminate].
  destruct (Js.ToNumber a) as [n| |] eqn:En; cbn [bind]; try discriminate.
  destruct (Num.toString n) as [amt| |] eqn:Ea; cbn [bind]; try discriminate.
  destruct (p_type p) as [[| | |ty| |]|]; cbn [bind]; try discriminate.
  destruct (match p_occurredAt p with
            | Some d => s0 <- bindDate d ;; Value (Some s0)
            | None => Value None
            end) as [occ| |]; cbn [bind]; try discriminate.
  intros [= <-]. exists a, n. cbn. repeat split; try reflexivity; assumption.
Qed.

Lemma update_ids (s : setClause) (q : transaction -> bool) (tb : Db.table) :
  map id (snd (Db.update (applySet s) q tb)) = map id tb.
Proof.
  cbn. rewrite map_map. apply map_ext. intros t. now destruct (q t).
Qed.

Lemma NoDup_id_inj (l : list transaction) (x y : transaction) :
  NoDup (map id l) -> In x l -> In y l -> id x = id y -> x = y.
Proof.
  induction l as [|z l IH]; [contradiction|].
  cbn. intros Hnd Hx Hy Hid. inversion Hnd as [|? ? Hz Hnd']; subst.
  destruct Hx as [->|Hx], Hy as [->|Hy]; try reflexivity.
  - exfalso. apply Hz. rewrite Hid. now apply in_map.
  - exfalso. apply Hz. rewrite <- Hid. now apply in_map.
  - now apply IH.
Qed.

(** The row a PUT answers with is the row now stored under that id. *)
Lemma putTransaction_stored (h : host) (u i : string) (b : json)
    (st st' : state) (t : transaction) :
  putTransaction h (Some u) i (Some b) st = Value (json_transaction t, st') ->
  In t (rows st') /\ id t = i /\ userId t = u
  /\ map id (rows st') = map id (rows st).
Proof.
  intros H. apply putTransaction_success in H.
  destruct H as (u' & b' & p & s & old & rest & [= <-] & _ & _ & _ & _ & _
                 & Hf & -> & ->).
  assert (Hold : In old (filter (Db.idAndOwner i u) (rows st)))
    by (rewrite Hf; now left).
  apply filter_In in Hold. destruct Hold as [Hin Hq].
  pose proof (proj1 (idAndOwner_true _ _ _) Hq) as [Hid Hown].
  cbn [rows]. repeat split; try assumption.
  - cbn. apply in_map_iff. exists old. now rewrite Hq.
  - apply update_ids.
Qed.

Lemma stored_readsBack (u : string) (st : state) (t : transaction) :
  NoDup (map id (rows st)) -> In t (rows st) -> readsBack u st (id t) t.
Proof.
  intros Hnd Hin dateParam tzOffsetParam items st' x Hget Hx Hid.
  apply (getTransactions_owned _ _ _ _ _ _ x) in Hget; [|assumption].
  now apply (NoDup_id_inj (rows st)).
Qed.

Lemma insert_NoDup (tb : Db.table) (row : transaction) :
  NoDup (map id tb) -> existsb (Db.hasId (id row)) tb = false ->
  NoDup (map id (tb ++ [row])%list).
Proof.
  intros Hnd Hex. rewrite map_app. cbn [map].
  apply NoDup_app_remove_l with (l := @nil string). cbn.
  apply Permutation_NoDup with (l := id row :: map id tb).
  - apply Permutation_cons_append.
  - constructor; [|assumption]. intros Hin. apply in_map_iff in Hin.
    destruct Hin as (x & Hid & Hx).
    assert (existsb (Db.hasId (id row)) tb = true); [|congruence].
    apply existsb_exists. exists x. split; [assumption|].
    unfold Db.hasId. now apply String.eqb_eq.
Qed.

Lemma toString_12_50 (a : json) (n : number) :
  a = JStr "12.50" \/ a = JNum (Dec 1250 2) ->
  Js.ToNumber a = Value n -> Num.toString n = Value "12.5".
Proof.
  intros [-> | ->] H; vm_compute in H; injection H as <-; reflexivity.
Qed.

(** ** C4: what is read back of amount and currency *)

(** C4, as the code has it.  The stored amount is the decimal rendering of
    the amount's numeric value, [Number(amount).toString()] on the update
    path and [amount.toString()] on the create path, so an amount written
    as 12.50 is stored as "12.5"; a currency "USD" is stored as "USD";
    and every later list that shows the transaction shows the stored row
    unchanged. *)
Theorem amount_round_trip :
  (forall h u i b st t st',
      NoDup (map id (rows st)) ->
      putTransaction h (Some u) i (Some b) st = Value (json_transaction t, st') ->
      (exists a n, Js.get b "amount" = Some a /\ Js.ToNumber a = Value n
                   /\ Num.toString n = Value (amount t))
      /\ (Js.get b "amount" = Some (JStr "12.50")
          \/ Js.get b "amount" = Some (JNum (Dec 1250 2)) -> amount t = "12.5")
      /\ (Js.get b "currency" = Some (JStr "USD") -> currency t = "USD")
      /\ readsBack u st' i t)
  /\ (forall h u body st o t st',
      NoDup (map id (rows st)) ->
      postAi h (Some u) body st = Value (json_created o (Some t), st') ->
      Num.toString (x_amount o) = Value (amount t)
      /\ (x_amount o = Dec 1250 2 -> amount t = "12.5")
      /\ currency t = x_currency o
      /\ readsBack u st' (id t) t).
Proof.
  split.
  - intros h u i b st t st' Hnd Hput.
    pose proof (putTransaction_stored _ _ _ _ _ _ _ Hput) as (Hin & Hid & _ & Hids).
    pose proof (putTransaction_success _ _ _ _ _ _ _ Hput)
      as (u' & b' & p & s & old & rest & _ & [= <-] & _ & Hp & Hv & Hs & _ & Ht & _).
    apply buildPayload_fields in Hp.
    destruct Hp as (ttl & cur & cat & nt & _ & _ & Hcur & Hcur' & _ & _ & _ & _
                    & Hamt & _).
    destruct (buildSet_fields _ _ Hv Hs)
      as (a & n & Ha & Hn & Hstr & _ & Hc & _).
    assert (Eamt : amount t = s_amount s) by (now subst t).
    assert (Ecur : currency t = s_currency s) by (now subst t).
    rewrite Hamt in Ha. repeat split.
    + exists a, n. rewrite Eamt. auto.
    + intros H12. rewrite Ha in H12.
      assert (Ha' : a = JStr "12.50" \/ a = JNum (Dec 1250 2))
        by (destruct H12 as [[= ->]|[= ->]]; auto).
      pose proof (toString_12_50 _ _ Ha' Hn) as H5.
      rewrite Hstr in H5. rewrite Eamt. now injection H5.
    + intros HUSD. rewrite HUSD in Hcur. cbn in Hcur. injection Hcur as <-.
      destruct Hcur' as (c & Hup & Hpc). vm_compute in Hup.
      injection Hup as <-. rewrite Hc in Hpc. rewrite Ecur. now injection Hpc.
    + rewrite <- Hid. apply stored_readsBack; [|assumption].
      now rewrite Hids.
  - intros h u body st o t st' Hnd Hpost.
    apply postAi_created in Hpost.
    destruct Hpost as (u' & p & row & _ & _ & [= <-] & -> & Hex & _ & _ & _
                       & Hamt & Hcur & _).
    repeat split; try assumption.
    + intros H12. rewrite H12 in Hamt. vm_compute in Hamt. now injection Hamt.
    + apply stored_readsBack; cbn [rows].
      * now apply insert_NoDup.
      * apply in_or_app. right. now left.
Qed.

Lemma amount_round_trip_witness :
  exists t st' o t2 st2,
    putTransaction Sample.aHost (Some "alice") "t-1" (Some Sample.aBody) Sample.aState
      = Value (json_transaction t, st')
    /\ amount t = "12.5" /\ currency t = "USD"
    /\ postAi Sample.aHost (Some "alice") (Some Sample.textBody) Sample.aState
      = Value (json_created o (Some t2), st2)
    /\ amount t2 = "12.5".
Proof.
  assert (Hnd : NoDup (map id (rows Sample.aState)))
    by (cbn; constructor; [intros []|constructor]).
  assert (Hput : exists t st',
             putTransaction Sample.aHost (Some "alice") "t-1" (Some Sample.aBody)
               Sample.aState = Value (json_transaction t, st'))
    by (eexists; eexists; vm_compute; reflexivity).
  assert (Hpost : exists o t2 st2,
             postAi Sample.aHost (Some "alice") (Some Sample.textBody) Sample.aState
               = Value (json_created o (Some t2), st2)
             /\ x_amount o = Dec 1250 2)
    by (eexists; eexists; eexists; vm_compute; split; reflexivity).
  destruct Hput as (t & st' & Hput).
  destruct Hpost as (o & t2 & st2 & Hpost & Ho).
  destruct (proj1 amount_round_trip _ _ _ _ _ _ _ Hnd Hput) as (_ & H12 & HUSD & _).
  destruct (proj2 amount_round_trip _ _ _ _ _ _ _ Hnd Hpost) as (_ & H12' & _).
  exists t, st', o, t2, st2. repeat split; auto.
Defined.

(** C4 as stated fails: an update that writes amount "12.50" with
    currency "USD" is read back with amount "12.5". *)
Lemma amount_round_trip_counterexample :
  exists t st',
    Js.get Sample.aBody "amount" = Some (JStr "12.50")
    /\ Js.get Sample.aBody "currency" = Some (JStr "USD")
    /\ putTransaction Sample.aHost (Some "alice") "t-1" (Some Sample.aBody) Sample.aState
       = Value (json_transaction t, st')
    /\ getTransactions (Some "alice") None None st'
       = Value (json_transactions [t], st')
    /\ amount t = "12.5"
    /\ amount t <> "12.50".
Proof.
  eexists. eexists. split; [reflexivity|]. split; [reflexivity|].
  split; [vm_compute; reflexivity|]. split; [vm_compute; reflexivity|].
  split; [reflexivity|discriminate].
Qed.

(** ** C5: the type column *)

(** On the create path the schema's enumeration decides the stored type. *)
Lemma postAi_type_listed (h : host) (su : option string) (body : option json)
    (st st' : state) (o : extraction) (t : transaction) :
  postAi h su body st = Value (json_created o (Some t), st') ->
  type t = "income" \/ type t = "expense".
Proof.
  intros H. apply postAi_created in H.
  destruct H as (u & p & row & _ & _ & [= <-] & _ & _ & _ & _ & _ & _ & _ & Hty & _).
  rewrite Hty. destruct (x_type o); auto.
Qed.

(** C5 fails on the update path: the owner's PUT with type "banana"
    succeeds and the stored row carries that type. *)
Lemma put_stores_unlisted_type :
  exists t st',
    putTransaction Sample.aHost (Some "alice") "t-1" (Some Sample.bananaBody)
      Sample.aState = Value (json_transaction t, st')
    /\ In t (rows st')
    /\ type t = "banana"
    /\ type t <> "income" /\ type t <> "expense".
Proof.
  eexists. eexists. split; [vm_compute; reflexivity|].
  split; [now left|]. split; [reflexivity|]. split; discriminate.
Qed.

(** ** C6: bookkeeping timestamps *)

(** Creation sets both bookkeeping columns from the clock. *)
Lemma postAi_sets_bookkeeping (h : host) (su : option string) (body : option json)
    (st st' : state) (o : extraction) (t : transaction) :
  postAi h su body st = Value (json_created o (Some t), st') ->
  createdAt t = Db.mapToDriverValue (nowCreated h)
  /\ updatedAt t = Db.mapToDriverValue (nowUpdated h).
Proof.
  intros H. apply postAi_created in H.
  destruct H as (u & p & row & _ & _ & [= <-] & _ & _ & _ & _ & _ & _ & _ & _ & Hc & Hu).
  now split.
Qed.

(** No PUT touches them: the row answered carries the bookkeeping
    columns of the row it replaced. *)
Lemma put_keeps_bookkeeping (h : host) (su : option string) (i : string)
    (body : option json) (st st' : state) (t : transaction) :
  putTransaction h su i body st = Value (json_transaction t, st') ->
  exists old, In old (rows st) /\ id old = i
              /\ createdAt t = createdAt old /\ updatedAt t = updatedAt old.
Proof.
  intros H. apply putTransaction_success in H.
  destruct H as (u & b & p & s & old & rest & _ & _ & _ & _ & _ & _ & Hf & -> & _).
  assert (Hold : In old (filter (Db.idAndOwner i u) (rows st)))
    by (rewrite Hf; now left).
  apply filter_In in Hold. destruct Hold as [Hin Hq].
  apply idAndOwner_true in Hq. exists old. cbn. tauto.
Qed.

(** C6 fails on the update path: a transaction created at one moment and
    updated a day later has a new title and the updatedAt of its
    creation. *)
Lemma put_leaves_updatedAt :
  exists o created st1 updated st2,
    postAi Sample.aHost (Some "alice") (Some Sample.textBody) (mkState [] [])
      = Value (json_created o (Some created), st1)
    /\ putTransaction Sample.laterHost (Some "alice") (id created)
         (Some Sample.aBody) st1 = Value (json_transaction updated, st2)
    /\ title updated <> title created
    /\ updatedAt created = Db.mapToDriverValue (nowUpdated Sample.aHost)
    /\ updatedAt updated = updatedAt created.
Proof.
  do 5 eexists. split; [vm_compute; reflexivity|].
  split; [vm_compute; reflexivity|].
  split; [discriminate|]. split; reflexivity.
Qed.

(** ** C7: a failed extraction persists nothing *)

Lemma failsToConform_throws (h : host) (p : prompt) :
  failsToConform h p -> generateObject h p = Throw.
Proof.
  unfold failsToConform, generateObject.
  destruct (generate h p) as [answer|]; [|reflexivity].
  now intros ->.
Qed.

(** POST /ai changes the table only by the one insert of a created row. *)
Lemma postAi_rows (h : host) (su : option string) (body : option json)
    (st st' : state) (r : response) :
  postAi h su body st = Value (r, st') ->
  rows st' = rows st
  \/ exists o row p, r = json_created o (Some row) /\ generateObject h p = Value o.
Proof.
  unfold postAi. destruct su as [u|]; [|intros [= _ <-]; now left].
  destruct body as [b|]; cbn [bind caught]; [|intros [= _ <-]; now left].
  destruct (Js.ToString (Js.nullish (Js.get b "text") (JStr "")))
    as [rawText| |]; cbn [bind caught]; try discriminate;
    [|intros [= _ <-]; now left].
  destruct (Js.ToString (Js.nullish (Js.get b "currency") (JStr "USD")))
    as [rawCur| |]; cbn [bind caught]; try discriminate;
    [|intros [= _ <-]; now left].
  destruct (Str.toUpperCase (Str.trim rawCur)) as [cur| |];
    cbn [bind caught]; try discriminate; [|intros [= _ <-]; now left].
  destruct (Str.isEmpty (Str.trim rawText)); [intros [= _ <-]; now left|].
  set (p := mkPrompt cur (nowToday h) (Str.trim rawText)).
  destruct (generateObject h p) as [obj| |] eqn:Eg; cbn [bind caught];
    try discriminate; [|intros [= _ <-]; now left].
  destruct (match x_occurredAt obj with
            | Some s => if Str.isEmpty s then Value (Some (nowOccurred h))
                        else Value (dateParse h s)
            | None => Value (Some (nowOccurred h))
            end) as [occ| |]; cbn [bind caught]; try discriminate;
    [|intros [= _ <-]; now left].
  destruct (Num.toString (x_amount obj)) as [amt| |]; cbn [bind caught];
    try discriminate; [|intros [= _ <-]; now left].
  destruct (bindDate occ) as [secs| |]; cbn [bind caught]; try discriminate;
    [|intros [= _ <-]; now left].
  unfold Db.insert. cbn [id rows].
  destruct (existsb (Db.hasId (randomUUID h)) (rows st));
    cbn [bind caught fst snd hd_error rows calls];
    [intros [= _ <-]; now left|].
  intros [= <- _]. right. eexists obj, _, p. split; [reflexivity|assumption].
Qed.

(** The responses POST /ai never gives. *)
Lemma postAi_answers (h : host) (su : option string) (body : option json)
    (st st' : state) (r : response) :
  postAi h su body st = Value (r, st') ->
  isError r \/ exists o t, r = json_created o t.
Proof.
  destruct r; cbn; auto; [right; now eexists; eexists| | |]; intros H; exfalso;
    revert H; unfold postAi;
    (destruct su; [|discriminate]); (destruct body as [b|]; cbn [bind caught];
      [|discriminate]);
    repeat match goal with
           | |- context [bind ?m _] =>
               destruct m; cbn [bind caught]; try discriminate
           | |- context [if ?c then _ else _] => destruct c; try discriminate
           end.
Qed.

(** C7.  A POST /ai that reaches the extraction service (a caller, a
    body with non-blank text and a currency that converts) and for whose
    own prompt the service gives no schema-conforming object is answered
    500 with the table as it was; only the call is logged.  And whatever
    the request, if the service failed on the prompt the request sent,
    the answer is an error and the table is unchanged. *)
Theorem extraction_failure_persists_nothing (h : host) (st : state) :
  (forall u b rawText cur,
      Js.ToString (Js.nullish (Js.get b "text") (JStr "")) = Value rawText ->
      Str.trim rawText <> "" ->
      preferredCurrencyOf b = Value cur ->
      failsToConform h (mkPrompt cur (nowToday h) (Str.trim rawText)) ->
      postAi h (Some u) (Some b) st
      = Value (internal_server_error,
               mkState (rows st)
                       (calls st ++ [mkPrompt cur (nowToday h) (Str.trim rawText)])%list))
  /\ (forall su body r st',
      postAi h su body st = Value (r, st') ->
      (forall q, calls st' = (calls st ++ [q])%list -> failsToConform h q) ->
      isError r /\ rows st' = rows st).
Proof.
  split.
  - intros u b rawText cur Htext Hne Hcur Hfail. unfold postAi. cbn [bind caught].
    unfold preferredCurrencyOf in Hcur. rewrite Htext. cbn [bind caught].
    destruct (Js.ToString (Js.nullish (Js.get b "currency") (JStr "USD")))
      as [rawCur| |]; cbn [bind] in Hcur; try discriminate.
    cbn [bind caught]. rewrite Hcur. cbn [bind caught].
    rewrite (isEmpty_false _ Hne).
    rewrite (failsToConform_throws _ _ Hfail). reflexivity.
  - intros su body r st' H Hfail.
    assert (Hnot : forall o t, r <> json_created o t).
    { intros o t ->.
      pose proof (postAi_created _ _ _ _ _ _ _ H)
        as (u & p & row & _ & Hg & _ & Hst & _).
      assert (Hc : calls st' = (calls st ++ [p])%list) by now rewrite Hst.
      rewrite (failsToConform_throws _ _ (Hfail p Hc)) in Hg. discriminate. }
    split.
    + destruct (postAi_answers _ _ _ _ _ _ H) as [He|(o & t & ->)];
        [exact He|]. exfalso. now apply (Hnot o t).
    + apply postAi_rows in H. destruct H as [H|(o & row & p & -> & _)];
        [assumption|]. exfalso. now apply (Hnot o (Some row)).
Qed.

Lemma extraction_failure_persists_nothing_witness :
  postAi Sample.pickyHost (Some "alice") (Some Sample.gibberishBody) Sample.aState
  = Value (internal_server_error,
           mkState (rows Sample.aState)
             [mkPrompt "USD" 1710046800123 "gibberish"]).
Proof.
  refine (proj1 (extraction_failure_persists_nothing Sample.pickyHost Sample.aState)
            "alice" Sample.gibberishBody " gibberish " "USD" eq_refl _ eq_refl _).
  - discriminate.
  - reflexivity.
Defined.

(** ** C8: missing text *)

(** C8, as the code has it.  The currency of the body is converted to a
    string before the text is looked at.  For a caller whose text is
    absent, null, or blank after trimming, the answer is 400 "Missing
    text" whenever that conversion goes through, as it does when the
    currency is absent or null, and 500 when the conversion throws, as it
    does for an object with a [toString] property of its own.  In both
    cases the table and the log of calls to the service are unchanged. *)
Theorem missing_text_is_bad_request (h : host) (u : string) (b : json)
    (st : state) :
  emptyText b ->
  (forall cur, preferredCurrencyOf b = Value cur ->
     postAi h (Some u) (Some b) st = Value (json_error 400 "Missing text", st))
  /\ (Js.get b "currency" = None \/ Js.get b "currency" = Some JNull ->
     postAi h (Some u) (Some b) st = Value (json_error 400 "Missing text", st))
  /\ (preferredCurrencyOf b = Throw ->
     postAi h (Some u) (Some b) st = Value (internal_server_error, st))
  /\ (forall fields v,
       Js.get b "currency" = Some (JObj fields) ->
       Js.ownProperty fields "toString" = Some v ->
       postAi h (Some u) (Some b) st = Value (internal_server_error, st)).
Proof.
  intros Htext.
  assert (Ht : exists raw, Js.ToString (Js.nullish (Js.get b "text") (JStr ""))
                           = Value raw /\ Str.trim raw = "").
  { unfold emptyText in Htext. unfold Js.nullish.
    destruct (Js.get b "text") as [v|]; [|now exists ""].
    destruct v; try exact Htext. now exists "". }
  destruct Ht as (raw & Hraw & Hblank).
  assert (H400 : forall cur, preferredCurrencyOf b = Value cur ->
            postAi h (Some u) (Some b) st
            = Value (json_error 400 "Missing text", st)).
  { intros cur Hcur. unfold postAi. cbn [bind caught]. rewrite Hraw.
    cbn [bind caught]. unfold preferredCurrencyOf in Hcur.
    destruct (Js.ToString (Js.nullish (Js.get b "currency") (JStr "USD")))
      as [rawCur| |]; cbn [bind] in Hcur; try discriminate.
    cbn [bind caught]. rewrite Hcur. cbn [bind caught]. now rewrite Hblank. }
  assert (H500 : preferredCurrencyOf b = Throw ->
            postAi h (Some u) (Some b) st = Value (internal_server_error, st)).
  { intros Hcur. unfold postAi. cbn [bind caught]. rewrite Hraw.
    cbn [bind caught]. unfold preferredCurrencyOf in Hcur.
    destruct (Js.ToString (Js.nullish (Js.get b "currency") (JStr "USD")))
      as [rawCur| |]; cbn [bind] in Hcur; try discriminate;
      cbn [bind caught]; [|reflexivity].
    rewrite Hcur. reflexivity. }
  split; [exact H400|]. split; [|split; [exact H500|]].
  - intros Hc. apply (H400 "USD"). unfold preferredCurrencyOf.
    destruct Hc as [-> | ->]; reflexivity.
  - intros fields v Hc Hown. apply H500. unfold preferredCurrencyOf.
    rewrite Hc. cbn [Js.nullish Js.ToString]. now rewrite Hown.
Qed.

Lemma missing_text_is_bad_request_witness :
  postAi Sample.aHost (Some "alice") (Some (JObj [("text", JStr "   ")])) Sample.aState
    = Value (json_error 400 "Missing text", Sample.aState)
  /\ postAi Sample.aHost (Some "alice") (Some (JObj [])) Sample.aState
    = Value (json_error 400 "Missing text", Sample.aState).
Proof.
  split.
  - apply (proj1 (missing_text_is_bad_request Sample.aHost "alice"
                    (JObj [("text", JStr "   ")]) Sample.aState
                    (ex_intro _ "   " (conj eq_refl eq_refl))) "USD").
    reflexivity.
  - apply (proj1 (proj2 (missing_text_is_bad_request Sample.aHost "alice"
                           (JObj []) Sample.aState I))).
    now left.
Defined.

(** C8 as stated fails: with an empty text and a currency that is an
    object carrying its own [toString], the request is answered 500, not
    400 "Missing text". *)
Lemma missing_text_is_bad_request_counterexample :
  emptyText Sample.oddCurrencyBody
  /\ postAi Sample.aHost (Some "alice") (Some Sample.oddCurrencyBody) Sample.aState
     = Value (internal_server_error, Sample.aState)
  /\ postAi Sample.aHost (Some "alice") (Some Sample.oddCurrencyBody) Sample.aState
     <> Value (json_error 400 "Missing text", Sample.aState).
Proof.
  split; [now exists ""|]. split; [reflexivity|discriminate].
Qed.

(** ** C9: category and note on update *)

(** *** White space at the ends of a string *)

Lemma isWhiteSpace_units (c : ascii) :
  Str.isWhiteSpace c = true <-> In (Str.code c) whiteSpaceUnits.
Proof.
  unfold Str.isWhiteSpace, whiteSpaceUnits. cbn [In].
  rewrite !orb_true_iff, andb_true_iff, !Z.leb_le, !Z.eqb_eq. lia.
Qed.

Lemma not_whiteSpace_units (c : ascii) :
  Str.isWhiteSpace c = false <-> ~ In (Str.code c) whiteSpaceUnits.
Proof.
  rewrite <- isWhiteSpace_units. destruct (Str.isWhiteSpace c); split; congruence.
Qed.

Lemma trimStart_split (s : string) :
  exists pre, s = pre ++ Str.trimStart s /\ allWhiteSpace pre.
Proof.
  induction s as [|c r (pre & Hr & Hpre)]; [now exists ""|].
  cbn [Str.trimStart]. destruct (Str.isWhiteSpace c) eqn:E.
  - exists (String c pre). cbn. rewrite <- Hr. split; [reflexivity|].
    split; [now apply isWhiteSpace_units|exact Hpre].
  - now exists "".
Qed.

Lemma trimEnd_split (s : string) :
  exists post, s = Str.trimEnd s ++ post /\ allWhiteSpace post.
Proof.
  induction s as [|c r (post & Hr & Hpost)]; [now exists ""|].
  cbn [Str.trimEnd]. destruct (Str.trimEnd r) as [|a r'] eqn:Er.
  - cbn in Hr. subst r. destruct (Str.isWhiteSpace c) eqn:E.
    + exists (String c post). split; [reflexivity|].
      split; [now apply isWhiteSpace_units|exact Hpost].
    + now exists post.
  - exists post. cbn. now rewrite Hr.
Qed.

Lemma trimStart_first (s : string) (c : ascii) :
  String.get 0 (Str.trimStart s) = Some c -> Str.isWhiteSpace c = false.
Proof.
  induction s as [|a r IH]; cbn [Str.trimStart]; [discriminate|].
  destruct (Str.isWhiteSpace a) eqn:E; [exact IH|].
  cbn. now intros [= <-].
Qed.

Lemma trimEnd_first (s : string) (c : ascii) :
  String.get 0 (Str.trimEnd s) = Some c -> String.get 0 s = Some c.
Proof.
  destruct s as [|a r]; [discriminate|]. cbn [Str.trimEnd].
  destruct (Str.trimEnd r); [destruct (Str.isWhiteSpace a); [discriminate|]|];
    cbn; auto.
Qed.

Lemma get_last_cons (a : ascii) (x : string) :
  String.get (Nat.pred (String.length (String a x))) (String a x)
  = match x with
    | EmptyString => Some a
    | _ => String.get (Nat.pred (String.length x)) x
    end.
Proof. destruct x; reflexivity. Qed.

Lemma trimEnd_last (s : string) (c : ascii) :
  String.get (Nat.pred (String.length (Str.trimEnd s))) (Str.trimEnd s) = Some c ->
  Str.isWhiteSpace c = false.
Proof.
  induction s as [|a r IH]; [discriminate|]. cbn [Str.trimEnd].
  destruct (Str.trimEnd r) as [|b r'] eqn:Er.
  - destruct (Str.isWhiteSpace a) eqn:E; [discriminate|].
    cbn. now intros [= <-].
  - rewrite get_last_cons. exact IH.
Qed.

(** [trim] takes the white space off both ends, and nothing else. *)
Lemma trim_trimsTo (s : string) : trimsTo s (Str.trim s).
Proof.
  unfold trimsTo, Str.trim.
  destruct (trimStart_split s) as (pre & Hs & Hpre).
  destruct (trimEnd_split (Str.trimStart s)) as (post & Ht & Hpost).
  exists pre, post. split; [now rewrite <- Ht|].
  split; [exact Hpre|]. split; [exact Hpost|]. split.
  - intros c Hc. apply not_whiteSpace_units.
    apply (trimStart_first s). now apply trimEnd_first.
  - intros c Hc. apply not_whiteSpace_units.
    exact (trimEnd_last (Str.trimStart s) c Hc).
Qed.

Lemma trimStart_white (pre x : string) :
  allWhiteSpace pre -> Str.trimStart (pre ++ x) = Str.trimStart x.
Proof.
  induction pre as [|c r IH]; [reflexivity|]. intros [Hc Hr]. cbn.
  apply isWhiteSpace_units in Hc. rewrite Hc. now apply IH.
Qed.

Lemma trimStart_kept (x : string) :
  (forall c, String.get 0 x = Some c -> ~ In (Str.code c) whiteSpaceUnits) ->
  x <> "" -> forall y, Str.trimStart (x ++ y) = x ++ y.
Proof.
  destruct x as [|a r]; [congruence|]. intros H _ y. cbn.
  specialize (H a eq_refl). apply not_whiteSpace_units in H. now rewrite H.
Qed.

Lemma trimEnd_white (post : string) : allWhiteSpace post -> Str.trimEnd post = "".
Proof.
  induction post as [|c r IH]; [reflexivity|]. intros [Hc Hr]. cbn.
  rewrite (IH Hr). apply isWhiteSpace_units in Hc. now rewrite Hc.
Qed.

Lemma trimEnd_app_white (x post : string) :
  allWhiteSpace post -> Str.trimEnd (x ++ post) = Str.trimEnd x.
Proof.
  intros Hpost. induction x as [|c r IH]; cbn.
  - now apply trimEnd_white.
  - now rewrite IH.
Qed.

Lemma trimEnd_kept (x : string) :
  (forall c, String.get (Nat.pred (String.length x)) x = Some c ->
     ~ In (Str.code c) whiteSpaceUnits) ->
  Str.trimEnd x = x.
Proof.
  induction x as [|a r IH]; [reflexivity|]. intros H.
  cbn [Str.trimEnd]. destruct r as [|b r'].
  - cbn. specialize (H a eq_refl). apply not_whiteSpace_units in H. now rewrite H.
  - rewrite IH; [reflexivity|]. intros c Hc. apply H.
    now rewrite get_last_cons.
Qed.

Lemma trimsTo_trim (s kept : string) : trimsTo s kept -> kept = Str.trim s.
Proof.
  intros (pre & post & -> & Hpre & Hpost & Hfirst & Hlast). unfold Str.trim.
  rewrite trimStart_white by exact Hpre.
  destruct kept as [|a r] eqn:Ek.
  - cbn [append].
    assert (Ht : Str.trimStart post = "").
    { clear - Hpost. induction post as [|c r IH]; [reflexivity|].
      destruct Hpost as [Hc Hr]. cbn. apply isWhiteSpace_units in Hc.
      rewrite Hc. now apply IH. }
    now rewrite Ht.
  - rewrite <- Ek in *. rewrite trimStart_kept; [|exact Hfirst|congruence].
    rewrite trimEnd_app_white by exact Hpost. symmetry. now apply trimEnd_kept.
Qed.

Lemma allWhiteSpace_trimsTo (raw : string) : allWhiteSpace raw -> trimsTo raw "".
Proof.
  intros H. exists raw, "". split.
  - cbn [append]. clear H. induction raw as [|c r IH]; cbn; congruence.
  - repeat split; try exact H; discriminate.
Qed.

Lemma storesField_orNull (x : option json) (cat : option string) :
  Js.optToString x = Value cat ->
  storesField x (orNull (option_map Str.trim cat)).
Proof.
  intros Hx. unfold storesField. split; [|split; [|split]].
  - intros [-> | ->]; cbn in Hx; injection Hx as <-; reflexivity.
  - intros raw -> Hw. cbn in Hx. injection Hx as <-. cbn [option_map orNull].
    now rewrite <- (trimsTo_trim raw "" (allWhiteSpace_trimsTo raw Hw)).
  - intros raw kept -> Hk Hne. cbn in Hx. injection Hx as <-.
    cbn [option_map orNull]. rewrite <- (trimsTo_trim raw kept Hk).
    destruct kept; [congruence|reflexivity].
  - intros v -> Hv. unfold Js.optToString in Hx.
    destruct v; try congruence;
      (destruct (Js.ToString _) as [str| |] eqn:Es; cbn [bind] in Hx;
       try discriminate; injection Hx as <-;
       exists str, (Str.trim str);
       split; [reflexivity|]; split; [apply trim_trimsTo|];
       cbn [option_map orNull]; destruct (Str.trim str); reflexivity).
Qed.

(** C9.  A successful PUT stores as category and as note what the
    request says and nothing of the row's previous value: null when the
    field is omitted, null, or a string of white space only, and
    otherwise the field's string without the white space at its two
    ends (for a value that is not a string, the string it converts
    to). *)
Theorem put_overwrites_category_and_note (h : host) (u i : string) (b : json)
    (st st' : state) (t : transaction) :
  putTransaction h (Some u) i (Some b) st = Value (json_transaction t, st') ->
  In t (rows st')
  /\ storesField (Js.get b "category") (category t)
  /\ storesField (Js.get b "note") (note t).
Proof.
  intros Hput.
  pose proof (putTransaction_stored _ _ _ _ _ _ _ Hput) as (Hin & _).
  apply putTransaction_success in Hput.
  destruct Hput as (u' & b' & p & s & old & rest & _ & [= <-] & _ & Hp & Hv & Hs
                    & _ & -> & _).
  apply buildPayload_fields in Hp.
  destruct Hp as (ttl & cur & cat & nt & _ & _ & _ & _ & Hcat & Hpc & Hnt & Hpn & _).
  destruct (buildSet_fields _ _ Hv Hs) as (a & n & _ & _ & _ & _ & _ & _ & Hsc & Hsn).
  cbn [category note applySet]. rewrite Hsc, Hsn, Hpc, Hpn.
  split; [assumption|]. split; now apply storesField_orNull.
Qed.

Lemma put_overwrites_category_and_note_witness :
  exists t st',
    putTransaction Sample.aHost (Some "alice") "t-1" (Some Sample.foodBody) Sample.aState
      = Value (json_transaction t, st')
    /\ category Sample.row = Some "home" /\ category t = Some "Food"
    /\ note Sample.row = Some "march" /\ note t = None.
Proof.
  assert (Hput : exists t st',
             putTransaction Sample.aHost (Some "alice") "t-1" (Some Sample.foodBody)
               Sample.aState = Value (json_transaction t, st'))
    by (eexists; eexists; vm_compute; reflexivity).
  destruct Hput as (t & st' & Hput).
  destruct (put_overwrites_category_and_note _ _ _ _ _ _ _ Hput)
    as (_ & (_ & _ & Hc & _) & (_ & Hn & _)).
  exists t, st'. split; [exact Hput|]. split; [reflexivity|]. split.
  - apply (Hc "  Food  " "Food"); [reflexivity| |discriminate].
    exists "  ", "  ". split; [reflexivity|].
    split; [cbn; tauto|]. split; [cbn; tauto|].
    split; intros c Hget; cbn in Hget; injection Hget as <-;
      vm_compute; intuition discriminate.
  - split; [reflexivity|]. apply (Hn "   "); [reflexivity|].
    cbn. tauto.
Defined.

(** ** C10: the amount of an update *)





(** ** Years 0 to 99 *)

Lemma daysOfYears_lower (n : nat) : 365 * Z.of_nat n <= Calendar.daysOfYears n.
Proof.
  induction n as [|n IH]; [cbn; lia|].
  cbn [Calendar.daysOfYears].
  pose proof (daysInYear_bounds (Z.of_nat (S n))). lia.
Qed.

(** [Date.UTC] reads a year from 0 to 99 as 1900 + year.  A date whose
    year reads as 1 to 99 is answered with the window of the same day of
    the year 1900 + year, which lies after that day of the year written;
    a year that reads as 0 is answered 400. *)
Lemma two_digit_year_window (u : string) (st : state)
    (dateParam tzParam ys ms ds : string) (y m d tz : Z) :
  Str.split "-" dateParam = [ys; ms; ds] ->
  readsAs ys y -> readsAs ms m -> readsAs ds d -> readsAs tzParam tz ->
  0 <= y <= 99 ->
  (y = 0 ->
     getTransactions (Some u) (Some dateParam) (Some tzParam) st
     = Value (json_error 400 "Invalid date or tzOffset", st))
  /\ (Calendar.validDate y m d -> Z.abs tz <= 100000000000 ->
      let lo := Calendar.utcMidnight (1900 + y) m d + tz * 60000 in
      answersWindow u st lo (lo + 24 * 60 * 60 * 1000)
        (getTransactions (Some u) (Some dateParam) (Some tzParam) st)
      /\ Calendar.utcMidnight y m d < Calendar.utcMidnight (1900 + y) m d).
Proof.
  intros Hs Hy Hm Hd Htz Hyr. split.
  - intros ->. unfold getTransactions.
    rewrite (isEmpty_false _ (split_nonempty _ _ _ _ Hs)).
    unfold dayBounds, numberAt. rewrite Hs. cbn [nth_error].
    unfold readsAs in *. rewrite Hy, Hm, Hd, Htz. cbn [bind].
    unfold falsy at 1. rewrite truthy_integer. reflexivity.
  - intros Hv Hb lo.
    pose proof (dayBounds_dated _ _ _ _ _ _ _ _ _ Hs Hy Hm Hd Htz Hv Hb)
      as [Hv' Hbounds].
    replace (y <? 100) with true in Hv', Hbounds
      by (symmetry; apply Z.ltb_lt; lia).
    fold lo in Hbounds.
    pose proof (utcMidnight_bounds _ _ _ Hv') as [_ Hmod].
    split.
    + apply window_answer.
      * exact (split_nonempty _ _ _ _ Hs).
      * exact Hbounds.
      * subst lo. Z.div_mod_to_equations. lia.
      * subst lo. Z.div_mod_to_equations. lia.
    + destruct Hv as (Hy1 & Hm1 & Hd1).
      pose proof (daysInMonth_bounds y m) as Hdim.
      pose proof (daysOfYears_bounds (Z.to_nat (y - 1))) as B1.
      pose proof (daysOfMonths_bounds y (Z.to_nat (m - 1))) as B2.
      pose proof (daysOfYears_lower (Z.to_nat (1900 + y - 1))) as B3.
      pose proof (daysOfMonths_bounds (1900 + y) (Z.to_nat (m - 1))) as B4.
      unfold Calendar.utcMidnight. lia.
Qed.

Lemma two_digit_year_window_witness :
  getTransactions (Some "alice") (Some "0000-01-01") (Some "0") Sample.aState
    = Value (json_error 400 "Invalid date or tzOffset", Sample.aState)
  /\ answersWindow "alice" Sample.aState
       (Calendar.utcMidnight 1950 1 1 + 0 * 60000)
       (Calendar.utcMidnight 1950 1 1 + 0 * 60000 + 24 * 60 * 60 * 1000)
       (getTransactions (Some "alice") (Some "0050-01-01") (Some "0") Sample.aState).
Proof.
  split.
  - apply (proj1 (two_digit_year_window "alice" Sample.aState "0000-01-01" "0"
                    "0000" "01" "01" 0 1 1 0 eq_refl eq_refl eq_refl eq_refl
                    eq_refl ltac:(lia))).
    reflexivity.
  - apply (proj2 (two_digit_year_window "alice" Sample.aState "0050-01-01" "0"
                    "0050" "01" "01" 50 1 1 0 eq_refl eq_refl eq_refl eq_refl
                    eq_refl ltac:(lia))).
    + unfold Calendar.validDate. cbn. lia.
    + cbn. lia.
Defined.

(** ** Dates written YYYY-MM-DD *)

Lemma readsAsb_sound (s : string) (z : Z) : readsAsb s z = true -> readsAs s z.
Proof.
  unfold readsAsb, readsAs.
  destruct (Num.StringToNumber s) as [[|m [|e]]| |]; try discriminate.
  intros H. apply Z.eqb_eq in H. now subst.
Qed.

Lemma in_rangeZ (lo z : Z) (n : nat) :
  lo <= z < lo + Z.of_nat n -> In z (rangeZ lo n).
Proof.
  intros H. unfold rangeZ. apply in_map_iff. exists (Z.to_nat (z - lo)).
  split; [lia|]. apply in_seq. lia.
Qed.

Lemma checked_on_range (P : Z -> bool) (lo : Z) (n : nat) :
  forallb P (rangeZ lo n) = true ->
  forall z, lo <= z < lo + Z.of_nat n -> P z = true.
Proof.
  intros H z Hz. rewrite forallb_forall in H. apply H. now apply in_rangeZ.
Qed.

Lemma pad4_reads (y : Z) :
  100 <= y <= 9999 ->
  readsAs (pad 4 y) y /\ Str.allOf Str.isDigit (pad 4 y) = true.
Proof.
  intros Hy.
  assert (H : padReads 4 y = true).
  { apply (checked_on_range (padReads 4) 100 (Z.to_nat 9900));
      [vm_compute; reflexivity|lia]. }
  apply andb_true_iff in H. destruct H as [H1 H2].
  split; [now apply readsAsb_sound|assumption].
Qed.

Lemma pad2_reads (n : Z) :
  1 <= n <= 31 ->
  readsAs (pad 2 n) n /\ Str.allOf Str.isDigit (pad 2 n) = true.
Proof.
  intros Hn.
  assert (H : padReads 2 n = true).
  { apply (checked_on_range (padReads 2) 1 31); [vm_compute; reflexivity|lia]. }
  apply andb_true_iff in H. destruct H as [H1 H2].
  split; [now apply readsAsb_sound|assumption].
Qed.

Lemma showInt_reads (tz : Z) : -1440 <= tz <= 1440 -> readsAs (showInt tz) tz.
Proof.
  intros Htz. apply readsAsb_sound.
  apply (checked_on_range showIntReads (-1440) (Z.to_nat 2881));
    [vm_compute; reflexivity|lia].
Qed.

Lemma split_digits_then (a rest : string) :
  Str.allOf Str.isDigit a = true ->
  Str.split "-" (a ++ String "-" rest) = a :: Str.split "-" rest.
Proof.
  induction a as [|c a IH]; intros Ha; [reflexivity|].
  cbn [Str.allOf] in Ha. apply andb_true_iff in Ha. destruct Ha as [Hc Ha].
  cbn [append Str.split].
  replace (Ascii.eqb c "-") with false.
  - now rewrite (IH Ha).
  - symmetry. apply Ascii.eqb_neq. intros ->. discriminate.
Qed.

Lemma split_digits_last (a : string) :
  Str.allOf Str.isDigit a = true -> Str.split "-" a = [a].
Proof.
  induction a as [|c a IH]; intros Ha; [reflexivity|].
  cbn [Str.allOf] in Ha. apply andb_true_iff in Ha. destruct Ha as [Hc Ha].
  cbn [Str.split].
  replace (Ascii.eqb c "-") with false.
  - now rewrite (IH Ha).
  - symmetry. apply Ascii.eqb_neq. intros ->. discriminate.
Qed.

Lemma isoDate_split (y m d : Z) :
  100 <= y <= 9999 -> 1 <= m <= 31 -> 1 <= d <= 31 ->
  Str.split "-" (isoDate y m d) = [pad 4 y; pad 2 m; pad 2 d].
Proof.
  intros Hy Hm Hd. unfold isoDate.
  change (pad 4 y ++ "-" ++ pad 2 m ++ "-" ++ pad 2 d)
    with (pad 4 y ++ String "-" (pad 2 m ++ String "-" (pad 2 d))).
  rewrite split_digits_then by apply (pad4_reads y Hy).
  rewrite split_digits_then by apply (pad2_reads m Hm).
  now rewrite split_digits_last by apply (pad2_reads d Hd).
Qed.

(** The day window for a date in the YYYY-MM-DD format (year 100 or
    later) and an offset of at most a day, written as a signed integer. *)
Lemma list_day_window_iso (u : string) (st : state) (y m d tz : Z) :
  Calendar.validDate y m d -> 100 <= y -> -1440 <= tz <= 1440 ->
  let lo := Calendar.utcMidnight y m d + tz * 60000 in
  let hi := lo + 24 * 60 * 60 * 1000 in
  answersWindow u st lo hi
    (getTransactions (Some u) (Some (isoDate y m d)) (Some (showInt tz)) st).
Proof.
  intros Hv Hy100 Htz lo hi.
  pose proof Hv as (Hy & Hm & Hd).
  pose proof (daysInMonth_bounds y m) as Hdim.
  assert (Hs : Str.split "-" (isoDate y m d) = [pad 4 y; pad 2 m; pad 2 d])
    by (apply isoDate_split; lia).
  assert (Hb : dayBounds (isoDate y m d) (Some (showInt tz)) = Value (Some (lo, hi))).
  { apply (dayBounds_valid _ _ _ _ _ _ _ _ _ Hs); try assumption.
    - apply pad4_reads. lia.
    - apply pad2_reads. lia.
    - apply pad2_reads. lia.
    - now apply showInt_reads.
    - lia. }
  pose proof (utcMidnight_bounds _ _ _ Hv) as [_ Hmod].
  apply window_answer.
  - exact (split_nonempty _ _ _ _ Hs).
  - exact Hb.
  - subst lo. Z.div_mod_to_equations. lia.
  - subst hi lo. Z.div_mod_to_equations. lia.
Qed.

Lemma list_day_window_iso_witness :
  answersWindow "alice" Sample.aState
    (Calendar.utcMidnight 2024 3 10 + 300 * 60000)
    (Calendar.utcMidnight 2024 3 10 + 300 * 60000 + 24 * 60 * 60 * 1000)
    (getTransactions (Some "alice") (Some "2024-03-10") (Some "300") Sample.aState).
Proof.
  apply (list_day_window_iso "alice" Sample.aState 2024 3 10 300).
  - unfold Calendar.validDate. cbn. lia.
  - lia.
  - lia.
Defined.

(** ** Further properties of the handlers *)

(** Without a date the list is the caller's rows, most recent first, at
    most 50 of them, and all of them when the caller has no more than 50. *)
Lemma list_without_date (u : string) (st : state) :
  exists items,
    getTransactions (Some u) None None st = Value (json_transactions items, st)
    /\ Db.descending items
    /\ (List.length items <= 50)%nat
    /\ (forall t, In t items -> In t (rows st) /\ userId t = u)
    /\ ((List.length (filter (Db.ownedBy u) (rows st)) <= 50)%nat ->
        forall t, In t (rows st) -> userId t = u -> In t items).
Proof.
  exists (Db.select (listFilter u None) 50 (rows st)).
  assert (Hf : forall t, listFilter u None t = Db.ownedBy u t)
    by (intros t; unfold listFilter; apply andb_true_r).
  split; [reflexivity|]. split; [|split; [apply select_length|split]].
  - unfold Db.select.
    generalize (orderByDesc_sorted (filter (listFilter u None) (rows st))).
    generalize (Db.orderByDesc (filter (listFilter u None) (rows st))).
    unfold Db.descending. intros l Hs. revert l Hs. generalize 50%nat as n.
    induction n as [|n IH]; intros [|x l] Hs; simpl; try constructor.
    + apply IH. now inversion Hs.
    + inversion Hs as [|? ? _ Hhd]; subst.
      destruct l as [|z l]; destruct n; simpl; constructor. now inversion Hhd.
  - intros t Hin. apply select_sound in Hin. destruct Hin as [Hin Hp].
    split; [assumption|]. rewrite Hf in Hp. now apply String.eqb_eq in Hp.
  - intros Hlen t Hin Hu. apply select_complete; auto.
    + now rewrite (filter_ext _ _ Hf).
    + rewrite Hf. now apply String.eqb_eq.
Qed.



(** Deleting again what was deleted is answered 404. *)
Lemma delete_twice (u i : string) (st st' : state) :
  deleteTransaction (Some u) i st = Value (json_success, st') ->
  deleteTransaction (Some u) i st' = Value (json_error 404 "Not found", st').
Proof.
  unfold deleteTransaction at 1.
  destruct (Str.isEmpty i) eqn:Ei; [discriminate|].
  destruct (Db.delete (Db.idAndOwner i u) (rows st)) as [ret tb] eqn:Ed.
  destruct ret as [|deleted more]; [discriminate|]. intros [= <-].
  unfold deleteTransaction. rewrite Ei. cbn [rows calls].
  injection Ed as _ <-.
  rewrite delete_nothing; [reflexivity|].
  intros t Ht. apply filter_In in Ht. destruct Ht as [_ Ht].
  now apply negb_true_iff in Ht.
Qed.

Lemma delete_twice_witness :
  deleteTransaction (Some "alice") "t-1" (mkState [] [])
  = Value (json_error 404 "Not found", mkState [] []).
Proof.
  apply (delete_twice "alice" "t-1" Sample.aState (mkState [] [])).
  reflexivity.
Defined.

(** Without a session every handler answers 401 and changes nothing. *)
Lemma unauthorized (h : host) (st : state) (body : option json)
    (i : string) (dateParam tzOffsetParam : option string) :
  postAi h None body st = Value (json_error 401 "Unauthorized", st)
  /\ getTransactions None dateParam tzOffsetParam st
     = Value (json_error 401 "Unauthorized", st)
  /\ putTransaction h None i body st = Value (json_error 401 "Unauthorized", st)
  /\ deleteTransaction None i st = Value (json_error 401 "Unauthorized", st).
Proof. repeat split. Qed.

(** The handlers keep the primary key: ids stay pairwise distinct. *)
Lemma primary_key_kept (h : host) (su : option string) (body : option json)
    (i : string) (dateParam tzOffsetParam : option string)
    (st st' : state) (r : response) :
  NoDup (map id (rows st)) ->
  postAi h su body st = Value (r, st')
  \/ getTransactions su dateParam tzOffsetParam st = Value (r, st')
  \/ putTransaction h su i body st = Value (r, st')
  \/ deleteTransaction su i st = Value (r, st') ->
  NoDup (map id (rows st')).
Proof.
  intros Hnd [H|[H|[H|H]]].
  - destruct (postAi_rows _ _ _ _ _ _ H) as [->|(o & row & p & -> & _)];
      [assumption|].
    apply postAi_created in H.
    destruct H as (u & p' & row' & _ & _ & _ & -> & Hex & _).
    cbn [rows]. now apply insert_NoDup.
  - destruct su as [u|]; [|injection H as _ <-; assumption].
    revert H. unfold getTransactions.
    destruct (match dateParam with
              | Some d => if Str.isEmpty d then Value (Some None)
                          else b <- dayBounds d tzOffsetParam ;; Value (option_map Some b)
              | None => Value (Some None)
              end) as [[range|]| |]; cbn [bind]; try discriminate;
      intros [= _ <-]; assumption.
  - destruct su as [u|]; [|injection H as _ <-; assumption].
    destruct (putTransaction_rows _ _ _ _ _ _ _ H) as [->|[s ->]];
      [assumption|]. now rewrite update_ids.
  - destruct su as [u|]; [|injection H as _ <-; assumption].
    destruct (deleteTransaction_rows _ _ _ _ _ H) as [->| ->]; [assumption|].
    cbn [snd Db.delete]. clear H.
    induction (rows st) as [|x l IH]; cbn; [constructor|].
    inversion Hnd as [|? ? Hx Hnd']; subst.
    destruct (negb (Db.idAndOwner i u x)); cbn; [|now apply IH].
    constructor; [|now apply IH]. intros Hin. apply Hx.
    apply in_map_iff in Hin. destruct Hin as (y & Hy & Hiny).
    apply filter_In in Hiny. rewrite <- Hy. apply in_map. tauto.
Qed.

Lemma primary_key_kept_witness :
  exists r st',
    postAi Sample.aHost (Some "alice") (Some Sample.textBody) Sample.aState
      = Value (r, st')
    /\ NoDup (map id (rows st')).
Proof.
  assert (Hpost : exists r st',
             postAi Sample.aHost (Some "alice") (Some Sample.textBody) Sample.aState
               = Value (r, st'))
    by (eexists; eexists; vm_compute; reflexivity).
  destruct Hpost as (r & st' & Hpost).
  exists r, st'. split; [exact Hpost|].
  apply (primary_key_kept Sample.aHost (Some "alice") (Some Sample.textBody)
           "t-1" None None Sample.aState st' r).
  - cbn. constructor; [intros []|constructor].
  - now left.
Defined.

Lemma postAi_type_listed_witness :
  exists o t st',
    postAi Sample.aHost (Some "alice") (Some Sample.textBody) Sample.aState
      = Value (json_created o (Some t), st')
    /\ (type t = "income" \/ type t = "expense").
Proof.
  assert (Hpost : exists o t st',
             postAi Sample.aHost (Some "alice") (Some Sample.textBody) Sample.aState
               = Value (json_created o (Some t), st'))
    by (eexists; eexists; eexists; vm_compute; reflexivity).
  destruct Hpost as (o & t & st' & Hpost).
  exists o, t, st'. split; [exact Hpost|].
  exact (postAi_type_listed _ _ _ _ _ _ _ Hpost).
Defined.

Lemma postAi_sets_bookkeeping_witness :
  exists o t st',
    postAi Sample.aHost (Some "alice") (Some Sample.textBody) Sample.aState
      = Value (json_created o (Some t), st')
    /\ createdAt t = 1710046800 /\ updatedAt t = 1710046800.
Proof.
  assert (Hpost : exists o t st',
             postAi Sample.aHost (Some "alice") (Some Sample.textBody) Sample.aState
               = Value (json_created o (Some t), st'))
    by (eexists; eexists; eexists; vm_compute; reflexivity).
  destruct Hpost as (o & t & st' & Hpost).
  exists o, t, st'. split; [exact Hpost|].
  exact (postAi_sets_bookkeeping _ _ _ _ _ _ _ Hpost).
Defined.

Lemma put_keeps_bookkeeping_witness :
  exists t st' old,
    putTransaction Sample.laterHost (Some "alice") "t-1" (Some Sample.aBody)
      Sample.aState = Value (json_transaction t, st')
    /\ In old (rows Sample.aState) /\ id old = "t-1"
    /\ createdAt t = createdAt old /\ updatedAt t = updatedAt old.
Proof.
  assert (Hput : exists t st',
             putTransaction Sample.laterHost (Some "alice") "t-1" (Some Sample.aBody)
               Sample.aState = Value (json_transaction t, st'))
    by (eexists; eexists; vm_compute; reflexivity).
  destruct Hput as (t & st' & Hput).
  destruct (put_keeps_bookkeeping _ _ _ _ _ _ _ Hput) as (old & H).
  exists t, st', old. split; [exact Hput|exact H].
Defined.

(** A DELETE or PUT that succeeds has found a row with the id of the path
    and the userId of the caller, and DELETE removes exactly such rows. *)
Lemma success_needs_own_row (h : host) (u i : string) (st : state) :
  (forall st', deleteTransaction (Some u) i st = Value (json_success, st') ->
     (exists t, In t (rows st) /\ id t = i /\ userId t = u)
     /\ rows st' = filter (fun t => negb (Db.idAndOwner i u t)) (rows st))
  /\ (forall body t st',
        putTransaction h (Some u) i body st = Value (json_transaction t, st') ->
        exists old, In old (rows st) /\ id old = i /\ userId old = u).
Proof.
  split.
  - intros st'. unfold deleteTransaction.
    destruct (Str.isEmpty i); [discriminate|].
    destruct (Db.delete (Db.idAndOwner i u) (rows st)) as [ret tb] eqn:Ed.
    destruct ret as [|deleted more]; [discriminate|]. intros [= <-].
    injection Ed as Hret <-. split; [|reflexivity].
    assert (Hin : In deleted (filter (Db.idAndOwner i u) (rows st)))
      by (rewrite Hret; now left).
    apply filter_In in Hin. destruct Hin as [Hin Hq].
    apply idAndOwner_true in Hq. exists deleted. tauto.
  - intros body t st' H. apply putTransaction_success in H.
    destruct H as (u' & b & p & s & old & rest & [= <-] & _ & _ & _ & _ & _ & Hf & _).
    assert (Hin : In old (filter (Db.idAndOwner i u) (rows st)))
      by (rewrite Hf; now left).
    apply filter_In in Hin. destruct Hin as [Hin Hq].
    apply idAndOwner_true in Hq. exists old. tauto.
Qed.

(** * Further properties of the transaction handlers *)

(** ** PUT keeps what it does not set *)

Lemma applySet_identity (s : setClause) (t : transaction) :
  id (applySet s t) = id t /\ userId (applySet s t) = userId t
  /\ createdAt (applySet s t) = createdAt t
  /\ updatedAt (applySet s t) = updatedAt t.
Proof. repeat split. Qed.

(** Whatever a PUT answers, every row keeps its position, id, owner and
    bookkeeping timestamps: an update neither adds nor removes a row and
    never moves a transaction to another user. *)
Lemma put_keeps_identity (h : host) (su : option string) (i : string)
    (body : option json) (st st' : state) (r : response) :
  putTransaction h su i body st = Value (r, st') ->
  map (fun t => (id t, userId t, createdAt t, updatedAt t)) (rows st')
  = map (fun t => (id t, userId t, createdAt t, updatedAt t)) (rows st)
  /\ List.length (rows st') = List.length (rows st)
  /\ calls st' = calls st.
Proof.
  intros H.
  assert (Hrows : rows st' = rows st
                  \/ exists (s : setClause) (q : transaction -> bool),
                       rows st' = map (fun t => if q t then applySet s t else t)
                                      (rows st)).
  { destruct su as [u|]; [|injection H as _ <-; now left].
    destruct (putTransaction_rows _ _ _ _ _ _ _ H) as [->|[s ->]]; [now left|].
    right. now exists s, (Db.idAndOwner i u). }
  assert (Hcalls : calls st' = calls st).
  { revert H. unfold putTransaction. destruct su as [u|]; [|now intros [= _ <-]].
    destruct (Str.isEmpty i); [now intros [= _ <-]|].
    destruct body as [b|]; cbn [bind caught]; [|now intros [= _ <-]].
    destruct (buildPayload h b) as [p| |]; cbn [bind caught]; try discriminate;
      [|now intros [= _ <-]].
    destruct (invalidPayload p); [now intros [= _ <-]|].
    destruct (buildSet p) as [s| |]; cbn [bind caught]; try discriminate;
      [|now intros [= _ <-]].
    destruct (Db.update (applySet s) (Db.idAndOwner i u) (rows st)) as [ret tb].
    destruct ret; now intros [= _ <-]. }
  destruct Hrows as [->|(s & q & ->)]; [auto|].
  split; [|split; [apply length_map|assumption]].
  rewrite map_map. apply map_ext. intros t. now destruct (q t).
Qed.

Lemma put_keeps_identity_witness :
  exists r st',
    putTransaction Sample.aHost (Some "alice") "t-1" (Some Sample.aBody) Sample.aState
      = Value (r, st')
    /\ map (fun t => (id t, userId t, createdAt t, updatedAt t)) (rows st')
       = [("t-1", "alice", 1709000000, 1709000000)].
Proof.
  assert (Hput : exists r st',
             putTransaction Sample.aHost (Some "alice") "t-1" (Some Sample.aBody)
               Sample.aState = Value (r, st'))
    by (eexists; eexists; vm_compute; reflexivity).
  destruct Hput as (r & st' & Hput).
  exists r, st'. split; [exact Hput|].
  exact (proj1 (put_keeps_identity _ _ _ _ _ _ _ Hput)).
Defined.

(** ** Repeating a PUT *)

Lemma applySet_twice (s : setClause) (t : transaction) :
  applySet s (applySet s t) = applySet s t.
Proof. unfold applySet. cbn. destruct (s_occurredAt s); reflexivity. Qed.

Lemma idAndOwner_applySet (i u : string) (s : setClause) (t : transaction) :
  Db.idAndOwner i u (applySet s t) = Db.idAndOwner i u t.
Proof. reflexivity. Qed.

Lemma filter_after_update (s : setClause) (q : transaction -> bool)
    (l : list transaction) :
  (forall t, q (applySet s t) = q t) ->
  filter q (map (fun t => if q t then applySet s t else t) l)
  = map (applySet s) (filter q l).
Proof.
  intros Hq. induction l as [|x l IH]; [reflexivity|].
  cbn [map filter]. destruct (q x) eqn:E.
  - rewrite Hq, E. cbn [map]. now rewrite IH.
  - now rewrite E.
Qed.

Lemma update_twice (s : setClause) (q : transaction -> bool) (l : list transaction) :
  (forall t, q (applySet s t) = q t) ->
  map (fun t => if q t then applySet s t else t)
      (map (fun t => if q t then applySet s t else t) l)
  = map (fun t => if q t then applySet s t else t) l.
Proof.
  intros Hq. rewrite map_map. apply map_ext. intros t.
  destruct (q t) eqn:E.
  - now rewrite Hq, E, applySet_twice.
  - now rewrite E.
Qed.

(** A PUT that succeeded, sent again unchanged, succeeds with the same
    row and leaves the store as the first one left it. *)
Lemma put_idempotent (h : host) (u i : string) (b : json) (st st' : state)
    (t : transaction) :
  putTransaction h (Some u) i (Some b) st = Value (json_transaction t, st') ->
  putTransaction h (Some u) i (Some b) st' = Value (json_transaction t, st').
Proof.
  intros H. apply putTransaction_success in H.
  destruct H as (u' & b' & p & s & old & rest & [= <-] & [= <-] & Hi & Hp & Hv & Hs
                 & Hf & -> & ->).
  pose proof (idAndOwner_applySet i u s) as Hq.
  rewrite (putTransaction_found h u i b p s _ (applySet s old)
             (map (applySet s) rest) Hi Hp Hv Hs).
  - cbn [rows calls snd Db.update]. now rewrite applySet_twice, (update_twice _ _ _ Hq).
  - cbn [rows snd Db.update]. now rewrite (filter_after_update _ _ _ Hq), Hf.
Qed.

Lemma put_idempotent_witness :
  exists t st',
    putTransaction Sample.aHost (Some "alice") "t-1" (Some Sample.aBody) Sample.aState
      = Value (json_transaction t, st')
    /\ putTransaction Sample.aHost (Some "alice") "t-1" (Some Sample.aBody) st'
      = Value (json_transaction t, st').
Proof.
  assert (Hput : exists t st',
             putTransaction Sample.aHost (Some "alice") "t-1" (Some Sample.aBody)
               Sample.aState = Value (json_transaction t, st'))
    by (eexists; eexists; vm_compute; reflexivity).
  destruct Hput as (t & st' & Hput).
  exists t, st'. split; [exact Hput|].
  exact (put_idempotent _ _ _ _ _ _ _ Hput).
Defined.

(** ** occurredAt on update *)

Lemma buildPayload_occurredAt (h : host) (b : json) (p : payload) :
  buildPayload h b = Value p ->
  match Js.get b "occurredAt" with
  | Some v => if Js.truthy v
              then exists d, newDate h v = Value d /\ p_occurredAt p = Some d
              else p_occurredAt p = None
  | None => p_occurredAt p = None
  end.
Proof.
  unfold buildPayload.
  destruct (Js.optToString (Js.get b "title")) as [ttl| |]; cbn [bind];
    try discriminate.
  destruct (Js.optToString (Js.get b "currency")) as [cur| |]; cbn [bind];
    try discriminate.
  destruct (match cur with
            | Some s => u <- Str.toUpperCase (Str.trim s) ;; Value (Some u)
            | None => Value None
            end) as [cur'| |]; cbn [bind]; try discriminate.
  destruct (Js.optToString (Js.get b "category")) as [cat| |]; cbn [bind];
    try discriminate.
  destruct (Js.optToString (Js.get b "note")) as [nt| |]; cbn [bind];
    try discriminate.
  destruct (Js.get b "occurredAt") as [v|].
  - destruct (Js.truthy v).
    + destruct (newDate h v) as [d| |]; cbn [bind]; try discriminate.
      intros [= <-]. now exists d.
    + cbn [bind]. now intros [= <-].
  - cbn [bind]. now intros [= <-].
Qed.

Lemma buildSet_occurredAt (p : payload) (s : setClause) :
  buildSet p = Value s ->
  match p_occurredAt p with
  | Some d => exists seconds, bindDate d = Value seconds
                              /\ s_occurredAt s = Some seconds
  | None => s_occurredAt s = None
  end.
Proof.
  unfold buildSet.
  destruct (match p_amount p with
            | Some v => Js.ToNumber v
            | None => Value NaN
            end) as [n| |]; cbn [bind]; try discriminate.
  destruct (Num.toString n) as [amt| |]; cbn [bind]; try discriminate.
  destruct (match p_type p with
            | Some (JStr s0) => Value s0
            | _ => Unmodelled
            end) as [ty| |]; cbn [bind]; try discriminate.
  destruct (p_occurredAt p) as [d|].
  - destruct (bindDate d) as [seconds| |]; cbn [bind]; try discriminate.
    intros [= <-]. now exists seconds.
  - cbn [bind]. now intros [= <-].
Qed.

(** A successful PUT without occurredAt (absent, null, false, 0 or the
    empty string) keeps the stored occurredAt of the row; with an
    occurredAt string that the engine parses to a time value it stores
    that time in whole seconds. *)
Lemma put_occurredAt (h : host) (u i : string) (b : json) (st st' : state)
    (t : transaction) :
  putTransaction h (Some u) i (Some b) st = Value (json_transaction t, st') ->
  (falsyField (Js.get b "occurredAt") ->
     exists old, In old (rows st) /\ id old = i /\ userId old = u
                 /\ occurredAt t = occurredAt old)
  /\ (forall text ms,
        Js.get b "occurredAt" = Some (JStr text) -> text <> "" ->
        dateParse h text = Some ms ->
        occurredAt t = ms / 1000).
Proof.
  intros H. apply putTransaction_success in H.
  destruct H as (u' & b' & p & s & old & rest & [= <-] & [= <-] & _ & Hp & _ & Hs
                 & Hf & -> & _).
  pose proof (buildPayload_occurredAt _ _ _ Hp) as Ho.
  pose proof (buildSet_occurredAt _ _ Hs) as Hso.
  assert (Hold : In old (filter (Db.idAndOwner i u) (rows st)))
    by (rewrite Hf; now left).
  apply filter_In in Hold. destruct Hold as [Hin Hq].
  apply idAndOwner_true in Hq.
  split.
  - intros Hfalsy. exists old. repeat split; try tauto.
    unfold falsyField in Hfalsy. cbn [occurredAt applySet].
    destruct (Js.get b "occurredAt") as [v|].
    + rewrite Hfalsy in Ho. rewrite Ho in Hso. now rewrite Hso.
    + rewrite Ho in Hso. now rewrite Hso.
  - intros text ms Hget Hne Hparse. rewrite Hget in Ho. cbn [Js.truthy] in Ho.
    rewrite (isEmpty_false _ Hne) in Ho. cbn [negb newDate] in Ho.
    destruct Ho as (d & [= <-] & Hpo). rewrite Hpo, Hparse in Hso.
    destruct Hso as (seconds & [= <-] & Hsec).
    cbn [occurredAt applySet]. now rewrite Hsec.
Qed.

Lemma put_occurredAt_witness :
  exists t st',
    putTransaction Sample.aHost (Some "alice") "t-1" (Some Sample.aBody) Sample.aState
      = Value (json_transaction t, st')
    /\ occurredAt t = occurredAt Sample.row.
Proof.
  assert (Hput : exists t st',
             putTransaction Sample.aHost (Some "alice") "t-1" (Some Sample.aBody)
               Sample.aState = Value (json_transaction t, st'))
    by (eexists; eexists; vm_compute; reflexivity).
  destruct Hput as (t & st' & Hput).
  exists t, st'. split; [exact Hput|].
  destruct (proj1 (put_occurredAt _ _ _ _ _ _ _ Hput) I) as (old & Hin & _ & _ & Ho).
  destruct Hin as [<-|[]]. exact Ho.
Defined.

(** ** The payload check, field by field *)

Lemma toUpperCase_empty (s u : string) :
  Str.toUpperCase s = Value u -> (u = "" <-> s = "").
Proof.
  destruct s as [|c r]; cbn [Str.toUpperCase].
  - intros [= <-]. tauto.
  - destruct (Str.toUpperCase r) as [r'| |]; cbn [bind]; try discriminate.
    repeat match goal with
           | |- context [if ?c then _ else _] => destruct c
           end; intros [= <-]; split; discriminate.
Qed.

Lemma blank_string_field (x : option json) (s : option string) :
  Js.optToString x = Value s ->
  (truthyString (option_map Str.trim s) = false <-> blankField x).
Proof.
  assert (Hv : forall v, (exists str, Js.ToString v = Value str /\ s = Some str) ->
                 (truthyString (option_map Str.trim s) = false
                  <-> exists s', Js.ToString v = Value s' /\ Str.trim s' = "")).
  { intros v (str & E & ->). cbn [truthyString option_map].
    rewrite negb_false_iff, isEmpty_true. split.
    - intros Ht. now exists str.
    - intros (s' & E' & Ht). rewrite E in E'. now injection E' as <-. }
  assert (Hs : forall v, (str <- Js.ToString v ;; Value (Some str)) = Value s ->
                 exists str, Js.ToString v = Value str /\ s = Some str).
  { intros v. destruct (Js.ToString v) as [str| |]; cbn [bind]; try discriminate.
    intros [= <-]. now exists str. }
  unfold blankField. destruct x as [v|]; cbn [Js.optToString].
  - destruct v; try (intros H; apply Hv, Hs, H).
    intros [= <-]. cbn. tauto.
  - intros [= <-]. cbn. tauto.
Qed.

(** A PUT whose fields convert to strings is answered 400 "Invalid
    payload" exactly when the title is absent, null or blank, or the
    amount is absent, or the currency is absent, null or blank, or the
    type is absent or falsy; the store is then unchanged. *)
Lemma put_invalid_payload_iff (h : host) (u i : string) (b : json) (p : payload)
    (st : state) :
  i <> "" -> buildPayload h b = Value p ->
  (putTransaction h (Some u) i (Some b) st
     = Value (json_error 400 "Invalid payload", st)
   <-> blankField (Js.get b "title") \/ Js.get b "amount" = None
       \/ blankField (Js.get b "currency") \/ falsyField (Js.get b "type")).
Proof.
  intros Hi Hp.
  pose proof (buildPayload_fields _ _ _ Hp)
    as (ttl & cur & cat & nt & Httl & Hpt & Hcur & Hpc & _ & _ & _ & _ & Hamt & Hty).
  assert (Hinv : invalidPayload p = true
                 <-> blankField (Js.get b "title") \/ Js.get b "amount" = None
                     \/ blankField (Js.get b "currency")
                     \/ falsyField (Js.get b "type")).
  { unfold invalidPayload. rewrite !orb_true_iff, !negb_true_iff.
    rewrite Hpt, (blank_string_field _ _ Httl), Hamt, Hty.
    assert (Hc : truthyString (p_currency p) = false
                 <-> blankField (Js.get b "currency")).
    { rewrite <- (blank_string_field _ _ Hcur). destruct cur as [raw|].
      - destruct Hpc as (c & Hup & ->). cbn [truthyString option_map].
        rewrite !negb_false_iff, !isEmpty_true. now apply toUpperCase_empty.
      - rewrite Hpc. tauto. }
    rewrite Hc.
    assert (Ht : truthyValue (Js.get b "type") = false
                 <-> falsyField (Js.get b "type")).
    { unfold truthyValue, falsyField. destruct (Js.get b "type"); tauto. }
    rewrite Ht.
    assert (Ha : match Js.get b "amount" with None => true | Some _ => false end = true
                 <-> Js.get b "amount" = None).
    { destruct (Js.get b "amount"); split; congruence. }
    rewrite Ha. tauto. }
  unfold putTransaction. rewrite (isEmpty_false _ Hi). cbn [bind caught].
  rewrite Hp. cbn [bind caught]. rewrite <- Hinv.
  destruct (invalidPayload p); [tauto|].
  split; [|discriminate].
  destruct (buildSet p) as [s| |]; cbn [bind caught]; try discriminate.
  destruct (Db.update (applySet s) (Db.idAndOwner i u) (rows st)) as [ret tb].
  destruct ret; discriminate.
Qed.

Lemma put_invalid_payload_iff_witness :
  putTransaction Sample.aHost (Some "alice") "t-1" (Some Sample.blankTitleBody)
    Sample.aState
  = Value (json_error 400 "Invalid payload", Sample.aState)
  /\ putTransaction Sample.aHost (Some "alice") "t-1" (Some Sample.tinyTypeBody)
       Sample.aState
     = Value (json_error 400 "Invalid payload", Sample.aState).
Proof.
  assert (Hi : "t-1" <> "") by discriminate.
  split.
  - assert (Hp : exists p, buildPayload Sample.aHost Sample.blankTitleBody = Value p)
      by (eexists; vm_compute; reflexivity).
    destruct Hp as (p & Hp).
    apply (proj2 (put_invalid_payload_iff Sample.aHost "alice" "t-1"
                    Sample.blankTitleBody p Sample.aState Hi Hp)).
    left. cbn. exists "   ". split; reflexivity.
  - assert (Hp : exists p, buildPayload Sample.aHost Sample.tinyTypeBody = Value p)
      by (eexists; vm_compute; reflexivity).
    destruct Hp as (p & Hp).
    apply (proj2 (put_invalid_payload_iff Sample.aHost "alice" "t-1"
                    Sample.tinyTypeBody p Sample.aState Hi Hp)).
    right. right. right. vm_compute. reflexivity.
Defined.

(** ** What an update stores as title and currency *)

Lemma trimEnd_twice (s : string) : Str.trimEnd (Str.trimEnd s) = Str.trimEnd s.
Proof.
  induction s as [|c r IH]; [reflexivity|].
  cbn [Str.trimEnd]. destruct (Str.trimEnd r) as [|c' r'] eqn:E.
  - destruct (Str.isWhiteSpace c) eqn:Ec; [reflexivity|].
    cbn [Str.trimEnd]. now rewrite Ec.
  - change (Str.trimEnd (String c (String c' r'))) with
      (match Str.trimEnd (String c' r') with
       | EmptyString => if Str.isWhiteSpace c then EmptyString
                        else String c EmptyString
       | r'' => String c r''
       end).
    now rewrite IH.
Qed.

Lemma trimStart_head (s : string) :
  match Str.trimStart s with
  | EmptyString => True
  | String c _ => Str.isWhiteSpace c = false
  end.
Proof.
  induction s as [|c r IH]; [exact I|].
  cbn [Str.trimStart]. destruct (Str.isWhiteSpace c) eqn:Ec; [exact IH|exact Ec].
Qed.

Lemma trimEnd_head (c : ascii) (r : string) :
  Str.isWhiteSpace c = false -> exists r', Str.trimEnd (String c r) = String c r'.
Proof.
  intros Hc. cbn [Str.trimEnd]. destruct (Str.trimEnd r) as [|c' r'].
  - rewrite Hc. now exists EmptyString.
  - now exists (String c' r').
Qed.

Lemma trim_twice (s : string) : Str.trim (Str.trim s) = Str.trim s.
Proof.
  unfold Str.trim. pose proof (trimStart_head s) as Hh.
  destruct (Str.trimStart s) as [|c r]; [reflexivity|].
  destruct (trimEnd_head c r Hh) as (r' & E).
  rewrite E. cbn [Str.trimStart]. rewrite Hh, <- E. apply trimEnd_twice.
Qed.

Lemma toUpperCase_no_lower (s u : string) :
  Str.toUpperCase s = Value u ->
  Str.allOf (fun c => negb (isLowerAscii c)) u = true.
Proof.
  revert u. induction s as [|c r IH]; intros u.
  - intros [= <-]. reflexivity.
  - cbn [Str.toUpperCase].
    destruct (Str.toUpperCase r) as [r'| |]; cbn [bind]; try discriminate.
    specialize (IH r' eq_refl).
    destruct c as [[] [] [] [] [] [] [] []]; cbn; try discriminate;
      intros [= <-]; exact IH.
Qed.

(** A successful PUT stores a title that is non-empty and has no white
    space at either end, and a currency that is non-empty and has no
    letter from a to z. *)
Lemma put_stores_normalised (h : host) (u i : string) (b : json)
    (st st' : state) (t : transaction) :
  putTransaction h (Some u) i (Some b) st = Value (json_transaction t, st') ->
  Str.trim (title t) = title t /\ title t <> ""
  /\ currency t <> ""
  /\ Str.allOf (fun c => negb (isLowerAscii c)) (currency t) = true.
Proof.
  intros H. apply putTransaction_success in H.
  destruct H as (u' & b' & p & s & old & rest & _ & [= <-] & _ & Hp & Hv & Hs
                 & _ & -> & _).
  destruct (buildSet_fields _ _ Hv Hs) as (a & n & _ & _ & _ & Hst & Hsc & _).
  apply buildPayload_fields in Hp.
  destruct Hp as (ttl & cur & cat & nt & _ & Hpt & _ & Hpc & _).
  unfold invalidPayload in Hv.
  apply orb_false_iff in Hv. destruct Hv as [Hv _].
  apply orb_false_iff in Hv. destruct Hv as [Hv Hcur].
  apply orb_false_iff in Hv. destruct Hv as [Httl _].
  rewrite Hst in Httl. rewrite Hsc in Hcur. cbn in Httl, Hcur.
  rewrite negb_false_iff, negb_true_iff in Httl, Hcur.
  cbn [title currency applySet].
  assert (Ht : Str.trim (s_title s) = s_title s).
  { rewrite Hst in Hpt. destruct ttl as [raw|]; [|discriminate].
    injection Hpt as ->. apply trim_twice. }
  assert (Hc : Str.allOf (fun c => negb (isLowerAscii c)) (s_currency s) = true).
  { destruct cur as [raw|].
    - destruct Hpc as (c & Hup & Hpc). rewrite Hsc in Hpc. injection Hpc as ->.
      now apply toUpperCase_no_lower in Hup.
    - rewrite Hsc in Hpc. discriminate. }
  repeat split; try assumption.
  - intros E. rewrite E in Httl. discriminate.
  - intros E. rewrite E in Hcur. discriminate.
Qed.

Lemma put_stores_normalised_witness :
  exists t st',
    putTransaction Sample.aHost (Some "alice") "t-1" (Some Sample.aBody) Sample.aState
      = Value (json_transaction t, st')
    /\ Str.trim (title t) = title t /\ title t <> "".
Proof.
  assert (Hput : exists t st',
             putTransaction Sample.aHost (Some "alice") "t-1" (Some Sample.aBody)
               Sample.aState = Value (json_transaction t, st'))
    by (eexists; eexists; vm_compute; reflexivity).
  destruct Hput as (t & st' & Hput).
  destruct (put_stores_normalised _ _ _ _ _ _ _ Hput) as (H1 & H2 & _).
  exists t, st'. repeat split; assumption.
Defined.

(** ** Integer amounts *)

Lemma digitsValue_acc (d : Decimal.uint) (acc : positive) :
  Str.digitsValue (Z.pos acc) (NilEmpty.string_of_uint d)
  = Z.pos (Pos.of_uint_acc d acc).
Proof.
  revert acc. induction d; intros acc;
    cbn [NilEmpty.string_of_uint Str.digitsValue Pos.of_uint_acc];
    [reflexivity|rewrite <- IHd; f_equal; vm_compute (Str.code _); lia..].
Qed.

Lemma digitsValue_of_uint (d : Decimal.uint) :
  Str.digitsValue 0 (NilEmpty.string_of_uint d) = Z.of_N (Pos.of_uint d).
Proof.
  induction d; cbn [NilEmpty.string_of_uint Str.digitsValue Pos.of_uint];
    [reflexivity|exact IHd|apply (digitsValue_acc d)..].
Qed.

Lemma digitsValue_NilZero (d : Decimal.uint) :
  Str.digitsValue 0 (NilZero.string_of_uint d) = Z.of_N (N.of_uint d).
Proof.
  destruct d; [reflexivity|..];
    unfold NilZero.string_of_uint; apply digitsValue_of_uint.
Qed.

Lemma digitsValue_digits (n : Z) : 0 <= n -> Str.digitsValue 0 (Num.digits n) = n.
Proof.
  intros Hn. unfold Num.digits.
  rewrite digitsValue_NilZero, DecimalN.Unsigned.of_to. lia.
Qed.

Lemma string_of_uint_digits (d : Decimal.uint) :
  Str.allOf Str.isDigit (NilEmpty.string_of_uint d) = true.
Proof. induction d; cbn [NilEmpty.string_of_uint Str.allOf]; auto. Qed.

Lemma digits_allDigits (n : Z) :
  Str.allOf Str.isDigit (Num.digits n) = true /\ Num.digits n <> "".
Proof.
  unfold Num.digits, NilZero.string_of_uint.
  destruct (N.to_uint (Z.to_N n)) eqn:E; try (split; [reflexivity|discriminate]);
    (split; [rewrite <- E; apply string_of_uint_digits|discriminate]).
Qed.

Lemma digit_not_space (c : ascii) : Str.isDigit c = true -> Str.isWhiteSpace c = false.
Proof.
  unfold Str.isDigit, Str.isWhiteSpace. cbv zeta. generalize (Str.code c). intros n H.
  apply andb_true_iff in H. destruct H as [H1 H2].
  apply Z.leb_le in H1, H2.
  rewrite !orb_false_iff, andb_false_iff, !Z.leb_gt, !Z.eqb_neq. lia.
Qed.

Lemma trimEnd_digits (s : string) :
  Str.allOf Str.isDigit s = true -> Str.trimEnd s = s.
Proof.
  induction s as [|c r IH]; [reflexivity|].
  cbn [Str.allOf]. intros H. apply andb_true_iff in H. destruct H as [Hc Hr].
  cbn [Str.trimEnd]. rewrite (IH Hr). destruct r; [|reflexivity].
  now rewrite (digit_not_space _ Hc).
Qed.

Lemma trim_digits (s : string) :
  Str.allOf Str.isDigit s = true -> Str.trim s = s.
Proof.
  intros H. unfold Str.trim. destruct s as [|c r]; [reflexivity|].
  pose proof H as H'. cbn [Str.allOf] in H'. apply andb_true_iff in H'.
  cbn [Str.trimStart]. rewrite (digit_not_space c (proj1 H')).
  now apply trimEnd_digits.
Qed.

Lemma spanDigits_all (s : string) :
  Str.allOf Str.isDigit s = true -> Str.spanDigits s = (s, "").
Proof.
  induction s as [|c r IH]; [reflexivity|].
  cbn [Str.allOf]. intros H. apply andb_true_iff in H. destruct H as [Hc Hr].
  cbn [Str.spanDigits]. now rewrite Hc, (IH Hr).
Qed.

Lemma exact_integer (z : Z) : Z.abs z <= 2 ^ 53 -> Num.exact z 0 = true.
Proof.
  intros H. unfold Num.exact. cbn [Num.strip Nat.eqb andb].
  apply orb_true_iff. right. now apply Z.leb_le.
Qed.

(** [Number(s)] for a string of digits. *)
Lemma StringToNumber_digits (s : string) :
  s <> "" -> Str.allOf Str.isDigit s = true ->
  Num.StringToNumber s
  = if Num.exact (Str.digitsValue 0 s) 0
    then Value (Dec (Str.digitsValue 0 s) 0) else Unmodelled.
Proof.
  intros Hne Hall. unfold Num.StringToNumber. rewrite (trim_digits _ Hall).
  destruct s as [|c r]; [congruence|]. clear Hne.
  pose proof (spanDigits_all _ Hall) as Hspan.
  cbn [Str.allOf] in Hall. apply andb_true_iff in Hall. destruct Hall as [Hc Hr].
  assert (Hnd : Num.nonDecimalLiteral (String c r) = false).
  { destruct r as [|p [|c3 r']];
      destruct c as [[] [] [] [] [] [] [] []]; try reflexivity.
    cbn [Str.allOf] in Hr. apply andb_true_iff in Hr. destruct Hr as [Hp _].
    unfold Num.nonDecimalLiteral. cbv zeta. revert Hp. unfold Str.isDigit. cbv zeta.
    generalize (Str.code p). intros n Hp.
    apply andb_true_iff in Hp. destruct Hp as [H1 H2]. apply Z.leb_le in H1, H2.
    repeat match goal with
           | |- context [?a =? ?b] =>
               replace (a =? b) with false by (symmetry; apply Z.eqb_neq; lia)
           end.
    reflexivity. }
  cbn [Str.isEmpty]. rewrite Hnd.
  destruct c as [[] [] [] [] [] [] [] []]; vm_compute in Hc; try discriminate;
    cbv iota beta; rewrite Hspan; reflexivity.
Qed.

Lemma digits_not_Infinity (s : string) :
  Str.allOf Str.isDigit s = true -> String.eqb s "Infinity" = false.
Proof.
  destruct s as [|c r]; [reflexivity|].
  cbn [Str.allOf]. intros H. apply andb_true_iff in H. destruct H as [Hc _].
  destruct c as [[] [] [] [] [] [] [] []]; vm_compute in Hc; try discriminate;
    reflexivity.
Qed.

(** [Number(s)] for a minus sign and a string of digits. *)
Lemma StringToNumber_minus_digits (s : string) :
  s <> "" -> Str.allOf Str.isDigit s = true ->
  Num.StringToNumber (String "-" s)
  = if Num.exact (- Str.digitsValue 0 s) 0
    then Value (Dec (- Str.digitsValue 0 s) 0) else Unmodelled.
Proof.
  intros Hne Hall. unfold Num.StringToNumber.
  assert (Ht : Str.trim (String "-" s) = String "-" s).
  { unfold Str.trim. cbn [Str.trimStart]. change (Str.isWhiteSpace "-") with false.
    cbv iota. cbn [Str.trimEnd]. rewrite (trimEnd_digits _ Hall).
    destruct s; [congruence|reflexivity]. }
  rewrite Ht. cbn [Str.isEmpty].
  assert (Hnd : Num.nonDecimalLiteral (String "-" s) = false) by reflexivity.
  rewrite Hnd. cbv iota beta.
  rewrite (digits_not_Infinity _ Hall), (spanDigits_all _ Hall).
  destruct s as [|c r]; [congruence|]. reflexivity.
Qed.

Lemma toString_integer (z : Z) :
  Z.abs z <= 2 ^ 53 -> Num.toString (Dec z 0) = Value (showInt z).
Proof.
  intros Hz. unfold Num.toString. rewrite (exact_integer _ Hz).
  cbn [negb Num.strip Nat.eqb]. unfold showInt.
  destruct (z =? 0) eqn:E0.
  - apply Z.eqb_eq in E0. subst z. reflexivity.
  - destruct (z <? 0) eqn:Eneg.
    + apply Z.ltb_lt in Eneg. replace (Z.abs z) with (- z) by lia. reflexivity.
    + apply Z.ltb_ge in Eneg. replace (Z.abs z) with z by lia. reflexivity.
Qed.

Lemma StringToNumber_showInt (z : Z) :
  Z.abs z <= 2 ^ 53 -> Num.StringToNumber (showInt z) = Value (Dec z 0).
Proof.
  intros Hz. unfold showInt. destruct (z <? 0) eqn:Eneg.
  - apply Z.ltb_lt in Eneg.
    destruct (digits_allDigits (- z)) as [Hall Hne].
    change ("-" ++ Num.digits (- z)) with (String "-" (Num.digits (- z))).
    rewrite (StringToNumber_minus_digits _ Hne Hall).
    rewrite digitsValue_digits by lia. rewrite Z.opp_involutive.
    now rewrite (exact_integer _ Hz).
  - apply Z.ltb_ge in Eneg.
    destruct (digits_allDigits z) as [Hall Hne].
    rewrite (StringToNumber_digits _ Hne Hall).
    rewrite digitsValue_digits by lia.
    now rewrite (exact_integer _ Hz).
Qed.

(** A successful PUT whose amount is an integer of magnitude at most
    2^53, sent as a JSON number or as its decimal text, stores exactly
    that decimal text. *)
Lemma put_integer_amount (h : host) (u i : string) (b : json) (st st' : state)
    (t : transaction) (z : Z) :
  Z.abs z <= 2 ^ 53 ->
  Js.get b "amount" = Some (JNum (Dec z 0))
  \/ Js.get b "amount" = Some (JStr (showInt z)) ->
  putTransaction h (Some u) i (Some b) st = Value (json_transaction t, st') ->
  amount t = showInt z.
Proof.
  intros Hz Hamt H. apply putTransaction_success in H.
  destruct H as (u' & b' & p & s & old & rest & _ & [= <-] & _ & Hp & Hv & Hs
                 & _ & -> & _).
  apply buildPayload_fields in Hp.
  destruct Hp as (_ & _ & _ & _ & _ & _ & _ & _ & _ & _ & _ & _ & Hpa & _).
  destruct (buildSet_fields _ _ Hv Hs) as (a & n & Ha & Hn & Hstr & _).
  rewrite Hpa in Ha. cbn [amount applySet].
  assert (Hnz : n = Dec z 0).
  { destruct Hamt as [Hamt|Hamt]; rewrite Hamt in Ha; injection Ha as <-;
      cbn [Js.ToNumber] in Hn.
    - now injection Hn.
    - rewrite (StringToNumber_showInt _ Hz) in Hn. now injection Hn. }
  subst n. rewrite (toString_integer _ Hz) in Hstr. now injection Hstr.
Qed.

Lemma put_integer_amount_witness :
  exists t st',
    putTransaction Sample.aHost (Some "alice") "t-1" (Some Sample.bananaBody)
      Sample.aState = Value (json_transaction t, st')
    /\ amount t = "900".
Proof.
  assert (Hput : exists t st',
             putTransaction Sample.aHost (Some "alice") "t-1" (Some Sample.bananaBody)
               Sample.aState = Value (json_transaction t, st'))
    by (eexists; eexists; vm_compute; reflexivity).
  destruct Hput as (t & st' & Hput).
  exists t, st'. split; [exact Hput|].
  apply (put_integer_amount Sample.aHost "alice" "t-1" Sample.bananaBody
           Sample.aState st' t 900); [vm_compute; discriminate|now left|exact Hput].
Defined.

(** ** What POST /ai stores *)

Lemma generateObject_conforms (h : host) (p : prompt) (o : extraction) :
  generateObject h p = Value o ->
  exists answer, generate h p = Some answer /\ Schema.parse answer = Some o.
Proof.
  unfold generateObject. destruct (generate h p) as [answer|]; [|discriminate].
  destruct (Schema.parse answer) as [o'|] eqn:E; [|discriminate].
  intros [= <-]. now exists answer.
Qed.

Lemma zString_bounds (lo hi : option nat) (v : option json) (s : string) :
  Schema.zString lo hi v = Some s ->
  v = Some (JStr s)
  /\ match lo with Some k => (k <= Str.len s)%nat | None => True end
  /\ match hi with Some k => (Str.len s <= k)%nat | None => True end.
Proof.
  unfold Schema.zString. destruct v as [[| | |s'| |]|]; try discriminate.
  destruct (match lo with Some k => Nat.leb k (Str.len s') | None => true end) eqn:El;
    [|discriminate].
  destruct (match hi with Some k => Nat.leb (Str.len s') k | None => true end) eqn:Eh;
    [|discriminate].
  cbn [andb]. intros [= <-]. split; [reflexivity|].
  split; [destruct lo|destruct hi]; try exact I; now apply Nat.leb_le.
Qed.

(** What the object schema lets through. *)
Lemma parse_conforms (answer : json) (o : extraction) :
  Schema.parse answer = Some o ->
  Js.get answer "title" = Some (JStr (x_title o)) /\ x_title o <> ""
  /\ Js.get answer "amount" = Some (JNum (x_amount o)) /\ x_amount o <> NaN
  /\ (Js.get answer "currency" = None /\ x_currency o = "USD"
      \/ Js.get answer "currency" = Some (JStr (x_currency o)))
  /\ Str.len (x_currency o) = 3%nat
  /\ Js.get answer "type" = Some (JStr (txTypeText (x_type o)))
  /\ Js.get answer "category" = Some (JStr (x_category o)).
Proof.
  unfold Schema.parse. destruct answer as [| | | | |fields]; try discriminate.
  destruct (Schema.zString (Some 1%nat) None (Js.get (JObj fields) "title"))
    as [t|] eqn:Et; [|discriminate].
  destruct (Schema.zNumber (Js.get (JObj fields) "amount")) as [a|] eqn:Ea;
    [|discriminate].
  destruct (match Js.get (JObj fields) "currency" with
            | None => Some "USD"
            | c => Schema.zString (Some 3%nat) (Some 3%nat) c
            end) as [c|] eqn:Ec; [|discriminate].
  destruct (Schema.zType (Js.get (JObj fields) "type")) as [ty|] eqn:Ety;
    [|discriminate].
  destruct (Schema.zString None None (Js.get (JObj fields) "category"))
    as [cat|] eqn:Ecat; [|discriminate].
  destruct (Schema.zOptionalString (Js.get (JObj fields) "note")) as [n|];
    [|discriminate].
  destruct (Schema.zOptionalString (Js.get (JObj fields) "occurredAt")) as [oc|];
    [|discriminate].
  intros [= <-]. cbn [x_title x_amount x_currency x_type x_category].
  apply zString_bounds in Et. destruct Et as (Et & Hlen & _).
  apply zString_bounds in Ecat. destruct Ecat as (Ecat & _ & _).
  split; [assumption|]. split; [intros ->; cbn in Hlen; lia|].
  unfold Schema.zNumber in Ea.
  destruct (Js.get (JObj fields) "amount") as [[| |[|m e]| | |]|]; try discriminate.
  injection Ea as <-. split; [reflexivity|]. split; [discriminate|].
  assert (Hc : (Js.get (JObj fields) "currency" = None /\ c = "USD"
                \/ Js.get (JObj fields) "currency" = Some (JStr c))
               /\ Str.len c = 3%nat).
  { destruct (Js.get (JObj fields) "currency") as [cv|].
    - apply zString_bounds in Ec. destruct Ec as (-> & H1 & H2).
      split; [now right|lia].
    - injection Ec as <-. split; [now left|reflexivity]. }
  destruct Hc as [Hc Hl]. split; [assumption|]. split; [assumption|].
  split; [|assumption].
  unfold Schema.zType in Ety.
  destruct (Js.get (JObj fields) "type") as [[| | |s| |]|]; try discriminate.
  destruct (String.eqb s "income") eqn:E1.
  - injection Ety as <-. apply String.eqb_eq in E1. now subst.
  - destruct (String.eqb s "expense") eqn:E2; [|discriminate].
    injection Ety as <-. apply String.eqb_eq in E2. now subst.
Qed.

Lemma postAi_created_row (h : host) (su : option string) (body : option json)
    (st st' : state) (o : extraction) (t : option transaction) :
  postAi h su body st = Value (json_created o t, st') ->
  exists u p row,
    su = Some u
    /\ generateObject h p = Value o
    /\ t = Some row
    /\ st' = mkState (rows st ++ [row])%list (calls st ++ [p])%list
    /\ existsb (Db.hasId (id row)) (rows st) = false
    /\ id row = randomUUID h /\ userId row = u
    /\ title row = x_title o /\ currency row = x_currency o
    /\ category row = Some (x_category o) /\ note row = x_note o
    /\ match x_occurredAt o with
       | Some s => if Str.isEmpty s
                   then occurredAt row = nowOccurred h / 1000
                   else exists ms, dateParse h s = Some ms
                                   /\ occurredAt row = ms / 1000
       | None => occurredAt row = nowOccurred h / 1000
       end
    /\ text p <> "" /\ Str.trim (text p) = text p
    /\ todayISO p = nowToday h
    /\ (exists b, body = Some b /\ preferredCurrencyOf b = Value (preferredCurrency p)).
Proof.
  unfold postAi. destruct su as [u|]; [|discriminate].
  destruct body as [b|]; cbn [bind caught]; [|discriminate].
  destruct (Js.ToString (Js.nullish (Js.get b "text") (JStr "")))
    as [rawText| |]; cbn [bind caught]; try discriminate.
  destruct (Js.ToString (Js.nullish (Js.get b "currency") (JStr "USD")))
    as [rawCur| |] eqn:Eraw; cbn [bind caught]; try discriminate.
  destruct (Str.toUpperCase (Str.trim rawCur)) as [cur| |] eqn:Ecur;
    cbn [bind caught]; try discriminate.
  destruct (Str.isEmpty (Str.trim rawText)) eqn:Etext; [discriminate|].
  set (p := mkPrompt cur (nowToday h) (Str.trim rawText)).
  destruct (generateObject h p) as [obj| |] eqn:Eg; cbn [bind caught];
    try discriminate.
  destruct (match x_occurredAt obj with
            | Some s => if Str.isEmpty s then Value (Some (nowOccurred h))
                        else Value (dateParse h s)
            | None => Value (Some (nowOccurred h))
            end) as [occ| |] eqn:Eocc; cbn [bind caught]; try discriminate.
  destruct (Num.toString (x_amount obj)) as [amt| |]; cbn [bind caught];
    try discriminate.
  destruct (bindDate occ) as [secs| |] eqn:Eb; cbn [bind caught]; try discriminate.
  unfold Db.insert. cbn [id rows].
  destruct (existsb (Db.hasId (randomUUID h)) (rows st)) eqn:Ex;
    cbn [bind caught fst snd hd_error rows calls]; [discriminate|].
  intros [= <- <- <-].
  eexists u, p, _. repeat split; try reflexivity; try assumption.
  - cbn [occurredAt]. destruct occ as [ms|]; [|discriminate].
    injection Eb as <-. unfold Db.mapToDriverValue.
    destruct (x_occurredAt obj) as [s|].
    + destruct (Str.isEmpty s).
      * now injection Eocc as <-.
      * injection Eocc as Eocc. now exists ms.
    + now injection Eocc as <-.
  - cbn [text p]. intros E. rewrite E in Etext. discriminate.
  - apply trim_twice.
  - exists b. split; [reflexivity|]. unfold preferredCurrencyOf.
    rewrite Eraw. cbn [bind]. exact Ecur.
Qed.

(** A transaction created by POST /ai belongs to the caller, has the
    fresh id, a non-empty title, a currency of exactly three code units
    ("USD" when the service's answer has none) and a category; its note
    is the answer's note or null.  The answer is the one the service
    gave to the request's own call, and the object returned is what the
    schema reads from it. *)
Lemma created_row_conforms (h : host) (u : string) (body : option json)
    (st st' : state) (o : extraction) (t : transaction) :
  postAi h (Some u) body st = Value (json_created o (Some t), st') ->
  userId t = u /\ id t = randomUUID h
  /\ (forall x, In x (rows st) -> id x <> id t)
  /\ In t (rows st')
  /\ title t <> "" /\ Str.len (currency t) = 3%nat
  /\ category t <> None
  /\ exists p answer,
       calls st' = (calls st ++ [p])%list
       /\ generate h p = Some answer
       /\ Schema.parse answer = Some o
       /\ (Js.get answer "currency" = None -> currency t = "USD")
       /\ (Js.get answer "note" = None -> note t = None).
Proof.
  intros H. apply postAi_created_row in H.
  destruct H as (u' & p & row & [= <-] & Hg & [= <-] & -> & Hex & Hid & Hu & Ht & Hc
                 & Hcat & Hnote & _).
  destruct (generateObject_conforms _ _ _ Hg) as (answer & Hgen & Hparse).
  pose proof (parse_conforms _ _ Hparse) as (_ & Htitle & _ & _ & Hcur & Hlen & _).
  split; [assumption|]. split; [assumption|]. split.
  { intros x Hx E. assert (existsb (Db.hasId (id t)) (rows st) = true); [|congruence].
    apply existsb_exists. exists x. split; [assumption|]. now apply String.eqb_eq. }
  split; [cbn [rows]; apply in_or_app; right; now left|].
  rewrite Ht, Hc, Hcat. repeat split; try assumption; try discriminate.
  exists p, answer. split; [reflexivity|]. split; [assumption|].
  split; [exact Hparse|]. split.
  - intros Hnone. destruct Hcur as [[_ E]|E]; [assumption|congruence].
  - intros Hnone. rewrite Hnote. revert Hparse. unfold Schema.parse.
    destruct answer as [| | | | |fields]; try discriminate.
    rewrite Hnone. cbn [Schema.zOptionalString].
    repeat match goal with
           | |- context [match ?m with Some _ => _ | None => _ end] =>
               destruct m; try discriminate
           end.
    now intros [= <-].
Qed.

Lemma created_row_conforms_witness :
  exists o t st',
    postAi Sample.aHost (Some "alice") (Some Sample.textBody) Sample.aState
      = Value (json_created o (Some t), st')
    /\ userId t = "alice" /\ title t <> "" /\ Str.len (currency t) = 3%nat.
Proof.
  assert (Hpost : exists o t st',
             postAi Sample.aHost (Some "alice") (Some Sample.textBody) Sample.aState
               = Value (json_created o (Some t), st'))
    by (eexists; eexists; eexists; vm_compute; reflexivity).
  destruct Hpost as (o & t & st' & Hpost).
  destruct (created_row_conforms _ _ _ _ _ _ _ Hpost)
    as (Hu & _ & _ & _ & Ht & Hc & _).
  exists o, t, st'. repeat split; assumption.
Defined.

(** The occurredAt of a created transaction is the clock, in whole
    seconds, when the answer has no occurredAt or an empty one, and
    otherwise the engine's reading of that string. *)
Lemma created_occurredAt (h : host) (su : option string) (body : option json)
    (st st' : state) (o : extraction) (t : transaction) :
  postAi h su body st = Value (json_created o (Some t), st') ->
  (x_occurredAt o = None \/ x_occurredAt o = Some "" ->
     occurredAt t = nowOccurred h / 1000)
  /\ (forall s, x_occurredAt o = Some s -> s <> "" ->
        exists ms, dateParse h s = Some ms /\ occurredAt t = ms / 1000).
Proof.
  intros H. apply postAi_created_row in H.
  destruct H as (u & p & row & _ & _ & [= <-] & _ & _ & _ & _ & _ & _ & _ & _ & Ho & _).
  split.
  - intros [E|E]; rewrite E in Ho; exact Ho.
  - intros s E Hne. rewrite E, (isEmpty_false _ Hne) in Ho. exact Ho.
Qed.

Lemma created_occurredAt_witness :
  exists o t st',
    postAi Sample.aHost (Some "alice") (Some Sample.textBody) Sample.aState
      = Value (json_created o (Some t), st')
    /\ occurredAt t = 1710046800.
Proof.
  assert (Hpost : exists o t st',
             postAi Sample.aHost (Some "alice") (Some Sample.textBody) Sample.aState
               = Value (json_created o (Some t), st')
             /\ x_occurredAt o = None)
    by (eexists; eexists; eexists; vm_compute; split; reflexivity).
  destruct Hpost as (o & t & st' & Hpost & Ho).
  exists o, t, st'. split; [exact Hpost|].
  exact (proj1 (created_occurredAt _ _ _ _ _ _ _ Hpost) (or_introl Ho)).
Defined.

(** ** One attempt, one row *)

Lemma postAi_outcomes (h : host) (su : option string) (body : option json)
    (st st' : state) (r : response) :
  postAi h su body st = Value (r, st') ->
  (st' = st /\ isError r)
  \/ (exists p, st' = mkState (rows st) (calls st ++ [p])%list
                /\ r = internal_server_error)
  \/ (exists o row p, r = json_created o (Some row)
                      /\ st' = mkState (rows st ++ [row])%list (calls st ++ [p])%list).
Proof.
  unfold postAi.
  destruct su as [u|]; [|intros [= <- <-]; left; now split].
  destruct body as [b|]; cbn [bind caught]; [|intros [= <- <-]; left; now split].
  destruct (Js.ToString (Js.nullish (Js.get b "text") (JStr "")))
    as [rawText| |]; cbn [bind caught]; try discriminate;
    [|intros [= <- <-]; left; now split].
  destruct (Js.ToString (Js.nullish (Js.get b "currency") (JStr "USD")))
    as [rawCur| |]; cbn [bind caught]; try discriminate;
    [|intros [= <- <-]; left; now split].
  destruct (Str.toUpperCase (Str.trim rawCur)) as [cur| |];
    cbn [bind caught]; try discriminate; [|intros [= <- <-]; left; now split].
  destruct (Str.isEmpty (Str.trim rawText)); [intros [= <- <-]; left; now split|].
  set (p := mkPrompt cur (nowToday h) (Str.trim rawText)).
  destruct (generateObject h p) as [obj| |]; cbn [bind caught];
    try discriminate; [|intros [= <- <-]; right; left; now exists p].
  destruct (match x_occurredAt obj with
            | Some s => if Str.isEmpty s then Value (Some (nowOccurred h))
                        else Value (dateParse h s)
            | None => Value (Some (nowOccurred h))
            end) as [occ| |]; cbn [bind caught]; try discriminate;
    [|intros [= <- <-]; right; left; now exists p].
  destruct (Num.toString (x_amount obj)) as [amt| |]; cbn [bind caught];
    try discriminate; [|intros [= <- <-]; right; left; now exists p].
  destruct (bindDate occ) as [secs| |]; cbn [bind caught]; try discriminate;
    [|intros [= <- <-]; right; left; now exists p].
  unfold Db.insert. cbn [id rows].
  destruct (existsb (Db.hasId (randomUUID h)) (rows st));
    cbn [bind caught fst snd hd_error rows calls];
    [intros [= <- <-]; right; left; now exists p|].
  intros [= <- <-]. right. right. eexists obj, _, p. split; reflexivity.
Qed.

(** Every answered POST /ai has made at most one call to the extraction
    service and has at most appended one row, and a row only after a
    call: nothing is retried, and no stored row is touched. *)
Lemma postAi_single_attempt (h : host) (su : option string) (body : option json)
    (st st' : state) (r : response) :
  postAi h su body st = Value (r, st') ->
  exists newRows newCalls,
    rows st' = (rows st ++ newRows)%list
    /\ calls st' = (calls st ++ newCalls)%list
    /\ (List.length newRows <= List.length newCalls <= 1)%nat
    /\ (newRows <> [] <-> exists o t, r = json_created o (Some t)).
Proof.
  intros H. apply postAi_outcomes in H.
  destruct H as [[-> He]|[(p & -> & ->)|(o & row & p & -> & ->)]].
  - exists [], []. rewrite !app_nil_r.
    split; [reflexivity|split; [reflexivity|split; [cbn; lia|split]]].
    + intros E. exfalso. now apply E.
    + intros (o & t & ->). destruct He.
  - exists [], [p]. cbn [rows calls]. rewrite app_nil_r.
    split; [reflexivity|split; [reflexivity|split; [cbn; lia|split]]].
    + intros E. exfalso. now apply E.
    + intros (o & t & E). discriminate.
  - exists [row], [p]. cbn [rows calls].
    split; [reflexivity|split; [reflexivity|split; [cbn; lia|split]]].
    + intros _. now exists o, row.
    + discriminate.
Qed.

Lemma postAi_single_attempt_witness :
  exists r st' p row,
    postAi Sample.aHost (Some "alice") (Some Sample.textBody) Sample.aState
      = Value (r, st')
    /\ rows st' = (rows Sample.aState ++ [row])%list
    /\ calls st' = (calls Sample.aState ++ [p])%list.
Proof.
  assert (Hpost : exists r st',
             postAi Sample.aHost (Some "alice") (Some Sample.textBody) Sample.aState
               = Value (r, st')
             /\ List.length (rows st') = 2%nat /\ List.length (calls st') = 1%nat)
    by (eexists; eexists; vm_compute; repeat split; reflexivity).
  destruct Hpost as (r & st' & Hpost & Hlr & Hlc).
  destruct (postAi_single_attempt _ _ _ _ _ _ Hpost)
    as (newRows & newCalls & Hr & Hc & Hlen & _).
  rewrite Hr in Hlr. rewrite Hc in Hlc. rewrite length_app in Hlr, Hlc.
  cbn in Hlr, Hlc.
  destruct newRows as [|row [|row' more]]; try discriminate.
  destruct newCalls as [|p [|p' more]]; try discriminate.
  exists r, st', p, row. repeat split; assumption.
Defined.

(** ** Create, list, delete *)

(** A transaction just created is in the creator's unfiltered list as
    long as the creator owns no more than 50 rows, and in no list of
    anyone else. *)
Lemma created_is_listed (h : host) (u : string) (body : option json)
    (st st' : state) (o : extraction) (t : transaction) :
  postAi h (Some u) body st = Value (json_created o (Some t), st') ->
  ((List.length (filter (Db.ownedBy u) (rows st')) <= 50)%nat ->
     exists items,
       getTransactions (Some u) None None st' = Value (json_transactions items, st')
       /\ In t items)
  /\ (forall u' dateParam tzOffsetParam items st'',
        u' <> u ->
        getTransactions (Some u') dateParam tzOffsetParam st'
          = Value (json_transactions items, st'') ->
        ~ In t items).
Proof.
  intros H. apply postAi_created_row in H.
  destruct H as (u' & p & row & [= <-] & _ & [= <-] & -> & _ & _ & Hu & _).
  assert (Hin : In t (rows st ++ [t])%list) by (apply in_or_app; right; now left).
  split.
  - intros Hlen. eexists. split; [reflexivity|].
    assert (Hf : forall x, listFilter u None x = Db.ownedBy u x)
      by (intros x; unfold listFilter; apply andb_true_r).
    apply select_complete.
    + now rewrite (filter_ext _ _ Hf).
    + exact Hin.
    + rewrite Hf. now apply String.eqb_eq.
  - intros u' dateParam tzOffsetParam items st'' Hne Hget Hitem.
    apply (getTransactions_owned _ _ _ _ _ _ t) in Hget; [|assumption].
    destruct Hget as [_ Hown]. congruence.
Qed.

Lemma created_is_listed_witness :
  exists o t st' items,
    postAi Sample.aHost (Some "alice") (Some Sample.textBody) Sample.aState
      = Value (json_created o (Some t), st')
    /\ getTransactions (Some "alice") None None st'
       = Value (json_transactions items, st')
    /\ In t items.
Proof.
  assert (Hpost : exists o t st',
             postAi Sample.aHost (Some "alice") (Some Sample.textBody) Sample.aState
               = Value (json_created o (Some t), st')
             /\ (List.length (filter (Db.ownedBy "alice") (rows st')) <= 50)%nat)
    by (eexists; eexists; eexists; split;
        [vm_compute; reflexivity|vm_compute; repeat constructor]).
  destruct Hpost as (o & t & st' & Hpost & Hlen).
  destruct (proj1 (created_is_listed _ _ _ _ _ _ _ Hpost) Hlen) as (items & Hget & Hin).
  exists o, t, st', items. repeat split; assumption.
Defined.

(** Deleting a transaction right after creating it succeeds and leaves
    the table exactly as it was before the creation. *)
Lemma create_then_delete (h : host) (u : string) (body : option json)
    (st st' : state) (o : extraction) (t : transaction) :
  randomUUID h <> "" ->
  postAi h (Some u) body st = Value (json_created o (Some t), st') ->
  deleteTransaction (Some u) (id t) st'
  = Value (json_success, mkState (rows st) (calls st')).
Proof.
  intros Hne H. apply postAi_created_row in H.
  destruct H as (u' & p & row & [= <-] & _ & [= <-] & -> & Hex & Hid & Hu & _).
  unfold deleteTransaction. rewrite Hid, (isEmpty_false _ Hne). rewrite <- Hid.
  cbn [rows calls Db.delete].
  assert (Hold : forall x, In x (rows st) -> Db.idAndOwner (id t) u x = false).
  { intros x Hx. unfold Db.idAndOwner.
    replace (Db.hasId (id t) x) with false; [reflexivity|].
    symmetry. destruct (Db.hasId (id t) x) eqn:E; [|reflexivity].
    assert (existsb (Db.hasId (id t)) (rows st) = true); [|congruence].
    apply existsb_exists. now exists x. }
  assert (Hnew : Db.idAndOwner (id t) u t = true)
    by (apply idAndOwner_true; now split).
  rewrite !filter_app. cbn [filter]. rewrite Hnew. cbn [negb].
  rewrite (proj2 (filter_nil_iff _ _) Hold), (filter_negb_all _ _ Hold).
  cbn [app]. now rewrite app_nil_r.
Qed.

Lemma create_then_delete_witness :
  exists o t st',
    postAi Sample.aHost (Some "alice") (Some Sample.textBody) Sample.aState
      = Value (json_created o (Some t), st')
    /\ deleteTransaction (Some "alice") (id t) st'
       = Value (json_success, mkState (rows Sample.aState) (calls st')).
Proof.
  assert (Hpost : exists o t st',
             postAi Sample.aHost (Some "alice") (Some Sample.textBody) Sample.aState
               = Value (json_created o (Some t), st'))
    by (eexists; eexists; eexists; vm_compute; reflexivity).
  destruct Hpost as (o & t & st' & Hpost).
  exists o, t, st'. split; [exact Hpost|].
  apply (create_then_delete Sample.aHost "alice" (Some Sample.textBody)
           Sample.aState st' o t); [discriminate|exact Hpost].
Defined.

(** ** What DELETE removes *)

Lemma filter_out_one (q : transaction -> bool) (l : list transaction) :
  NoDup (map id l) ->
  (forall x y, q x = true -> q y = true -> id x = id y) ->
  forall t rest, filter q l = t :: rest ->
  rest = [] /\ exists l1 l2, l = (l1 ++ t :: l2)%list
                             /\ filter (fun x => negb (q x)) l = (l1 ++ l2)%list.
Proof.
  intros Hnd Hq. induction l as [|x l IH]; intros t rest Hf; [discriminate|].
  cbn [map] in Hnd. inversion Hnd as [|? ? Hx Hnd']; subst.
  cbn [filter] in Hf |- *. destruct (q x) eqn:Ex.
  - injection Hf as -> Hrest. cbn [negb].
    assert (Hnone : forall y, In y l -> q y = false).
    { intros y Hy. destruct (q y) eqn:Ey; [|reflexivity].
      exfalso. apply Hx. rewrite (Hq t y Ex Ey). now apply in_map. }
    rewrite (proj2 (filter_nil_iff _ _) Hnone) in Hrest. subst rest.
    split; [reflexivity|]. exists [], l. split; [reflexivity|].
    cbn [app]. now apply filter_negb_all.
  - destruct (IH Hnd' t rest Hf) as (Hr & l1 & l2 & -> & Hrem).
    split; [assumption|]. exists (x :: l1), l2. split; [reflexivity|].
    cbn [negb app]. now rewrite Hrem.
Qed.

(** A successful DELETE removes exactly one row, the caller's row with
    that id, and keeps every other row in place; afterwards no list
    shows a transaction with that id. *)
Lemma delete_removes_one (u i : string) (st st' : state) :
  NoDup (map id (rows st)) ->
  deleteTransaction (Some u) i st = Value (json_success, st') ->
  (exists t before after,
      rows st = (before ++ t :: after)%list /\ rows st' = (before ++ after)%list
      /\ id t = i /\ userId t = u)
  /\ calls st' = calls st
  /\ (forall su dateParam tzOffsetParam items st'' x,
        getTransactions su dateParam tzOffsetParam st'
          = Value (json_transactions items, st'') ->
        In x items -> id x <> i).
Proof.
  intros Hnd. unfold deleteTransaction.
  destruct (Str.isEmpty i); [discriminate|].
  destruct (Db.delete (Db.idAndOwner i u) (rows st)) as [ret tb] eqn:Ed.
  destruct ret as [|deleted more]; [discriminate|]. intros [= <-].
  injection Ed as Hret <-. cbn [rows calls].
  assert (Hq : forall x y, Db.idAndOwner i u x = true ->
                           Db.idAndOwner i u y = true -> id x = id y).
  { intros x y Hx Hy. apply idAndOwner_true in Hx, Hy. destruct Hx, Hy. congruence. }
  destruct (filter_out_one _ _ Hnd Hq _ _ Hret) as (_ & l1 & l2 & Hrows & Hrem).
  assert (Hdel : In deleted (filter (Db.idAndOwner i u) (rows st)))
    by (rewrite Hret; now left).
  apply filter_In in Hdel. destruct Hdel as [_ Hdel].
  apply idAndOwner_true in Hdel. destruct Hdel as [Hid Hown].
  split; [exists deleted, l1, l2; repeat split; assumption|].
  split; [reflexivity|].
  intros su dateParam tzOffsetParam items st'' x Hget Hx Hxi.
  destruct su as [caller|]; [|discriminate].
  apply (getTransactions_owned _ _ _ _ _ _ x) in Hget; [|assumption].
  destruct Hget as [Hin _]. cbn [rows] in Hin. rewrite Hrem in Hin.
  rewrite Hrows, map_app in Hnd. cbn [map] in Hnd.
  apply NoDup_remove_2 in Hnd. apply Hnd.
  rewrite <- map_app, Hid, <- Hxi. now apply in_map.
Qed.

Lemma delete_removes_one_witness :
  exists t before after,
    rows Sample.aState = (before ++ t :: after)%list
    /\ id t = "t-1" /\ userId t = "alice".
Proof.
  destruct (delete_removes_one "alice" "t-1" Sample.aState (mkState [] []))
    as ((t & before & after & Hrows & _ & Hid & Hu) & _).
  - cbn. constructor; [intros []|constructor].
  - reflexivity.
  - exists t, before, after. repeat split; assumption.
Defined.

(** ** Dates GET /transactions turns down, and dates it rolls over *)

(** A non-empty date with no tzOffset, with a tzOffset that is not a
    number, or with fewer than three parts, is never answered with a
    list: the answer is 400 "Invalid date or tzOffset" and the store is
    unchanged. *)
Lemma list_rejects_incomplete_date (u : string) (dateParam : string)
    (tzOffsetParam : option string) (st st' : state) (r : response) :
  dateParam <> "" ->
  tzOffsetParam = None
  \/ (exists s, tzOffsetParam = Some s /\ Num.StringToNumber s = Value NaN)
  \/ (List.length (Str.split "-" dateParam) < 3)%nat ->
  getTransactions (Some u) (Some dateParam) tzOffsetParam st = Value (r, st') ->
  r = json_error 400 "Invalid date or tzOffset" /\ st' = st.
Proof.
  intros Hne Hbad. unfold getTransactions. rewrite (isEmpty_false _ Hne).
  assert (Hb : forall b, dayBounds dateParam tzOffsetParam = Value b -> b = None).
  { unfold dayBounds. intros b.
    destruct (numberAt (Str.split "-" dateParam) 0) as [year| |]; cbn [bind];
      try discriminate.
    destruct (numberAt (Str.split "-" dateParam) 1) as [month| |]; cbn [bind];
      try discriminate.
    destruct (numberAt (Str.split "-" dateParam) 2) as [day| |] eqn:Eday;
      cbn [bind]; try discriminate.
    assert (Hguard : forall tzOffset,
               tzOffset = Some NaN \/ day = None ->
               falsy year || falsy month || falsy day || isNaN year || isNaN month
               || isNaN day || isNaN tzOffset = true).
    { intros tzOffset [->| ->]; cbn; rewrite ?orb_true_r; reflexivity. }
    destruct Hbad as [->|[(s & -> & Hs)|Hlen]].
    - cbn [bind]. rewrite Hguard by now left. now intros [= <-].
    - rewrite Hs. cbn [bind]. rewrite Hguard by now left. now intros [= <-].
    - assert (Hday : day = None).
      { unfold numberAt in Eday.
        destruct (nth_error (Str.split "-" dateParam) 2) eqn:En.
        - exfalso. assert (2 < List.length (Str.split "-" dateParam))%nat; [|lia].
          apply nth_error_Some. congruence.
        - now injection Eday. }
      destruct (match tzOffsetParam with
                | Some s => n <- Num.StringToNumber s ;; Value (Some n)
                | None => Value (Some NaN)
                end) as [tzOffset| |]; cbn [bind]; try discriminate.
      rewrite Hguard by now right. now intros [= <-]. }
  destruct (dayBounds dateParam tzOffsetParam) as [b| |]; cbn [bind];
    try discriminate.
  rewrite (Hb b eq_refl). cbn [option_map]. now intros [= <- <-].
Qed.

Lemma list_rejects_incomplete_date_witness :
  getTransactions (Some "alice") (Some "2024-03-10") None Sample.aState
    = Value (json_error 400 "Invalid date or tzOffset", Sample.aState)
  /\ getTransactions (Some "alice") (Some "2024-03") (Some "0") Sample.aState
    = Value (json_error 400 "Invalid date or tzOffset", Sample.aState).
Proof.
  assert (H1 : exists r st',
             getTransactions (Some "alice") (Some "2024-03-10") None Sample.aState
               = Value (r, st'))
    by (eexists; eexists; vm_compute; reflexivity).
  assert (H2 : exists r st',
             getTransactions (Some "alice") (Some "2024-03") (Some "0") Sample.aState
               = Value (r, st'))
    by (eexists; eexists; vm_compute; reflexivity).
  destruct H1 as (r1 & s1 & H1). destruct H2 as (r2 & s2 & H2).
  assert (Hn1 : "2024-03-10" <> "") by discriminate.
  assert (Hn2 : "2024-03" <> "") by discriminate.
  destruct (list_rejects_incomplete_date "alice" "2024-03-10" None Sample.aState
              s1 r1 Hn1 (or_introl eq_refl) H1) as [-> ->].
  assert (Hlen : (List.length (Str.split "-" "2024-03") < 3)%nat)
    by (vm_compute; repeat constructor).
  destruct (list_rejects_incomplete_date "alice" "2024-03" (Some "0") Sample.aState
              s2 r2 Hn2 (or_intror (or_intror Hlen)) H2) as [-> ->].
  split; assumption.
Defined.

Lemma daysOfMonths_step (y m : Z) :
  1 <= m ->
  Calendar.daysOfMonths y (Z.to_nat m)
  = Calendar.daysOfMonths y (Z.to_nat (m - 1)) + Calendar.daysInMonth y m.
Proof.
  intros Hm. replace (Z.to_nat m) with (S (Z.to_nat (m - 1))) by lia.
  cbn [Calendar.daysOfMonths]. do 2 f_equal. lia.
Qed.

Lemma daysOfYears_step (y : Z) :
  1 <= y ->
  Calendar.daysOfYears (Z.to_nat y)
  = Calendar.daysOfYears (Z.to_nat (y - 1)) + Calendar.daysInYear y.
Proof.
  intros Hy. replace (Z.to_nat y) with (S (Z.to_nat (y - 1))) by lia.
  cbn [Calendar.daysOfYears]. do 2 f_equal. lia.
Qed.

Lemma daysOfMonths_year (y : Z) :
  Calendar.daysOfMonths y 11 + 31 = Calendar.daysInYear y.
Proof.
  unfold Calendar.daysInYear. cbv -[Calendar.leap].
  destruct (Calendar.leap y); reflexivity.
Qed.

(** Past the end of a month the day count simply runs on. *)
Lemma utcMidnight_rolled (y m d : Z) :
  1 <= y -> 1 <= m <= 11 -> Calendar.daysInMonth y m < d ->
  Calendar.utcMidnight y m 1 + (d - 1) * 86400000
  = Calendar.utcMidnight y (m + 1) (d - Calendar.daysInMonth y m).
Proof.
  intros Hy Hm Hd. unfold Calendar.utcMidnight.
  replace (m + 1 - 1) with m by lia.
  rewrite (daysOfMonths_step y m) by lia. lia.
Qed.

Lemma UTC_day_of_month (y m d : Z) :
  100 <= y <= 9999 -> 1 <= m <= 12 -> 1 <= d <= 31 ->
  JsDate.UTC y (m - 1) d
  = Value (Some (Calendar.utcMidnight y m 1 + (d - 1) * 86400000)).
Proof.
  intros Hy Hm Hd.
  unfold JsDate.UTC.
  replace ((Z.abs y <=? 1000000) && (Z.abs (m - 1) <=? 1000000)
           && (Z.abs d <=? 1000000)) with true
    by (symmetry; rewrite !andb_true_iff, !Z.leb_le; lia).
  replace ((0 <=? y) && (y <=? 99)) with false
    by (symmetry; apply andb_false_iff; right; apply Z.leb_gt; lia).
  unfold JsDate.MakeDay.
  rewrite (Z.div_small (m - 1) 12), (Z.mod_small (m - 1) 12), Z.add_0_r by lia.
  rewrite DayWithinYear_daysOfMonths by lia.
  replace y with (Z.of_nat (Z.to_nat (y - 1)) + 1) at 1 by lia.
  rewrite DayFromYear_daysOfYears.
  unfold Calendar.utcMidnight, JsDate.msPerDay, JsDate.TimeClip.
  pose proof (daysOfYears_bounds (Z.to_nat (y - 1))) as B1.
  pose proof (daysOfMonths_bounds y (Z.to_nat (m - 1))) as B2.
  unfold Calendar.epochDay in *.
  match goal with
  | |- Value (if ?c then _ else _) = _ =>
      replace c with true by (symmetry; apply Z.leb_le; lia)
  end.
  do 2 f_equal. lia.
Qed.

Lemma dayBounds_day_of_month (dateParam tzParam ys ms ds : string) (y m d tz : Z) :
  Str.split "-" dateParam = [ys; ms; ds] ->
  readsAs ys y -> readsAs ms m -> readsAs ds d -> readsAs tzParam tz ->
  100 <= y <= 9999 -> 1 <= m <= 12 -> 1 <= d <= 31 -> Z.abs tz <= 100000000000 ->
  dayBounds dateParam (Some tzParam)
  = Value (Some (Calendar.utcMidnight y m 1 + (d - 1) * 86400000 + tz * 60000,
                 Calendar.utcMidnight y m 1 + (d - 1) * 86400000 + tz * 60000
                 + 24 * 60 * 60 * 1000)).
Proof.
  intros Hs Hy Hm Hd Htz Hyr Hmr Hdr Hb.
  assert (Hv : Calendar.validDate y m 1).
  { unfold Calendar.validDate. pose proof (daysInMonth_bounds y m). lia. }
  pose proof (utcMidnight_bounds _ _ _ Hv) as [Hmid _].
  pose proof (UTC_day_of_month _ _ _ Hyr Hmr Hdr) as Hutc.
  unfold dayBounds, numberAt. rewrite Hs. cbn [nth_error].
  unfold readsAs in *. rewrite Hy, Hm, Hd, Htz. cbn [bind].
  unfold falsy, isNaN, Num.isNaN. rewrite !truthy_integer.
  rewrite (proj2 (Z.eqb_neq y 0)), (proj2 (Z.eqb_neq m 0)),
    (proj2 (Z.eqb_neq d 0)) by lia.
  cbn [negb orb]. unfold integerOf. rewrite !toInteger_int. cbn [bind].
  rewrite Hutc. cbn [bind].
  replace (Z.abs (tz * 60000) <=? 2 ^ 53) with true
    by (symmetry; apply Z.leb_le; change (2 ^ 53) with 9007199254740992; lia).
  unfold JsDate.TimeClip.
  replace (Z.abs (Calendar.utcMidnight y m 1 + (d - 1) * 86400000 + tz * 60000)
           <=? 8640000000000000)
    with true by (symmetry; apply Z.leb_le; lia).
  replace (Z.abs (Calendar.utcMidnight y m 1 + (d - 1) * 86400000 + tz * 60000
                  + 24 * 60 * 60 * 1000) <=? 8640000000000000)
    with true by (symmetry; apply Z.leb_le; lia).
  reflexivity.
Qed.

(** A day number past the end of its month is not turned down: the
    request is answered with the window of the date that many days into
    the following month (2024-02-31 answers as 2024-03-02). *)
Lemma list_day_rollover (u : string) (st : state)
    (dateParam tzParam ys ms ds : string) (y m d tz : Z) :
  Str.split "-" dateParam = [ys; ms; ds] ->
  readsAs ys y -> readsAs ms m -> readsAs ds d -> readsAs tzParam tz ->
  100 <= y <= 9999 -> 1 <= m <= 11 -> Calendar.daysInMonth y m < d <= 31 ->
  Z.abs tz <= 100000000000 ->
  let lo := Calendar.utcMidnight y (m + 1) (d - Calendar.daysInMonth y m)
            + tz * 60000 in
  answersWindow u st lo (lo + 24 * 60 * 60 * 1000)
    (getTransactions (Some u) (Some dateParam) (Some tzParam) st).
Proof.
  intros Hs Hy Hm Hd Htz Hyr Hmr Hdr Hb lo.
  pose proof (daysInMonth_bounds y m) as Hdim.
  pose proof (dayBounds_day_of_month _ _ _ _ _ _ _ _ _ Hs Hy Hm Hd Htz Hyr
                ltac:(lia) ltac:(lia) Hb) as Hbounds.
  rewrite (utcMidnight_rolled y m d) in Hbounds by lia. fold lo in Hbounds.
  assert (Hv : Calendar.validDate y (m + 1) (d - Calendar.daysInMonth y m)).
  { unfold Calendar.validDate. pose proof (daysInMonth_bounds y (m + 1)). lia. }
  pose proof (utcMidnight_bounds _ _ _ Hv) as [_ Hmod].
  apply window_answer.
  - exact (split_nonempty _ _ _ _ Hs).
  - exact Hbounds.
  - subst lo. Z.div_mod_to_equations. lia.
  - subst lo. Z.div_mod_to_equations. lia.
Qed.

Lemma list_day_rollover_witness :
  answersWindow "alice" Sample.aState
    (Calendar.utcMidnight 2024 3 2 + 0 * 60000)
    (Calendar.utcMidnight 2024 3 2 + 0 * 60000 + 24 * 60 * 60 * 1000)
    (getTransactions (Some "alice") (Some "2024-02-31") (Some "0") Sample.aState).
Proof.
  apply (list_day_rollover "alice" Sample.aState "2024-02-31" "0"
           "2024" "02" "31" 2024 2 31 0); try reflexivity; try lia.
  cbn. lia.
Defined.

(** ** Consecutive days *)

Lemma nextDate_spec (y m d y' m' d' : Z) :
  Calendar.validDate y m d -> y < 9999 -> nextDate y m d = (y', m', d') ->
  Calendar.validDate y' m' d'
  /\ Calendar.utcMidnight y' m' d' = Calendar.utcMidnight y m d + 86400000.
Proof.
  intros (Hy & Hm & Hd) Hlt. unfold nextDate.
  pose proof (daysInMonth_bounds y m) as Hdim.
  destruct (d <? Calendar.daysInMonth y m) eqn:Ed.
  - apply Z.ltb_lt in Ed. intros [= <- <- <-]. split.
    + unfold Calendar.validDate. lia.
    + unfold Calendar.utcMidnight. lia.
  - apply Z.ltb_ge in Ed. assert (d = Calendar.daysInMonth y m) by lia. subst d.
    destruct (m <? 12) eqn:Em.
    + apply Z.ltb_lt in Em. intros [= <- <- <-]. split.
      * unfold Calendar.validDate. pose proof (daysInMonth_bounds y (m + 1)). lia.
      * unfold Calendar.utcMidnight. replace (m + 1 - 1) with m by lia.
        rewrite (daysOfMonths_step y m) by lia. lia.
    + apply Z.ltb_ge in Em. assert (m = 12) by lia. subst m.
      intros [= <- <- <-]. split.
      * unfold Calendar.validDate. pose proof (daysInMonth_bounds (y + 1) 1). lia.
      * unfold Calendar.utcMidnight. replace (y + 1 - 1) with y by lia.
        rewrite (daysOfYears_step y) by lia.
        change (Z.to_nat (12 - 1)) with 11%nat.
        change (Calendar.daysOfMonths (y + 1) (Z.to_nat (1 - 1))) with 0.
        change (Calendar.daysInMonth y 12) with 31.
        pose proof (daysOfMonths_year y) as Hyear. lia.
Qed.

Lemma dayBounds_iso (y m d tz : Z) :
  Calendar.validDate y m d -> 100 <= y -> -1440 <= tz <= 1440 ->
  dayBounds (isoDate y m d) (Some (showInt tz))
  = Value (Some (Calendar.utcMidnight y m d + tz * 60000,
                 Calendar.utcMidnight y m d + tz * 60000 + 24 * 60 * 60 * 1000)).
Proof.
  intros Hv Hy100 Htz. pose proof Hv as (Hy & Hm & Hd).
  pose proof (daysInMonth_bounds y m) as Hdim.
  assert (Hs : Str.split "-" (isoDate y m d) = [pad 4 y; pad 2 m; pad 2 d])
    by (apply isoDate_split; lia).
  apply (dayBounds_valid _ _ _ _ _ _ _ _ _ Hs); try assumption.
  - apply pad4_reads. lia.
  - apply pad2_reads. lia.
  - apply pad2_reads. lia.
  - now apply showInt_reads.
  - lia.
Qed.

(** The windows of two consecutive calendar dates, asked with the same
    tzOffset, meet without a gap and without an overlap: the upper bound
    of the first is the lower bound of the second. *)
Lemma consecutive_days_tile (u : string) (st : state) (y m d tz y' m' d' : Z) :
  Calendar.validDate y m d -> 100 <= y < 9999 -> -1440 <= tz <= 1440 ->
  nextDate y m d = (y', m', d') ->
  let day := 24 * 60 * 60 * 1000 in
  let lo := Calendar.utcMidnight y m d + tz * 60000 in
  answersWindow u st lo (lo + day)
    (getTransactions (Some u) (Some (isoDate y m d)) (Some (showInt tz)) st)
  /\ answersWindow u st (lo + day) (lo + day + day)
    (getTransactions (Some u) (Some (isoDate y' m' d')) (Some (showInt tz)) st).
Proof.
  intros Hv Hy Htz Hnext day lo.
  destruct (nextDate_spec _ _ _ _ _ _ Hv ltac:(lia) Hnext) as [Hv' Hmid].
  assert (Hy' : 100 <= y').
  { revert Hnext. unfold nextDate.
    destruct (d <? Calendar.daysInMonth y m); [intros [= <- _ _]; lia|].
    destruct (m <? 12); intros [= <- _ _]; lia. }
  pose proof (dayBounds_iso _ _ _ _ Hv ltac:(lia) Htz) as Hb.
  pose proof (dayBounds_iso _ _ _ _ Hv' Hy' Htz) as Hb'.
  rewrite Hmid in Hb'.
  replace (Calendar.utcMidnight y m d + 86400000 + tz * 60000) with (lo + day)
    in Hb' by (subst lo day; lia).
  fold lo in Hb.
  pose proof (utcMidnight_bounds _ _ _ Hv) as [_ Hmod].
  assert (Hne : forall a b c, isoDate a b c <> "").
  { intros a b c. unfold isoDate. destruct (pad 4 a); discriminate. }
  split; apply window_answer; try apply Hne; try assumption;
    subst lo day; Z.div_mod_to_equations; lia.
Qed.

Lemma consecutive_days_tile_witness :
  let lo := Calendar.utcMidnight 2024 2 29 + 300 * 60000 in
  answersWindow "alice" Sample.aState lo (lo + 24 * 60 * 60 * 1000)
    (getTransactions (Some "alice") (Some "2024-02-29") (Some "300") Sample.aState)
  /\ answersWindow "alice" Sample.aState (lo + 24 * 60 * 60 * 1000)
       (lo + 24 * 60 * 60 * 1000 + 24 * 60 * 60 * 1000)
       (getTransactions (Some "alice") (Some "2024-03-01") (Some "300") Sample.aState).
Proof.
  apply (consecutive_days_tile "alice" Sample.aState 2024 2 29 300 2024 3 1).
  - unfold Calendar.validDate. cbn. lia.
  - lia.
  - lia.
  - reflexivity.
Defined.
